(** * stock_bot_website: the dashboard scripts docs/script.js and docs/app.js

    A shallow embedding of the two browser scripts and the properties their
    specification states about them.

    - Numbers.  JavaScript numbers are IEEE 754 binary64 values: they are
      embedded as the primitive [float] of the kernel, whose operations are
      the binary64 ones, and facts about them are derived from the
      specification of these operations ([FloatAxioms]).  Array lengths and
      indices are integers below 2^32, carried exactly by a double: they are
      kept as [nat] and enter the float arithmetic through [num_of_nat]
      (so [xMax || 1] is taken on the [nat]; [or_num_of_nat] shows that the
      double agrees).
    - Values.  Decoded JSON is embedded as the inductive [value]; objects keep
      their members in insertion order.  A member access that the engine
      answers with a TypeError is a [Throw].
    - The network.  What a request comes to is an input of the embedding
      ([response]); enrichment takes one per position.
    - The page.  The part of the DOM that [drawChart] writes is the record
      [page]; an SVG element is its tag, its attributes in the order they
      were set, and its text.
    - Built-ins whose result is fixed by the engine and not by this
      repository (decimal parsing and printing of numbers, locale formatting)
      are the Variables of Section [Scripts].  The limit an engine puts on the
      number of arguments of a call ([Math.min(...ys)]) is not modelled. *)

From Stdlib Require Import Floats ZArith List String Ascii Bool Arith Lia.
From Stdlib Require Import Uint63 DecimalString Permutation.
Import ListNotations.

Set Implicit Arguments.
Set Warnings "-register-all".

(* ================================================================== *)
(** ** JavaScript values *)

Inductive value : Type :=
| Undefined
| Null
| Bool (b : bool)
| Num (x : float)
| Str (s : string)
| Arr (elems : list value)
| Obj (members : list (string * value)).

(** The members of an object literal, in insertion order. *)
Definition object := list (string * value).

(** What a script can throw.  [TypeError] is the engine's (member access on
    null or undefined, calling a method that is absent); [Error] is
    [new Error(message)]; the other two are what [fetch] and [r.json()] reject
    with. *)
Inductive exn : Type :=
| Error (message : string)
| TypeError
| AbortError
| SyntaxError.

Inductive result (A : Type) : Type :=
| Ok (a : A)
| Throw (e : exn).
Arguments Ok {A} a.
Arguments Throw {A} e.

Definition bind {A B} (r : result A) (k : A -> result B) : result B :=
  match r with
  | Ok a => k a
  | Throw e => Throw e
  end.

Declare Scope js_scope.
Delimit Scope js_scope with js.
Notation "x <- r ;; k" := (bind r (fun x => k))
  (at level 61, r at next level, right associativity) : js_scope.

(** [xs.map(f)] where [f] can throw: the first exception ends the loop. *)
Fixpoint mapM {A B} (f : A -> result B) (xs : list A) : result (list B) :=
  match xs with
  | [] => Ok []
  | x :: rest =>
      match f x with
      | Throw e => Throw e
      | Ok y =>
          match mapM f rest with
          | Throw e => Throw e
          | Ok ys => Ok (y :: ys)
          end
      end
  end.

(** The index a callback receives as its second argument. *)
Fixpoint indexed_from {A} (i : nat) (xs : list A) : list (nat * A) :=
  match xs with
  | [] => []
  | x :: rest => (i, x) :: indexed_from (S i) rest
  end.

Definition indexed {A} (xs : list A) : list (nat * A) := indexed_from 0 xs.

(** *** Numbers *)

(** The double of a length or of an index. *)
Definition num_of_nat (n : nat) : float := PrimFloat.of_uint63 (Uint63.of_Z (Z.of_nat n)).

(** A number is falsy when it is +0, -0 or NaN. *)
Definition truthy_num (x : float) : bool := negb (PrimFloat.is_zero x || PrimFloat.is_nan x).

(** [a || b] on numbers. *)
Definition or_num (a b : float) : float := if truthy_num a then a else b.

Definition is_neg_zero (x : float) : bool :=
  match PrimFloat.classify x with
  | NZero => true
  | _ => false
  end.

(** [Math.min] and [Math.max] of two arguments: NaN is contagious and -0 is
    below +0. *)
Definition min2 (a b : float) : float :=
  if PrimFloat.is_nan a || PrimFloat.is_nan b then nan
  else if (b <? a)%float then b
  else if (a <? b)%float then a
  else if is_neg_zero b then b else a.

Definition max2 (a b : float) : float :=
  if PrimFloat.is_nan a || PrimFloat.is_nan b then nan
  else if (a <? b)%float then b
  else if (b <? a)%float then a
  else if is_neg_zero a then b else a.

(** [Math.min(...ys)] and [Math.max(...ys)]: with no argument they are
    +Infinity and -Infinity. *)
Definition Math_min (ys : list float) : float := fold_left min2 ys infinity.
Definition Math_max (ys : list float) : float := fold_left max2 ys neg_infinity.

(** *** Truthiness, typeof, members *)

Definition truthy (v : value) : bool :=
  match v with
  | Undefined | Null => false
  | Bool b => b
  | Num x => truthy_num x
  | Str s => negb (String.eqb s EmptyString)
  | Arr _ | Obj _ => true
  end.

(** [a || b] *)
Definition js_or (a b : value) : value := if truthy a then a else b.

(** [v == null] *)
Definition nullish (v : value) : bool :=
  match v with
  | Undefined | Null => true
  | _ => false
  end.

(** [typeof v === 'object'] *)
Definition typeof_object (v : value) : bool :=
  match v with
  | Null | Arr _ | Obj _ => true
  | _ => false
  end.

(** [Array.isArray(v)] *)
Definition isArray (v : value) : bool :=
  match v with
  | Arr _ => true
  | _ => false
  end.

Fixpoint lookup (k : string) (m : object) : option value :=
  match m with
  | [] => None
  | (k', v) :: rest => if String.eqb k k' then Some v else lookup k rest
  end.

(** [o.k = v] and the member [k: v] of an object literal written after a
    spread: an existing member keeps its place and takes the new value, a new
    one goes last. *)
Fixpoint set_member (k : string) (v : value) (m : object) : object :=
  match m with
  | [] => [(k, v)]
  | (k', v') :: rest =>
      if String.eqb k k' then (k', v) :: rest else (k', v') :: set_member k v rest
  end.

Definition nat_to_string (n : nat) : string := NilZero.string_of_uint (Nat.to_uint n).

Fixpoint chars (s : string) : list value :=
  match s with
  | EmptyString => []
  | String c rest => Str (String c EmptyString) :: chars rest
  end.

(** The indexed elements [v[0], v[1], ...] of an array or of a string; other
    primitives have none (their [length] is undefined). *)
Definition elements (v : value) : list value :=
  match v with
  | Arr l => l
  | Str s => chars s
  | _ => []
  end.

(** [v.k] on a value that is neither null nor undefined, for a key [k] that is
    not an index.  Arrays and strings own [length]. *)
Definition member (v : value) (k : string) : value :=
  match v with
  | Obj m =>
      match lookup k m with
      | Some x => x
      | None => Undefined
      end
  | Arr l => if String.eqb k "length" then Num (num_of_nat (List.length l)) else Undefined
  | Str s => if String.eqb k "length" then Num (num_of_nat (String.length s)) else Undefined
  | _ => Undefined
  end.

(** [v[i]] on a value that is neither null nor undefined. *)
Definition at_index (v : value) (i : nat) : value :=
  match v with
  | Obj m =>
      match lookup (nat_to_string i) m with
      | Some x => x
      | None => Undefined
      end
  | _ => nth i (elements v) Undefined
  end.

(** [v.k]: a TypeError on null and undefined. *)
Definition get_member (v : value) (k : string) : result value :=
  if nullish v then Throw TypeError else Ok (member v k).

(** [v?.k] and [v?.[i]] *)
Definition opt_member (v : value) (k : string) : value :=
  if nullish v then Undefined else member v k.

Definition opt_index (v : value) (i : nat) : value :=
  if nullish v then Undefined else at_index v i.

(** [k in v] for an object or array [v] and a key that is not an index and
    that no prototype owns. *)
Definition has_key (k : string) (v : value) : bool :=
  match v with
  | Obj m =>
      match lookup k m with
      | Some _ => true
      | None => false
      end
  | Arr l => String.eqb k "length"
  | _ => false
  end.

(** The own enumerable members that [{...v}] copies. *)
Definition spread (v : value) : object :=
  match v with
  | Obj m => m
  | Arr _ | Str _ => map (fun ix => (nat_to_string (fst ix), snd ix)) (indexed (elements v))
  | _ => []
  end.

(** [v.k = x] on an object. *)
Definition assign (k : string) (x : value) (v : value) : value :=
  match v with
  | Obj m => Obj (set_member k x m)
  | _ => v
  end.

(** The double quote, for messages that carry one. *)
Definition dquote : string := String (ascii_of_nat 34) EmptyString.

(** *** Requests *)

(** What one request over the network comes to: [fetch] rejects (transport
    failure, or the abort that the timer fires after [ms] milliseconds), or it
    resolves with a response whose [json()] resolves or rejects. *)
Inductive response : Type :=
| Rejected (e : exn)
| Resolved (ok : bool) (status : nat) (json : result value).

(** *** Sample inputs *)

(** Stand-ins for the built-ins of the engine, for running the scripts on
    inputs that hold no numeral to parse. *)
Definition stub_StringToNumber (s : string) : float := nan.
Definition stub_NumberToString (x : float) : string := EmptyString.
Definition stub_toLocaleString (x : float) (lo hi : nat) : string := EmptyString.

(** A quote response, as the endpoint nests it. *)
Definition quote_response (closes : list value) : value :=
  Obj [("chart"%string,
        Obj [("result"%string,
              Arr [Obj [("indicators"%string,
                         Obj [("quote"%string,
                               Arr [Obj [("close"%string, Arr closes)]])])]])])].

Definition position (ticker : string) (qty avg_price : float) : value :=
  Obj [("ticker"%string, Str ticker); ("qty"%string, Num qty);
       ("avg_price"%string, Num avg_price)].

(** Two positions; the request of the first resolves with a last close of
    150, the request of the second is aborted. *)
Definition sample_positions : list value := [position "A" 2 100; position "B" 3 50].

Definition sample_net (i : nat) : response :=
  match i with
  | O => Resolved true 200 (Ok (quote_response [Num 149; Num 150; Null]))
  | _ => Rejected AbortError
  end.

(** A position that has no [qty]. *)
Definition position_without_qty : value :=
  Obj [("ticker"%string, Str "A"); ("avg_price"%string, Num 100)].

Definition equity_point (equity : float) : value := Obj [("equity"%string, Num equity)].

(** Three market values whose sum depends on the order: 2^53, 1 and -2^53. *)
Definition holding (market_value : float) : object := [("market_value"%string, Num market_value)].

Definition holdings : list object :=
  [holding 9007199254740992; holding 1; holding (-9007199254740992)].

Definition holdings_reordered : list object :=
  [holding 9007199254740992; holding (-9007199254740992); holding 1].

(** Stand-ins for the rest of the engine: every date is invalid, so that
    [fmtDate] shows its input, and nothing is written for a date, a JSON
    text or an exception that is no [Error]. *)
Definition stub_newDate (v : value) : float := nan.
Definition stub_toLocaleDateString (t : float) : string := EmptyString.
Definition stub_Date_toLocaleString (t : float) : string := EmptyString.
Definition stub_JSON_stringify (v : value) : string := EmptyString.
Definition stub_engine_message (e : exn) : string := EmptyString.
Definition stub_engine_string (e : exn) : string := EmptyString.

(** The sample positions, enriched. *)
Definition sample_enriched : list object :=
  [ [("ticker", Str "A"); ("qty", Num 2); ("avg_price", Num 100);
     ("current_price", Num 150); ("market_value", Num 300); ("unrealized_pl", Num 100)];
    [("ticker", Str "B"); ("qty", Num 3); ("avg_price", Num 50);
     ("current_price", Num 0); ("market_value", Num 0); ("unrealized_pl", Num 0)] ]%string.


Definition series_payload (points : list value) : value :=
  Obj [("equity_series"%string, Arr points)].

(** A series of 31 elements, the oldest of which is null. *)
Definition old_gap_points : list value := Null :: repeat (equity_point 1) 30.

(** No quote request gets through. *)
Definition offline_net (i : nat) : response := Rejected AbortError.

(* ================================================================== *)
(** ** The scripts *)

Section Scripts.

(** The engine's StringToNumber and Number::toString, and
    [Number.prototype.toLocaleString(undefined, {minimumFractionDigits,
    maximumFractionDigits})]. *)
Variable StringToNumber : string -> float.
Variable NumberToString : float -> string.
Variable toLocaleString : float -> nat -> nat -> string.

(** [String(v)], also what a template literal makes of [v]. *)
Fixpoint to_string (v : value) : string :=
  match v with
  | Undefined => "undefined"
  | Null => "null"
  | Bool true => "true"
  | Bool false => "false"
  | Num x => NumberToString x
  | Str s => s
  | Arr l =>
      String.concat ","
        (map (fun e => match e with
                       | Undefined | Null => EmptyString
                       | _ => to_string e
                       end) l)
  | Obj _ => "[object Object]"
  end.

(** [Number(v)], also the coercion of an operand of [-], [*] and [/]. *)
Definition Number (v : value) : float :=
  match v with
  | Undefined => nan
  | Null => 0
  | Bool true => 1
  | Bool false => 0
  | Num x => x
  | Str s => StringToNumber s
  | Arr _ => StringToNumber (to_string v)
  | Obj _ => nan
  end.

(** *** docs/script.js: helpers *)

(** [fmtNumber(n, d = 2)] *)
Definition fmtNumber (n : value) (d : nat) : string := toLocaleString (Number n) d d.

(** [signFmt(n, d = 2)]; the minus is U+2212. *)
Definition minus_sign : string :=
  String (ascii_of_nat 226) (String (ascii_of_nat 136) (String (ascii_of_nat 146) EmptyString)).

Definition signFmt (n : value) (d : nat) : string :=
  let s := Number n in
  let str := fmtNumber (Num (abs s)) d in
  ((if (0 <=? s)%float then "+" else minus_sign) ++ str)%string.

(** [pctFmt(n)] *)
Definition pctFmt (n : value) : string :=
  let s := Number n in
  let str := fmtNumber (Num (abs s)) 2 in
  ((if (0 <=? s)%float then "+" else minus_sign) ++ str ++ "%")%string.

(** [fetchWithTimeout(url, ms)], given what the request comes to. *)
Definition fetchWithTimeout (r : response) : result value :=
  match r with
  | Rejected e => Throw e
  | Resolved ok status json =>
      if negb ok then Throw (Error ("HTTP " ++ nat_to_string status)) else json
  end.

(** The loop of [getLivePrice]: [for (let i = n - 1; i >= 0; i--)] returning
    the first [closes[i]] that is neither null nor undefined. *)
Fixpoint last_close (closes : list value) (n : nat) : option value :=
  match n with
  | O => None
  | S i =>
      let c := nth i closes Undefined in
      if negb (nullish c) then Some c else last_close closes i
  end.

(** [getLivePrice(ticker)], given what its request comes to.  [closes] is the
    array the response carries, or [[]]; of a truthy [close] that is not an
    array the loop sees the indexed elements (an object that carries a numeric
    [length] of its own is outside this embedding). *)
Definition getLivePrice (r : response) (ticker : value) : result float :=
  (data <- fetchWithTimeout r ;;
   let res := opt_index (opt_member (opt_member data "chart") "result") 0 in
   let closes :=
     js_or (opt_member (opt_index (opt_member (opt_member res "indicators") "quote") 0) "close")
           (Arr []) in
   match last_close (elements closes) (List.length (elements closes)) with
   | Some c => Ok (Number c)
   | None => Throw (Error ("No price for " ++ to_string ticker))
   end)%js.

(** *** docs/script.js: validation *)

Definition validatePayload (data : value) : result value :=
  if negb (truthy data) || negb (typeof_object data) then
    Throw (Error "Invalid JSON payload.")
  else if negb (has_key "equity_series" data) then
    Throw (Error ("Missing " ++ dquote ++ "equity_series" ++ dquote ++ " array."))
  else if negb (isArray (member data "equity_series")) then
    Throw (Error (dquote ++ "equity_series" ++ dquote ++ " must be an array."))
  else
    Ok (if negb (has_key "positions" data) then assign "positions" (Arr []) data else data).

(** *** docs/script.js: enrichment *)

(** The body of the async callback of [positions.map]: what the promise of
    one position settles to. *)
Definition enrich_one (r : response) (p : value) : result object :=
  (ticker <- get_member p "ticker" ;;
   price <- getLivePrice r ticker ;;
   let qty := Number (js_or (member p "qty") (Num 0)) in
   let avg := Number (js_or (member p "avg_price") (Num 0)) in
   let mv := (qty * price)%float in
   let upl := ((price - avg) * qty)%float in
   Ok (set_member "unrealized_pl" (Num upl)
        (set_member "market_value" (Num mv)
          (set_member "current_price" (Num price) (spread p)))))%js.

(** The callback of [results.map]: a fulfilled promise gives its value, a
    rejected one the position with zeroed derived fields ([p.ticker] is read
    for the warning first). *)
Definition recover (p : value) (res : result object) : result object :=
  match res with
  | Ok v => Ok v
  | Throw _ =>
      (_ <- get_member p "ticker" ;;
       Ok (set_member "unrealized_pl" (Num 0)
            (set_member "market_value" (Num 0)
              (set_member "current_price" (Num 0) (spread p)))))%js
  end.

(** [enrichPositionsWithLivePrices(positions)]; [net i] is what the request
    of the position at index [i] comes to.  [Promise.allSettled] waits for
    every promise and keeps their order. *)
Definition enrichPositionsWithLivePrices (net : nat -> response) (positions : list value)
  : result (list object) :=
  let results := map (fun ip => enrich_one (net (fst ip)) (snd ip)) (indexed positions) in
  mapM (fun rp => recover (snd rp) (fst rp)) (combine results positions).

(** *** docs/script.js: tables and KPIs *)

(** [plPct] of [renderPositions] and of the one-ticker panel. *)
Definition plPct (pos : object) : float :=
  let avg_price := member (Obj pos) "avg_price" in
  let current_price := member (Obj pos) "current_price" in
  if truthy avg_price
  then ((Number current_price - Number avg_price) / Number avg_price * 100)%float
  else 0%float.

Definition up_down (up : bool) : string := if up then "up" else "down".

(** The row [renderPositions] makes of one position: the class and the text
    of its seven cells. *)
Definition position_row (pos : object) : list (string * string) :=
  let up := (0 <=? plPct pos)%float in
  [ (EmptyString, to_string (member (Obj pos) "ticker"));
    (EmptyString, fmtNumber (member (Obj pos) "qty") 4);
    (EmptyString, fmtNumber (member (Obj pos) "avg_price") 2);
    (up_down up, fmtNumber (member (Obj pos) "current_price") 2);
    (EmptyString, fmtNumber (member (Obj pos) "market_value") 2);
    (up_down (0 <=? Number (member (Obj pos) "unrealized_pl"))%float,
     signFmt (member (Obj pos) "unrealized_pl") 2);
    (up_down up, pctFmt (Num (plPct pos))) ].

(** [renderPositions(positions)]: the rows of the table body. *)
Definition renderPositions (positions : list object) : list (list (string * string)) :=
  match positions with
  | [] => [[(EmptyString, "No positions."%string)]]
  | _ => map position_row positions
  end.

(** [cost], [portfolioValue] and [vsBasisPct] of [renderKpis]. *)
Definition cost (payload : value) : float :=
  Number (js_or (member payload "invested_cost_basis") (Num 0)).

Definition portfolioValue (enrichedPositions : list object) : float :=
  fold_left (fun s p => (s + Number (js_or (member (Obj p) "market_value") (Num 0)))%float)
            enrichedPositions 0%float.

Definition vsBasisPct (payload : value) (enrichedPositions : list object) : float :=
  if truthy_num (cost payload)
  then ((portfolioValue enrichedPositions - cost payload) / cost payload * 100)%float
  else 0%float.

(** What [renderKpis] writes: the two texts and the class of the KPI card,
    and the one-ticker panel (symbol, price text, class of the price, percent
    text, class of the percent) when it is shown. *)
Record kpi_view : Type := {
  portfolioValue_text : string;
  portfolioPct_text : string;
  portfolioPct_class : string;
  oneTicker : option (value * string * string * string * string)
}.

Definition renderKpis (payload : value) (enrichedPositions : list object) : kpi_view :=
  let pv := portfolioValue enrichedPositions in
  let pct := vsBasisPct payload enrichedPositions in
  let up := (0 <=? pct)%float in
  {| portfolioValue_text := ("$" ++ fmtNumber (Num pv) 2)%string;
     portfolioPct_text := pctFmt (Num pct);
     portfolioPct_class := up_down up;
     oneTicker :=
       match enrichedPositions with
       | [p] =>
           let up1 := (0 <=? plPct p)%float in
           Some (member (Obj p) "ticker",
                 ("$" ++ fmtNumber (member (Obj p) "current_price") 2)%string,
                 ("value " ++ up_down up1)%string,
                 pctFmt (Num (plPct p)),
                 up_down up1)
       | _ => None
       end |}.

(** *** The chart of docs/script.js and docs/app.js *)

(** An attribute as [setAttribute] receives it, before the DOM turns it into
    text; the [d] of the path is kept as its commands. *)
Inductive path_cmd : Type :=
| MoveTo (x y : float)
| LineTo (x y : float).

Inductive attr : Type :=
| ANum (x : float)
| AStr (s : string)
| APath (d : list path_cmd).

Record element : Type := {
  tagName : string;
  attributes : list (string * attr);
  textContent : string
}.

(** The part of the page [drawChart] touches: the children and attributes of
    [el.chart], and [el.chartWrap.style.display]. *)
Record page : Type := {
  chart_children : list element;
  chart_attributes : list (string * attr);
  chartWrap_display : string
}.

Definition createElementNS (tag : string) : element :=
  {| tagName := tag; attributes := []; textContent := EmptyString |}.

Fixpoint set_attr (k : string) (v : attr) (l : list (string * attr)) : list (string * attr) :=
  match l with
  | [] => [(k, v)]
  | (k', v') :: rest =>
      if String.eqb k k' then (k', v) :: rest else (k', v') :: set_attr k v rest
  end.

Definition setAttribute (k : string) (v : attr) (e : element) : element :=
  {| tagName := tagName e; attributes := set_attr k v (attributes e); textContent := textContent e |}.

Definition set_text (t : string) (e : element) : element :=
  {| tagName := tagName e; attributes := attributes e; textContent := t |}.

Definition remove_children (pg : page) : page :=
  {| chart_children := []; chart_attributes := chart_attributes pg;
     chartWrap_display := chartWrap_display pg |}.

Definition set_display (d : string) (pg : page) : page :=
  {| chart_children := chart_children pg; chart_attributes := chart_attributes pg;
     chartWrap_display := d |}.

Definition set_chart_attribute (k : string) (v : attr) (pg : page) : page :=
  {| chart_children := chart_children pg; chart_attributes := set_attr k v (chart_attributes pg);
     chartWrap_display := chartWrap_display pg |}.

Definition appendChild (e : element) (pg : page) : page :=
  {| chart_children := chart_children pg ++ [e]; chart_attributes := chart_attributes pg;
     chartWrap_display := chartWrap_display pg |}.

Definition W : float := 800.
Definition H : float := 220.
Definition PAD : float := 18.

(** [const xScale = i => PAD + i * (W - 2 * PAD) / (xMax || 1)] *)
Definition xScale (xMax : nat) (i : nat) : float :=
  (PAD + num_of_nat i * (W - 2 * PAD) / num_of_nat (if Nat.eqb xMax 0 then 1 else xMax))%float.

(** [const yScale = v => H - PAD - (v - yMin) * (H - 2 * PAD) / ((yMax - yMin) || 1)] *)
Definition yScale (yMin yMax : float) (v : value) : float :=
  (H - PAD - (Number v - yMin) * (H - 2 * PAD) / or_num (yMax - yMin) 1)%float.

(** [Number(p.equity)], [Number(p.close)] *)
Definition plotted (key : string) (p : value) : result float :=
  (v <- get_member p key ;; Ok (Number v))%js.

(** [ys[ys.length - 1]] *)
Definition last_value (ys : list float) : value :=
  match nth_error ys (List.length ys - 1) with
  | Some y => Num y
  | None => Undefined
  end.

(** The [forEach] that builds [d]: [M x y] for the first point, [L x y] for
    the others. *)
Definition path_data (key : string) (xMax : nat) (yMin yMax : float) (series : list value)
  : result (list path_cmd) :=
  mapM (fun ip =>
          (v <- plotted key (snd ip) ;;
           let x := xScale xMax (fst ip) in
           let y := yScale yMin yMax (Num v) in
           Ok (if Nat.eqb (fst ip) 0 then MoveTo x y else LineTo x y))%js)
       (indexed series).

Definition grid_line (y : float) : element :=
  setAttribute "stroke-dasharray" (AStr "4 4")
    (setAttribute "stroke" (AStr "#2a355f")
      (setAttribute "y2" (ANum y)
        (setAttribute "y1" (ANum y)
          (setAttribute "x2" (ANum (W - PAD)%float)
            (setAttribute "x1" (ANum PAD) (createElementNS "line")))))).

Definition path_element (d : list path_cmd) : element :=
  setAttribute "stroke-width" (AStr "2.5")
    (setAttribute "stroke" (AStr "#6ae2a0")
      (setAttribute "fill" (AStr "none")
        (setAttribute "d" (APath d) (createElementNS "path")))).

Definition dot_element (cx cy : float) : element :=
  setAttribute "fill" (AStr "#6ae2a0")
    (setAttribute "r" (ANum 4.5)
      (setAttribute "cy" (ANum cy)
        (setAttribute "cx" (ANum cx) (createElementNS "circle")))).

(** One entry [{x, y, t}] of [lbls] and the text element made of it. *)
Definition label_element (l : float * float * string) : element :=
  let '(x, y, t) := l in
  set_text t
    (setAttribute "text-anchor" (AStr (if (x <? W / 2)%float then "start" else "end"))
      (setAttribute "font-size" (AStr "11")
        (setAttribute "fill" (AStr "#9aa3b2")
          (setAttribute "y" (ANum y)
            (setAttribute "x" (ANum x) (createElementNS "text")))))).

(** [drawChart(series)], plotting the member [key] of each point; the page
    after the call, and whether the call returned or threw. *)
Definition drawChart_on (key : string) (series : value) (pg : page) : page * result unit :=
  let pg := remove_children pg in
  match series with
  | Arr points =>
      if List.length points <? 2 then (set_display "none" pg, Ok tt)
      else
        let pg := set_display EmptyString pg in
        let pg := set_chart_attribute "viewBox"
                    (AStr ("0 0 " ++ NumberToString W ++ " " ++ NumberToString H)) pg in
        match mapM (plotted key) points with
        | Throw e => (pg, Throw e)
        | Ok values =>
            let ys := filter (fun v => negb (PrimFloat.is_nan v)) values in
            let xMax := List.length points - 1 in
            let yMin := Math_min ys in
            let yMax := Math_max ys in
            let last := last_value ys in
            let pg := appendChild (grid_line (yScale yMin yMax last)) pg in
            match path_data key xMax yMin yMax points with
            | Throw e => (pg, Throw e)
            | Ok d =>
                let pg := appendChild (path_element d) pg in
                let pg := appendChild (dot_element (xScale xMax xMax) (yScale yMin yMax last)) pg in
                let lbls := [ (PAD, (H - 4)%float, fmtNumber (Num yMin) 2);
                              ((W - PAD)%float, (H - 4)%float, fmtNumber (Num yMax) 2) ] in
                (fold_left (fun pg l => appendChild (label_element l) pg) lbls pg, Ok tt)
            end
        end
  | _ => (set_display "none" pg, Ok tt)
  end.

(** docs/script.js plots [equity], docs/app.js plots [close]. *)
Definition drawChart : value -> page -> page * result unit := drawChart_on "equity".
Definition drawChart_app : value -> page -> page * result unit := drawChart_on "close".

(** The number of points of a series; what is not an array has none. *)
Definition point_count (series : value) : option nat :=
  match series with
  | Arr points => Some (List.length points)
  | _ => None
  end.

(** The page after a chart was hidden: no child, the display switched off. *)
Definition hidden (pg : page) : page :=
  {| chart_children := []; chart_attributes := chart_attributes pg;
     chartWrap_display := "none" |}.

(** The member [chart.result[0].indicators.quote[0].close] of a quote
    response, read as [getLivePrice] reads it. *)
Definition quote_close (data : value) : value :=
  opt_member
    (opt_index
      (opt_member
        (opt_member (opt_index (opt_member (opt_member data "chart") "result") 0) "indicators")
        "quote") 0)
    "close".

(** The quantity and the average price enrichment computes with. *)
Definition qty_of (p : value) : float := Number (js_or (member p "qty") (Num 0)).
Definition avg_of (p : value) : float := Number (js_or (member p "avg_price") (Num 0)).

Definition derived_key (k : string) : bool :=
  String.eqb k "current_price" || String.eqb k "market_value" || String.eqb k "unrealized_pl".

(** [o] is the position [p] with its three derived fields set: every other
    member of [o] is the member of [p], and [o] has no other. *)
Definition resolves_to (p : value) (o : object) (current_price market_value unrealized_pl : float)
  : Prop :=
  lookup "current_price" o = Some (Num current_price)
  /\ lookup "market_value" o = Some (Num market_value)
  /\ lookup "unrealized_pl" o = Some (Num unrealized_pl)
  /\ forall k, derived_key k = false -> lookup k o = lookup k (spread p).

(** The market value [renderKpis] adds for one position. *)
Definition market_value_of (p : object) : float :=
  Number (js_or (member (Obj p) "market_value") (Num 0)).

(** The sum of a sequence of doubles, taken from 0 in sequence order. *)
Fixpoint sum_from (acc : float) (xs : list float) : float :=
  match xs with
  | [] => acc
  | x :: rest => sum_from (acc + x)%float rest
  end.

Definition float_sum (xs : list float) : float := sum_from 0%float xs.

(** What the promise of one position comes to after recovery. *)
Definition settled (r : response) (p : value) : object :=
  match getLivePrice r (member p "ticker") with
  | Ok price =>
      set_member "unrealized_pl" (Num ((price - avg_of p) * qty_of p)%float)
        (set_member "market_value" (Num (qty_of p * price)%float)
          (set_member "current_price" (Num price) (spread p)))
  | Throw _ =>
      set_member "unrealized_pl" (Num 0)
        (set_member "market_value" (Num 0)
          (set_member "current_price" (Num 0) (spread p)))
  end.

(** The value [drawChart] plots for a point, and [ys]: the plotted values of
    a series that are numbers. *)
Definition plotted_value (key : string) (p : value) : float := Number (member p key).

Definition plotted_values (key : string) (points : list value) : list float :=
  filter (fun v => negb (PrimFloat.is_nan v)) (map (plotted_value key) points).

(** The vertex a path command ends at. *)
Definition vertex (c : path_cmd) : float * float :=
  match c with
  | MoveTo x y => (x, y)
  | LineTo x y => (x, y)
  end.

Fixpoint get_attr (k : string) (l : list (string * attr)) : option attr :=
  match l with
  | [] => None
  | (k', v) :: rest => if String.eqb k k' then Some v else get_attr k rest
  end.

(** The vertices of the paths among the children of the chart, and the
    centres of its circles. *)
Definition path_vertices (e : element) : option (list (float * float)) :=
  match get_attr "d" (attributes e) with
  | Some (APath d) => if String.eqb (tagName e) "path" then Some (map vertex d) else None
  | _ => None
  end.

Definition circle_centre (e : element) : option (float * float) :=
  match get_attr "cx" (attributes e), get_attr "cy" (attributes e) with
  | Some (ANum cx), Some (ANum cy) =>
      if String.eqb (tagName e) "circle" then Some (cx, cy) else None
  | _, _ => None
  end.

Fixpoint pick {A B} (f : A -> option B) (xs : list A) : list B :=
  match xs with
  | [] => []
  | x :: rest =>
      match f x with
      | Some y => y :: pick f rest
      | None => pick f rest
      end
  end.

Definition polylines (pg : page) : list (list (float * float)) :=
  pick path_vertices (chart_children pg).

Definition markers (pg : page) : list (float * float) :=
  pick circle_centre (chart_children pg).

(** The vertex of point [i] of [N] with plotted value [v], as the
    specification gives it: the divisor of the abscissa is [max(N-1, 1)], the
    divisor of the ordinate is the range [yMax - yMin], and 1 when
    [yMax = yMin]. *)
Definition range_divisor (yMin yMax : float) : float :=
  if (yMax =? yMin)%float then 1%float else (yMax - yMin)%float.

Definition spec_vertex (N : nat) (yMin yMax : float) (i : nat) (v : float) : float * float :=
  ((PAD + num_of_nat i * (W - 2 * PAD) / num_of_nat (Nat.max (N - 1) 1))%float,
   (H - PAD - (v - yMin) * (H - 2 * PAD) / range_divisor yMin yMax)%float).

(** Vertex [i] of the vertices [vs] is where the specification puts point
    [p], the point [i] of [points]: [yMin] and [yMax] are the least and the
    greatest of the plotted values that are numbers (and among them, when
    there is one), and the divisor of the ordinate is neither a zero nor
    NaN. *)
Definition vertex_as_specified (key : string) (points : list value) (i : nat) (p : value)
           (vs : list (float * float)) : Prop :=
  let ys := plotted_values key points in
  let yMin := Math_min ys in
  let yMax := Math_max ys in
  nth_error vs i = Some (spec_vertex (List.length points) yMin yMax i (plotted_value key p))
  /\ truthy_num (range_divisor yMin yMax) = true
  /\ Forall (fun y => (yMin <=? y)%float = true /\ (y <=? yMax)%float = true) ys
  /\ (ys <> [] -> In yMin ys /\ In yMax ys).

(** A double that is neither a zero nor NaN, read on its specification. *)
Definition finite_or_inf (s : spec_float) : bool :=
  match s with
  | S754_finite _ _ _ | S754_infinity _ => true
  | _ => false
  end.

(** [d], the commands of the path of a series none of whose points is null
    or undefined. *)
Definition drawn_path (key : string) (points : list value) : list path_cmd :=
  let xMax := List.length points - 1 in
  let ys := plotted_values key points in
  map (fun ip =>
         let x := xScale xMax (fst ip) in
         let y := yScale (Math_min ys) (Math_max ys) (Num (plotted_value key (snd ip))) in
         if Nat.eqb (fst ip) 0 then MoveTo x y else LineTo x y)
      (indexed points).

(** A page whose chart is empty. *)
Definition blank_page : page :=
  {| chart_children := []; chart_attributes := []; chartWrap_display := EmptyString |}.

(** *** docs/script.js and docs/app.js: the rest of the page *)

(** More of the engine: the time value of [new Date(v)] (NaN when [v] is no
    date), [toLocaleDateString()] and [toLocaleString()] of a date,
    [JSON.stringify(v, null, 2)], and the [message] and the [String(e)] of an
    exception the engine creates. *)
Variable newDate : value -> float.
Variable toLocaleDateString : float -> string.
Variable Date_toLocaleString : float -> string.
Variable JSON_stringify : value -> string.
Variable engine_message : exn -> string.
Variable engine_string : exn -> string.

(** [err.message] and [String(err)] *)
Definition exn_message (e : exn) : string :=
  match e with
  | Error m => m
  | _ => engine_message e
  end.

Definition exn_string (e : exn) : string :=
  match e with
  | Error m => if String.eqb m EmptyString then "Error" else ("Error: " ++ m)%string
  | _ => engine_string e
  end.

(** [fmtDate(iso)] *)
Definition fmtDate (iso : value) : string :=
  let d :=
    if truthy iso && (Number (member iso "length") <=? 10)%float
    then newDate (Str (to_string iso ++ "T00:00:00"))
    else newDate iso in
  if PrimFloat.is_nan d then to_string iso else toLocaleDateString d.

(** A row of a table body: the placeholder that spans the columns, or the
    texts interpolated into the cells. *)
Inductive row : Type :=
| placeholder_row (colspan : nat) (text : string)
| data_row (cells : list string).

(** The [forEach] of [renderEquityTable] and of [renderTable]: the rows
    appended so far, and whether the loop returned or threw. *)
Fixpoint append_rows (key : string) (points : list value) (body : list row)
  : list row * result unit :=
  match points with
  | [] => (body, Ok tt)
  | p :: rest =>
      match get_member p "date" with
      | Throw e => (body, Throw e)
      | Ok date =>
          match get_member p key with
          | Throw e => (body, Throw e)
          | Ok x => append_rows key rest (body ++ [data_row [fmtDate date; fmtNumber x 2]])
          end
      end
  end.

(** [series.slice(-30)] *)
Definition last30 (points : list value) : list value :=
  skipn (List.length points - 30) points.

(** [renderEquityTable(series)] and [renderTable(series)]: the table body
    after the call, and whether the call returned or threw. *)
Definition renderTable_on (key : string) (series : value) : list row * result unit :=
  match series with
  | Arr points =>
      if Nat.eqb (List.length points) 0
      then ([placeholder_row 2 "No data points."], Ok tt)
      else append_rows key (last30 points) []
  | _ => ([placeholder_row 2 "No data points."], Ok tt)
  end.

Definition renderEquityTable : value -> list row * result unit := renderTable_on "equity".
Definition renderTable : value -> list row * result unit := renderTable_on "close".

(** docs/app.js: [validatePayload(data)] *)
Definition validatePayload_app (data : value) : result value :=
  if negb (truthy data) || negb (typeof_object data) then
    Throw (Error "Invalid JSON payload.")
  else if negb (has_key "ticker" data) then
    Throw (Error ("Missing " ++ dquote ++ "ticker" ++ dquote ++ " field."))
  else if negb (has_key "series" data) then
    Throw (Error ("Missing " ++ dquote ++ "series" ++ dquote ++ " field."))
  else if negb (isArray (member data "series")) then
    Throw (Error (dquote ++ "series" ++ dquote ++ " must be an array."))
  else Ok data.

(** The part of the page of docs/script.js that rendering and loading write. *)
Record view : Type := {
  title_text : string;
  lastUpdate_text : string;
  status_className : string;
  status_text : string;
  raw_text : string;
  errorBox_hidden : bool;
  errorMsg_text : string;
  equityBody : list row;
  chart_page : page;
  posBody : list (list (string * string));
  kpi_card : option kpi_view
}.

Definition set_title (t : string) (v : view) : view :=
  {| title_text := t; lastUpdate_text := lastUpdate_text v;
     status_className := status_className v; status_text := status_text v;
     raw_text := raw_text v; errorBox_hidden := errorBox_hidden v;
     errorMsg_text := errorMsg_text v; equityBody := equityBody v;
     chart_page := chart_page v; posBody := posBody v; kpi_card := kpi_card v |}.

Definition set_lastUpdate (t : string) (v : view) : view :=
  {| title_text := title_text v; lastUpdate_text := t;
     status_className := status_className v; status_text := status_text v;
     raw_text := raw_text v; errorBox_hidden := errorBox_hidden v;
     errorMsg_text := errorMsg_text v; equityBody := equityBody v;
     chart_page := chart_page v; posBody := posBody v; kpi_card := kpi_card v |}.

Definition set_raw (t : string) (v : view) : view :=
  {| title_text := title_text v; lastUpdate_text := lastUpdate_text v;
     status_className := status_className v; status_text := status_text v;
     raw_text := t; errorBox_hidden := errorBox_hidden v;
     errorMsg_text := errorMsg_text v; equityBody := equityBody v;
     chart_page := chart_page v; posBody := posBody v; kpi_card := kpi_card v |}.

Definition set_error (hidden : bool) (msg : string) (v : view) : view :=
  {| title_text := title_text v; lastUpdate_text := lastUpdate_text v;
     status_className := status_className v; status_text := status_text v;
     raw_text := raw_text v; errorBox_hidden := hidden;
     errorMsg_text := msg; equityBody := equityBody v;
     chart_page := chart_page v; posBody := posBody v; kpi_card := kpi_card v |}.

Definition set_equityBody (rows : list row) (v : view) : view :=
  {| title_text := title_text v; lastUpdate_text := lastUpdate_text v;
     status_className := status_className v; status_text := status_text v;
     raw_text := raw_text v; errorBox_hidden := errorBox_hidden v;
     errorMsg_text := errorMsg_text v; equityBody := rows;
     chart_page := chart_page v; posBody := posBody v; kpi_card := kpi_card v |}.

Definition set_chart (pg : page) (v : view) : view :=
  {| title_text := title_text v; lastUpdate_text := lastUpdate_text v;
     status_className := status_className v; status_text := status_text v;
     raw_text := raw_text v; errorBox_hidden := errorBox_hidden v;
     errorMsg_text := errorMsg_text v; equityBody := equityBody v;
     chart_page := pg; posBody := posBody v; kpi_card := kpi_card v |}.

Definition set_posBody (rows : list (list (string * string))) (v : view) : view :=
  {| title_text := title_text v; lastUpdate_text := lastUpdate_text v;
     status_className := status_className v; status_text := status_text v;
     raw_text := raw_text v; errorBox_hidden := errorBox_hidden v;
     errorMsg_text := errorMsg_text v; equityBody := equityBody v;
     chart_page := chart_page v; posBody := rows; kpi_card := kpi_card v |}.

Definition set_kpi (k : kpi_view) (v : view) : view :=
  {| title_text := title_text v; lastUpdate_text := lastUpdate_text v;
     status_className := status_className v; status_text := status_text v;
     raw_text := raw_text v; errorBox_hidden := errorBox_hidden v;
     errorMsg_text := errorMsg_text v; equityBody := equityBody v;
     chart_page := chart_page v; posBody := posBody v; kpi_card := Some k |}.

(** [setStatus(text, cls = '')] *)
Definition setStatus (text cls : string) (v : view) : view :=
  {| title_text := title_text v; lastUpdate_text := lastUpdate_text v;
     status_className := ("status " ++ cls)%string; status_text := text;
     raw_text := raw_text v; errorBox_hidden := errorBox_hidden v;
     errorMsg_text := errorMsg_text v; equityBody := equityBody v;
     chart_page := chart_page v; posBody := posBody v; kpi_card := kpi_card v |}.

(** [showError(err)] and [hideError()] *)
Definition showError (err : exn) (v : view) : view :=
  let msg :=
    if negb (String.eqb (exn_message err) EmptyString) then exn_message err
    else exn_string err in
  setStatus "Error loading data" "err" (set_error false msg v).

Definition hideError (v : view) : view := set_error true EmptyString v.

(** The ellipsis U+2026 and the dash U+2014. *)
Definition ellipsis : string :=
  String (ascii_of_nat 226) (String (ascii_of_nat 128) (String (ascii_of_nat 166) EmptyString)).

Definition em_dash : string :=
  String (ascii_of_nat 226) (String (ascii_of_nat 128) (String (ascii_of_nat 148) EmptyString)).

(** [n === 1] *)
Definition is_one (n : value) : bool :=
  match n with
  | Num x => (x =? 1)%float
  | _ => false
  end.

(** The status [renderAll] of docs/script.js ends with, for
    [n = payload.equity_series?.length || 0]. *)
Definition loaded_text (n : value) : string :=
  if truthy n
  then ("Loaded " ++ to_string n ++ " equity point" ++ (if is_one n then EmptyString else "s"))%string
  else "Loaded (no equity points)"%string.

Definition loaded_class (n : value) : string := if truthy n then "ok" else "warn".

(** docs/script.js: [renderAll(payload, enrichedPositions)]; the page after
    the call, and whether the call returned or threw. *)
Definition renderAll (payload : value) (enrichedPositions : list object) (v : view)
  : view * result unit :=
  match get_member payload "title" with
  | Throw e => (v, Throw e)
  | Ok title =>
      let v := set_title (to_string (js_or title (Str "Stock Bot"))) v in
      let updated_at := member payload "updated_at" in
      let v := set_lastUpdate
                 (if truthy updated_at then Date_toLocaleString (newDate updated_at) else em_dash)
                 v in
      let series := member payload "equity_series" in
      let table := renderEquityTable series in
      let v := set_equityBody (fst table) v in
      match snd table with
      | Throw e => (v, Throw e)
      | Ok _ =>
          let chart := drawChart series (chart_page v) in
          let v := set_chart (fst chart) v in
          match snd chart with
          | Throw e => (v, Throw e)
          | Ok _ =>
              let v := set_posBody (renderPositions enrichedPositions) v in
              let v := set_kpi (renderKpis payload enrichedPositions) v in
              let v := set_raw
                         (JSON_stringify
                            (Obj (set_member "positions" (Arr (map Obj enrichedPositions))
                                             (spread payload))))
                         v in
              let n := js_or (opt_member series "length") (Num 0) in
              (setStatus (loaded_text n) (loaded_class n) v, Ok tt)
          end
      end
  end.

(** [enrichPositionsWithLivePrices(data.positions || [])]: what is not an
    array has no [map]. *)
Definition enrich_positions_of (net : nat -> response) (data : value) : result (list object) :=
  match js_or (member data "positions") (Arr []) with
  | Arr positions => enrichPositionsWithLivePrices net positions
  | _ => Throw TypeError
  end.

(** The body of the [try] both loaders share: validate, enrich, render. *)
Definition validate_enrich_render (json : result value) (net : nat -> response) (v : view)
  : view * result unit :=
  match json with
  | Throw e => (v, Throw e)
  | Ok raw =>
      match validatePayload raw with
      | Throw e => (v, Throw e)
      | Ok data =>
          match enrich_positions_of net data with
          | Throw e => (v, Throw e)
          | Ok enriched => renderAll data enriched v
          end
      end
  end.

Definition DATA_PATH : string := "./data/stockinfo.json".

(** docs/script.js: [loadFromServer()], given what the request of the data
    file comes to and what each quote request comes to. *)
Definition loadFromServer (r : response) (net : nat -> response) (v : view) : view :=
  let v := setStatus ("Loading" ++ ellipsis) EmptyString (hideError v) in
  let attempt :=
    match r with
    | Rejected e => (v, Throw e)
    | Resolved ok status json =>
        if negb ok
        then (v, Throw (Error ("HTTP " ++ nat_to_string status ++ " while fetching " ++ DATA_PATH)))
        else validate_enrich_render json net v
    end in
  match snd attempt with
  | Ok _ => fst attempt
  | Throw e => showError e (fst attempt)
  end.


(** A page on which nothing was rendered yet. *)
Definition blank_view : view :=
  {| title_text := EmptyString; lastUpdate_text := EmptyString;
     status_className := EmptyString; status_text := EmptyString;
     raw_text := EmptyString; errorBox_hidden := true; errorMsg_text := EmptyString;
     equityBody := []; chart_page := blank_page; posBody := []; kpi_card := None |}.

(** The row a table shows for one point. *)
Definition table_row (key : string) (p : value) : row :=
  data_row [fmtDate (member p "date"); fmtNumber (member p key) 2].

Definition is_data_row (r : row) : bool :=
  match r with
  | data_row _ => true
  | placeholder_row _ _ => false
  end.

(** The names of the members of an object, in order. *)
Definition keys (m : object) : list string := map fst m.

(** The members among [names] that [m] does not have. *)
Definition absent_from (m : object) (names : list string) : list string :=
  filter (fun k => match lookup k m with
                   | None => true
                   | Some _ => false
                   end) names.

Definition derived_keys : list string := ["current_price"; "market_value"; "unrealized_pl"]%string.

Definition is_object (v : value) : bool :=
  match v with
  | Obj _ => true
  | _ => false
  end.

(** The commands of the paths among the children of the chart. *)
Definition path_commands (e : element) : option (list path_cmd) :=
  match get_attr "d" (attributes e) with
  | Some (APath d) => if String.eqb (tagName e) "path" then Some d else None
  | _ => None
  end.

Definition is_LineTo (c : path_cmd) : bool :=
  match c with
  | LineTo _ _ => true
  | MoveTo _ _ => false
  end.

(** The page shows the error banner and the error status. *)
Definition shows_error (v : view) : Prop :=
  errorBox_hidden v = false
  /\ status_text v = "Error loading data"%string
  /\ status_className v = "status err"%string.

(** What rendering writes. *)
Definition rendered (v : view) :=
  (title_text v, lastUpdate_text v, raw_text v, equityBody v, chart_page v, posBody v, kpi_card v).

(** The text [showError] puts in the banner. *)
Definition shown_message (e : exn) : string := errorMsg_text (showError e blank_view).

(** What [loadFromServer] fails with before it renders, if it does. *)
Definition fails_before_render (r : response) (net : nat -> response) : option exn :=
  match r with
  | Rejected e => Some e
  | Resolved ok status json =>
      if negb ok
      then Some (Error ("HTTP " ++ nat_to_string status ++ " while fetching " ++ DATA_PATH))
      else
        match json with
        | Throw e => Some e
        | Ok raw =>
            match validatePayload raw with
            | Throw e => Some e
            | Ok data =>
                match enrich_positions_of net data with
                | Throw e => Some e
                | Ok _ => None
                end
            end
        end
  end.

(** [n], the length [renderAll] reads off the series. *)
Definition series_length (payload : value) : value :=
  js_or (opt_member (member payload "equity_series") "length") (Num 0).

(* ================================================================== *)
(** ** Properties *)

(** *** Binary64 facts, from the specification of the primitive operations *)

Lemma SFeqb_same (s : spec_float) :
  SFeqb s s = match s with S754_nan => false | _ => true end.
Proof.
  destruct s as [[]|[]| |[] m e]; try reflexivity; unfold SFeqb, SFcompare;
    rewrite Z.compare_refl, Pos.compare_cont_refl; reflexivity.
Qed.

Lemma is_nan_spec (x : float) :
  PrimFloat.is_nan x = match Prim2SF x with S754_nan => true | _ => false end.
Proof.
  unfold PrimFloat.is_nan. rewrite FloatAxioms.eqb_spec, SFeqb_same.
  now destruct (Prim2SF x).
Qed.

Lemma is_zero_spec (x : float) :
  PrimFloat.is_zero x = match Prim2SF x with S754_zero _ => true | _ => false end.
Proof.
  unfold PrimFloat.is_zero. rewrite FloatAxioms.eqb_spec.
  change (Prim2SF PrimFloat.zero) with (S754_zero false).
  destruct (Prim2SF x) as [[]|[]| |[] m e]; reflexivity.
Qed.

Lemma is_infinity_spec (x : float) :
  PrimFloat.is_infinity x = match Prim2SF x with S754_infinity _ => true | _ => false end.
Proof.
  unfold PrimFloat.is_infinity. rewrite FloatAxioms.eqb_spec, FloatAxioms.abs_spec.
  change (Prim2SF PrimFloat.infinity) with (S754_infinity false).
  destruct (Prim2SF x) as [[]|[]| |[] m e]; reflexivity.
Qed.

(** [x - 0] is [x], also for -0, the infinities and NaN. *)
Lemma sub_zero_r (x : float) : (x - 0)%float = x.
Proof.
  apply Prim2SF_inj. rewrite FloatAxioms.sub_spec.
  change (Prim2SF 0) with (S754_zero false).
  destruct (Prim2SF x) as [[]|[]| |[] m e]; reflexivity.
Qed.

Lemma mul_zero_l (x : float) :
  PrimFloat.is_finite x = true -> PrimFloat.is_zero (0 * x)%float = true.
Proof.
  unfold PrimFloat.is_finite.
  rewrite is_nan_spec, is_infinity_spec, is_zero_spec, FloatAxioms.mul_spec.
  change (Prim2SF 0) with (S754_zero false).
  destruct (Prim2SF x) as [[]|[]| |[] m e]; simpl; congruence.
Qed.

Lemma mul_zero_r (x : float) :
  PrimFloat.is_finite x = true -> PrimFloat.is_zero (x * 0)%float = true.
Proof.
  unfold PrimFloat.is_finite.
  rewrite is_nan_spec, is_infinity_spec, is_zero_spec, FloatAxioms.mul_spec.
  change (Prim2SF 0) with (S754_zero false).
  destruct (Prim2SF x) as [[]|[]| |[] m e]; simpl; congruence.
Qed.

(** The only falsy numbers are +0, -0 and NaN. *)
Lemma falsy_num_cases (x : float) :
  truthy_num x = false -> PrimFloat.is_nan x = false -> is_neg_zero x = false -> x = 0%float.
Proof.
  unfold truthy_num, is_neg_zero. intros Hf Hn Hz.
  rewrite Hn, orb_false_r in Hf. apply negb_false_iff in Hf.
  rewrite is_zero_spec in Hf. rewrite FloatAxioms.classify_spec in Hz.
  apply Prim2SF_inj. change (Prim2SF 0) with (S754_zero false).
  destruct (Prim2SF x) as [[]|[]| |[] m e]; try discriminate; auto.
Qed.

(** [Number(x || 0)] is [x] for every number but NaN and -0. *)
Lemma number_or_zero (x : float) :
  PrimFloat.is_nan x = false -> is_neg_zero x = false ->
  Number (js_or (Num x) (Num 0)) = x.
Proof.
  intros Hn Hz. unfold js_or; simpl.
  destruct (truthy_num x) eqn:Ht; simpl; auto.
  symmetry. now apply falsy_num_cases.
Qed.

(** *** Subtraction of doubles: the difference is a zero or NaN exactly when
    the operands are equal *)

Section Binary64.
Local Open Scope Z_scope.

Lemma digits2_pos_size (p : positive) : digits2_pos p = Pos.size p.
Proof. induction p; simpl; congruence. Qed.

Lemma digits2_log2 (p : positive) : Zpos (digits2_pos p) = Z.succ (Z.log2 (Zpos p)).
Proof.
  rewrite digits2_pos_size. destruct p; simpl; try reflexivity; now rewrite Pos2Z.inj_succ.
Qed.

Lemma shr_m_shr_1 (mrs : shr_record) :
  0 <= shr_m mrs -> shr_m (shr_1 mrs) = Z.div2 (shr_m mrs).
Proof.
  destruct mrs as [m r s]; simpl. intros Hm.
  destruct m as [|[p|p|]|p]; try reflexivity. lia.
Qed.

Lemma shr_m_iter (p : positive) (mrs : shr_record) :
  0 <= shr_m mrs -> shr_m (@SpecFloat.iter_pos _ shr_1 p mrs) = Z.shiftr (shr_m mrs) (Zpos p).
Proof.
  revert mrs. induction p as [p IH|p IH|]; intros mrs Hm; simpl SpecFloat.iter_pos.
  - assert (H1 : 0 <= shr_m (shr_1 mrs)).
    { rewrite shr_m_shr_1 by assumption. now apply Z.div2_nonneg. }
    assert (H2 : 0 <= shr_m (@SpecFloat.iter_pos _ shr_1 p (shr_1 mrs))).
    { rewrite IH by assumption. now apply Z.shiftr_nonneg. }
    rewrite IH, IH, shr_m_shr_1 by assumption.
    rewrite Z.div2_spec, !Z.shiftr_shiftr by lia. f_equal. lia.
  - assert (H2 : 0 <= shr_m (@SpecFloat.iter_pos _ shr_1 p mrs)).
    { rewrite IH by assumption. now apply Z.shiftr_nonneg. }
    rewrite IH, IH by assumption.
    rewrite !Z.shiftr_shiftr by lia. f_equal. lia.
  - rewrite shr_m_shr_1 by assumption. now rewrite Z.div2_spec.
Qed.

Lemma shr_fexp_pos (m e : Z) (l : location) :
  0 < m -> emin <= e ->
  0 < shr_m (fst (shr_fexp prec emax m e l)) /\ emin <= snd (shr_fexp prec emax m e l).
Proof.
  intros Hm He. unfold shr_fexp, shr.
  assert (Hrec : shr_m (shr_record_of_loc m l) = m) by (destruct l as [|[]]; reflexivity).
  destruct (SpecFloat.fexp prec emax (Zdigits2 m + e) - e) as [|n|n] eqn:Hn; simpl; rewrite ?Hrec; auto.
  rewrite shr_m_iter by (rewrite Hrec; lia). rewrite Hrec.
  destruct m as [|p|p]; try lia. simpl Zdigits2 in Hn.
  unfold SpecFloat.fexp, SpecFloat.emin in *. rewrite digits2_log2 in Hn.
  assert (Hprec : prec = 53) by reflexivity.
  split; [|lia].
  assert (Hle : Zpos n <= Z.log2 (Zpos p)) by lia.
  destruct (Z.eq_dec (Z.shiftr (Zpos p) (Zpos n)) 0) as [E|E].
  - apply Z.shiftr_eq_0_iff in E. lia.
  - pose proof (Z.shiftr_nonneg (Zpos p) (Zpos n)). lia.
Qed.

Lemma round_nearest_even_pos (m : Z) (l : location) : 0 < m -> 0 < round_nearest_even m l.
Proof.
  intros Hm. destruct l as [|[]]; simpl; try lia. destruct (Z.even m); lia.
Qed.

Lemma binary_round_aux_nonzero (s : bool) (m e : Z) (l : location) :
  0 < m -> emin <= e -> finite_or_inf (binary_round_aux prec emax s m e l) = true.
Proof.
  intros Hm He. unfold binary_round_aux.
  pose proof (shr_fexp_pos l Hm He) as [H1 H2].
  destruct (shr_fexp prec emax m e l) as [mrs' e']. simpl in H1, H2.
  pose proof (round_nearest_even_pos (loc_of_shr_record mrs') H1) as H3.
  pose proof (shr_fexp_pos loc_Exact H3 H2) as [H4 H5].
  destruct (shr_fexp prec emax _ e' loc_Exact) as [mrs'' e'']. simpl in H4.
  destruct (shr_m mrs''); try lia.
  now destruct (e'' <=? emax - prec).
Qed.

Lemma binary_round_nonzero (s : bool) (m : positive) (e : Z) :
  emin <= e -> finite_or_inf (binary_round prec emax s m e) = true.
Proof.
  intros He. unfold binary_round, shl_align.
  destruct (SpecFloat.fexp prec emax (Z.pos (digits2_pos m) + e) - e) eqn:Hd;
    apply binary_round_aux_nonzero; try lia.
  unfold SpecFloat.fexp, SpecFloat.emin in *. lia.
Qed.

Lemma binary_normalize_nonzero (m e : Z) :
  m <> 0 -> emin <= e -> finite_or_inf (binary_normalize prec emax m e false) = true.
Proof.
  intros Hm He. destruct m; [easy| |]; now apply binary_round_nonzero.
Qed.

Lemma bounded_emin (m : positive) (e : Z) : bounded prec emax m e = true -> emin <= e.
Proof.
  unfold bounded, canonical_mantissa. intros H. apply andb_prop in H as [H _].
  apply Z.eqb_eq in H. unfold SpecFloat.fexp, SpecFloat.emin in *. lia.
Qed.

Lemma digits2_iter_xO (m d : positive) :
  Zpos (digits2_pos (Pos.iter xO m d)) = Zpos (digits2_pos m) + Zpos d.
Proof.
  induction d using Pos.peano_ind.
  - simpl. lia.
  - rewrite Pos.iter_succ. simpl digits2_pos. lia.
Qed.

Lemma shl_align_fst_same (m : positive) (e : Z) : shl_align m e e = (m, e).
Proof. unfold shl_align. now rewrite Z.sub_diag. Qed.

(** Two doubles whose mantissas agree once aligned have the same mantissa and
    exponent: the representation is canonical. *)
Lemma aligned_eq (mx my : positive) (ex ey : Z) :
  bounded prec emax mx ex = true -> bounded prec emax my ey = true ->
  fst (shl_align mx ex (Z.min ex ey)) = fst (shl_align my ey (Z.min ex ey)) ->
  ex = ey /\ mx = my.
Proof.
  unfold bounded, canonical_mantissa. intros Hx Hy.
  apply andb_prop in Hx as [Hx _]. apply andb_prop in Hy as [Hy _].
  apply Z.eqb_eq in Hx, Hy. unfold shl_align.
  destruct (Z.min ex ey - ex) eqn:Dx, (Z.min ex ey - ey) eqn:Dy; simpl; try lia.
  - intros ->. exfalso. rewrite digits2_iter_xO in Hx. unfold SpecFloat.fexp in *. lia.
  - intros <-. exfalso. rewrite digits2_iter_xO in Hy. unfold SpecFloat.fexp in *. lia.
Qed.

Lemma SFeqb_finite (sx sy : bool) (mx my : positive) (ex ey : Z) :
  SFeqb (S754_finite sx mx ex) (S754_finite sy my ey) = true <->
  sx = sy /\ mx = my /\ ex = ey.
Proof.
  unfold SFeqb, SFcompare. split.
  - destruct sx, sy; try discriminate;
      destruct (ex ?= ey) eqn:He; try discriminate;
      apply Z.compare_eq in He; subst ey;
      destruct (Pos.compare_cont Eq mx my) eqn:Hm; try discriminate;
      apply Pos.compare_eq in Hm; subst my; auto.
  - intros (-> & -> & ->). rewrite Z.compare_refl, Pos.compare_cont_refl.
    now destruct sy.
Qed.

Lemma cond_Zopp_pos_eq (sx sy : bool) (a b : positive) :
  cond_Zopp sx (Zpos a) - cond_Zopp sy (Zpos b) = 0 <-> sx = sy /\ a = b.
Proof.
  split.
  - destruct sx, sy; unfold cond_Zopp; intros H;
      solve [split; [reflexivity|lia] | exfalso; lia].
  - intros [-> ->]. destruct sy; unfold cond_Zopp; lia.
Qed.

Lemma SFsub_finite_truthy (sx sy : bool) (mx my : positive) (ex ey : Z) :
  bounded prec emax mx ex = true -> bounded prec emax my ey = true ->
  finite_or_inf (SF64sub (S754_finite sx mx ex) (S754_finite sy my ey))
  = negb (SFeqb (S754_finite sx mx ex) (S754_finite sy my ey)).
Proof.
  intros Hx Hy. unfold SF64sub, SFsub.
  set (d := cond_Zopp sx (Zpos (fst (shl_align mx ex (Z.min ex ey))))
            - cond_Zopp sy (Zpos (fst (shl_align my ey (Z.min ex ey))))).
  destruct (Z.eq_dec d 0) as [Hd|Hd].
  - rewrite Hd. simpl. symmetry. apply negb_false_iff.
    apply cond_Zopp_pos_eq in Hd as [Hs Hm].
    destruct (@aligned_eq _ _ _ _ Hx Hy Hm) as [He Hmm].
    apply SFeqb_finite. auto.
  - rewrite binary_normalize_nonzero; auto.
    + symmetry. apply negb_true_iff.
      destruct (SFeqb (S754_finite sx mx ex) (S754_finite sy my ey)) eqn:E; auto.
      apply SFeqb_finite in E as (-> & -> & ->).
      exfalso. apply Hd. apply cond_Zopp_pos_eq. auto.
    + pose proof (@bounded_emin _ _ Hx). pose proof (@bounded_emin _ _ Hy). lia.
Qed.

Lemma truthy_num_spec (z : float) : truthy_num z = finite_or_inf (Prim2SF z).
Proof.
  unfold truthy_num. rewrite is_zero_spec, is_nan_spec.
  now destruct (Prim2SF z).
Qed.

Lemma sub_truthy (x y : float) :
  PrimFloat.is_nan x = false -> PrimFloat.is_nan y = false ->
  truthy_num (x - y)%float = negb (x =? y)%float.
Proof.
  intros Hx Hy. rewrite truthy_num_spec, FloatAxioms.sub_spec, FloatAxioms.eqb_spec.
  pose proof (Prim2SF_valid x) as Vx. pose proof (Prim2SF_valid y) as Vy.
  rewrite is_nan_spec in Hx, Hy.
  destruct (Prim2SF x) as [[]|[]| |sx mx ex], (Prim2SF y) as [[]|[]| |sy my ey];
    try reflexivity; try discriminate;
    try (destruct sx; reflexivity); try (destruct sy; reflexivity).
  now apply SFsub_finite_truthy.
Qed.

(** On the double of a length, [n || 1] is the double of [n], or of 1 when
    [n] is 0: keeping lengths as [nat] loses nothing. *)
Lemma or_num_of_nat (n : nat) :
  Z.of_nat n < 2 ^ 63 ->
  or_num (num_of_nat n) 1%float = num_of_nat (if Nat.eqb n 0 then 1%nat else n).
Proof.
  intros Hn. destruct n as [|n]; [reflexivity|].
  simpl Nat.eqb. cbv iota. unfold or_num.
  assert (Ht : truthy_num (num_of_nat (S n)) = true); [|now rewrite Ht].
  rewrite truthy_num_spec. unfold num_of_nat. rewrite FloatAxioms.of_uint63_spec.
  apply binary_normalize_nonzero.
  - rewrite Uint63.of_Z_spec. rewrite Z.mod_small; [lia|].
    change wB with (2 ^ 63). lia.
  - unfold SpecFloat.emin. change prec with 53. change emax with 1024. lia.
Qed.

End Binary64.

(** The divisor of [yScale] is the one of the specification. *)
Lemma or_num_range (yMin yMax : float) :
  PrimFloat.is_nan yMin = false -> PrimFloat.is_nan yMax = false ->
  or_num (yMax - yMin)%float 1%float = range_divisor yMin yMax
  /\ truthy_num (range_divisor yMin yMax) = true.
Proof.
  intros Hmin Hmax. unfold or_num, range_divisor.
  pose proof (@sub_truthy yMax yMin Hmax Hmin) as Ht.
  destruct (yMax =? yMin)%float; simpl in Ht; rewrite Ht; auto.
Qed.

(** *** The order of doubles, and the extrema [Math.min] and [Math.max] *)

Ltac split_compares :=
  repeat match goal with
         | |- context [Z.compare ?a ?b] => destruct (Z.compare_spec a b)
         | |- context [Pos.compare_cont Eq ?a ?b] =>
             change (Pos.compare_cont Eq a b) with (Pos.compare a b);
             destruct (Pos.compare_spec a b)
         end.

Lemma SFleb_trans (x y z : spec_float) :
  SFleb x y = true -> SFleb y z = true -> SFleb x z = true.
Proof.
  unfold SFleb, SFcompare.
  destruct x as [[]|[]| |[] mx ex], y as [[]|[]| |[] my ey], z as [[]|[]| |[] mz ez];
    try discriminate; try reflexivity;
    split_compares; simpl; try discriminate; try reflexivity; intros _ _; exfalso; lia.
Qed.

Lemma SFcompare_antisym (x y : spec_float) :
  SFcompare y x = option_map CompOpp (SFcompare x y).
Proof.
  unfold SFcompare.
  destruct x as [[]|[]| |[] mx ex], y as [[]|[]| |[] my ey]; try reflexivity;
    split_compares; simpl; try reflexivity; exfalso; lia.
Qed.

Lemma SFcompare_defined (x y : spec_float) :
  x <> S754_nan -> y <> S754_nan -> exists c, SFcompare x y = Some c.
Proof.
  intros Hx Hy. unfold SFcompare.
  destruct x as [[]|[]| |[] mx ex], y as [[]|[]| |[] my ey];
    try congruence; eexists; reflexivity.
Qed.

Lemma not_nan_spec (x : float) : PrimFloat.is_nan x = false -> Prim2SF x <> S754_nan.
Proof.
  rewrite is_nan_spec. intros H E. rewrite E in H. discriminate.
Qed.

Lemma leb_trans (a b c : float) :
  (a <=? b)%float = true -> (b <=? c)%float = true -> (a <=? c)%float = true.
Proof.
  rewrite !FloatAxioms.leb_spec. apply SFleb_trans.
Qed.

(** How two numbers compare: one is below the other, or they are equal (as
    are +0 and -0); each case with what [<?] and [<=?] answer. *)
Lemma compare_cases (a b : float) :
  PrimFloat.is_nan a = false -> PrimFloat.is_nan b = false ->
  ((a <? b)%float = true /\ (b <? a)%float = false
     /\ (a <=? b)%float = true /\ (b <=? a)%float = false)
  \/ ((b <? a)%float = true /\ (a <? b)%float = false
     /\ (b <=? a)%float = true /\ (a <=? b)%float = false)
  \/ ((a <? b)%float = false /\ (b <? a)%float = false
     /\ (a <=? b)%float = true /\ (b <=? a)%float = true).
Proof.
  intros Ha Hb. apply not_nan_spec in Ha, Hb.
  rewrite !FloatAxioms.ltb_spec, !FloatAxioms.leb_spec.
  unfold SFltb, SFleb. rewrite (SFcompare_antisym (Prim2SF a) (Prim2SF b)).
  destruct (@SFcompare_defined _ _ Ha Hb) as [c Hc]. rewrite Hc.
  destruct c; simpl; auto 10.
Qed.

Lemma leb_refl (a : float) : PrimFloat.is_nan a = false -> (a <=? a)%float = true.
Proof.
  intros Ha.
  destruct (@compare_cases a a Ha Ha)
    as [(_ & _ & H & _)|[(_ & _ & H & _)|(_ & _ & H & _)]]; exact H.
Qed.

Lemma min2_below (a b : float) :
  PrimFloat.is_nan a = false -> PrimFloat.is_nan b = false ->
  (min2 a b <=? a)%float = true /\ (min2 a b <=? b)%float = true
  /\ (min2 a b = a \/ min2 a b = b).
Proof.
  intros Ha Hb. unfold min2. rewrite Ha, Hb. simpl.
  pose proof (@leb_refl a Ha) as Raa. pose proof (@leb_refl b Hb) as Rbb.
  destruct (@compare_cases a b Ha Hb) as [Hc|[Hc|Hc]];
    destruct Hc as (E1 & E2 & E3 & E4); rewrite ?E1, ?E2; auto.
  destruct (is_neg_zero b); auto.
Qed.

Lemma max2_above (a b : float) :
  PrimFloat.is_nan a = false -> PrimFloat.is_nan b = false ->
  (a <=? max2 a b)%float = true /\ (b <=? max2 a b)%float = true
  /\ (max2 a b = a \/ max2 a b = b).
Proof.
  intros Ha Hb. unfold max2. rewrite Ha, Hb. simpl.
  pose proof (@leb_refl a Ha) as Raa. pose proof (@leb_refl b Hb) as Rbb.
  destruct (@compare_cases a b Ha Hb) as [Hc|[Hc|Hc]];
    destruct Hc as (E1 & E2 & E3 & E4); rewrite ?E1, ?E2; auto.
  destruct (is_neg_zero a); auto.
Qed.

Lemma min2_not_nan (a b : float) :
  PrimFloat.is_nan a = false -> PrimFloat.is_nan b = false ->
  PrimFloat.is_nan (min2 a b) = false.
Proof.
  intros Ha Hb. unfold min2. rewrite Ha, Hb. simpl.
  destruct (b <? a)%float; auto. destruct (a <? b)%float; auto.
  now destruct (is_neg_zero b).
Qed.

Lemma max2_not_nan (a b : float) :
  PrimFloat.is_nan a = false -> PrimFloat.is_nan b = false ->
  PrimFloat.is_nan (max2 a b) = false.
Proof.
  intros Ha Hb. unfold max2. rewrite Ha, Hb. simpl.
  destruct (a <? b)%float; auto. destruct (b <? a)%float; auto.
  now destruct (is_neg_zero a).
Qed.

Lemma fold_not_nan (f : float -> float -> float) (ys : list float) (acc : float) :
  (forall a b, PrimFloat.is_nan a = false -> PrimFloat.is_nan b = false ->
               PrimFloat.is_nan (f a b) = false) ->
  PrimFloat.is_nan acc = false ->
  Forall (fun y => PrimFloat.is_nan y = false) ys ->
  PrimFloat.is_nan (fold_left f ys acc) = false.
Proof.
  intros Hf Hacc Hys. revert acc Hacc.
  induction Hys as [|y rest Hy Hrest IH]; intros acc Hacc; simpl; auto.
Qed.

Lemma fold_min2_below (ys : list float) (acc : float) :
  PrimFloat.is_nan acc = false ->
  Forall (fun y => PrimFloat.is_nan y = false) ys ->
  (fold_left min2 ys acc <=? acc)%float = true
  /\ Forall (fun y => (fold_left min2 ys acc <=? y)%float = true) ys
  /\ (fold_left min2 ys acc = acc \/ In (fold_left min2 ys acc) ys).
Proof.
  intros Hacc Hys. revert acc Hacc.
  induction Hys as [|y rest Hy Hrest IH]; intros acc Hacc; simpl.
  - split; [now apply leb_refl|]. split; [constructor|now left].
  - destruct (@min2_below acc y Hacc Hy) as (Hl & Hr & Hin).
    destruct (IH (min2 acc y) (@min2_not_nan acc y Hacc Hy)) as (Hb & Hall & Hmem).
    split; [eapply leb_trans; eauto|]. split.
    + constructor; [eapply leb_trans; eauto|exact Hall].
    + destruct Hmem as [Hm|Hm]; [|now right; right].
      rewrite Hm. destruct Hin as [->| ->]; auto.
Qed.

Lemma fold_max2_above (ys : list float) (acc : float) :
  PrimFloat.is_nan acc = false ->
  Forall (fun y => PrimFloat.is_nan y = false) ys ->
  (acc <=? fold_left max2 ys acc)%float = true
  /\ Forall (fun y => (y <=? fold_left max2 ys acc)%float = true) ys
  /\ (fold_left max2 ys acc = acc \/ In (fold_left max2 ys acc) ys).
Proof.
  intros Hacc Hys. revert acc Hacc.
  induction Hys as [|y rest Hy Hrest IH]; intros acc Hacc; simpl.
  - split; [now apply leb_refl|]. split; [constructor|now left].
  - destruct (@max2_above acc y Hacc Hy) as (Hl & Hr & Hin).
    destruct (IH (max2 acc y) (@max2_not_nan acc y Hacc Hy)) as (Hb & Hall & Hmem).
    split; [eapply leb_trans; eauto|]. split.
    + constructor; [eapply leb_trans; eauto|exact Hall].
    + destruct Hmem as [Hm|Hm]; [|now right; right].
      rewrite Hm. destruct Hin as [->| ->]; auto.
Qed.

Lemma above_infinity (y : float) : (infinity <=? y)%float = true -> y = infinity.
Proof.
  rewrite FloatAxioms.leb_spec. change (Prim2SF infinity) with (S754_infinity false).
  intros H. apply Prim2SF_inj. change (Prim2SF infinity) with (S754_infinity false).
  destruct (Prim2SF y) as [[]|[]| |[] m e]; try discriminate; reflexivity.
Qed.

Lemma below_neg_infinity (y : float) : (y <=? neg_infinity)%float = true -> y = neg_infinity.
Proof.
  rewrite FloatAxioms.leb_spec. change (Prim2SF neg_infinity) with (S754_infinity true).
  intros H. apply Prim2SF_inj. change (Prim2SF neg_infinity) with (S754_infinity true).
  destruct (Prim2SF y) as [[]|[]| |[] m e]; try discriminate; reflexivity.
Qed.

(** [Math.min] and [Math.max] of numbers bound them and, when there is one,
    are one of them. *)
Lemma extrema_bound (ys : list float) :
  Forall (fun y => PrimFloat.is_nan y = false) ys ->
  Forall (fun y => (Math_min ys <=? y)%float = true /\ (y <=? Math_max ys)%float = true) ys
  /\ (ys <> [] -> In (Math_min ys) ys /\ In (Math_max ys) ys).
Proof.
  intros Hys. unfold Math_min, Math_max.
  destruct (@fold_min2_below ys infinity eq_refl Hys) as (_ & Hlo & Hmin).
  destruct (@fold_max2_above ys neg_infinity eq_refl Hys) as (_ & Hhi & Hmax).
  split.
  - rewrite Forall_forall in Hlo, Hhi. rewrite Forall_forall. intros y Hy. split; auto.
  - intros Hne. destruct ys as [|y rest]; [congruence|]. split.
    + destruct Hmin as [Hm|Hm]; auto.
      inversion Hlo as [|? ? Hy _]; subst. rewrite Hm in Hy at 1.
      apply above_infinity in Hy. rewrite Hm. left. exact Hy.
    + destruct Hmax as [Hm|Hm]; auto.
      inversion Hhi as [|? ? Hy _]; subst. rewrite Hm in Hy at 1.
      apply below_neg_infinity in Hy. rewrite Hm. left. exact Hy.
Qed.

(** *** Members and attributes *)

Lemma lookup_set_member_same (k : string) (v : value) (m : object) :
  lookup k (set_member k v m) = Some v.
Proof.
  induction m as [|[k' v'] rest IH]; simpl.
  - now rewrite String.eqb_refl.
  - destruct (String.eqb k k') eqn:E; simpl; rewrite E; auto.
Qed.

Lemma lookup_set_member_other (k k' : string) (v : value) (m : object) :
  k <> k' -> lookup k (set_member k' v m) = lookup k m.
Proof.
  intros Hne. induction m as [|[k0 v0] rest IH]; simpl.
  - apply String.eqb_neq in Hne. now rewrite Hne.
  - destruct (String.eqb k' k0) eqn:E; simpl.
    + apply String.eqb_eq in E. subst k0.
      apply String.eqb_neq in Hne. now rewrite Hne.
    + now rewrite IH.
Qed.

Lemma set_member_absent (k : string) (v : value) (m : object) :
  lookup k m = None -> set_member k v m = (m ++ [(k, v)])%list.
Proof.
  induction m as [|[k' v'] rest IH]; simpl; auto.
  destruct (String.eqb k k'); [discriminate|].
  intros Hrest. now rewrite IH.
Qed.

Lemma set_attr_twice (k : string) (v : attr) (l : list (string * attr)) :
  set_attr k v (set_attr k v l) = set_attr k v l.
Proof.
  induction l as [|[k' v'] rest IH]; simpl.
  - now rewrite String.eqb_refl.
  - destruct (String.eqb k k') eqn:E; simpl; rewrite E; auto.
    now rewrite IH.
Qed.

(** *** Validation *)

(** C3: [validatePayload] throws on the empty object, accepts
    [{equity_series: []}] and returns it with [positions] defaulted to the
    empty array; it throws on every value that is not an object (a primitive,
    null, or an array, which owns no [equity_series]), on an object without
    [equity_series], and on an object whose [equity_series] is not an array.
    An object whose [equity_series] is an array is returned, with [positions]
    added last when it had none. *)
Theorem validatePayload_contract :
  validatePayload (Obj []) =
    Throw (Error ("Missing " ++ dquote ++ "equity_series" ++ dquote ++ " array."))
  /\ validatePayload (Obj [("equity_series", Arr [])]%string) =
       Ok (Obj [("equity_series", Arr []); ("positions", Arr [])]%string)
  /\ (forall data, (forall m, data <> Obj m) -> exists msg, validatePayload data = Throw (Error msg))
  /\ (forall data, typeof_object data = false -> validatePayload data = Throw (Error "Invalid JSON payload."))
  /\ (forall m, lookup "equity_series" m = None -> exists msg, validatePayload (Obj m) = Throw (Error msg))
  /\ (forall m v, lookup "equity_series" m = Some v -> isArray v = false ->
        validatePayload (Obj m) =
          Throw (Error (dquote ++ "equity_series" ++ dquote ++ " must be an array.")))
  /\ (forall m series, lookup "equity_series" m = Some (Arr series) ->
        validatePayload (Obj m) =
          Ok (Obj (match lookup "positions" m with
                   | Some _ => m
                   | None => (m ++ [("positions"%string, Arr [])])%list
                   end))).
Proof.
  split; [reflexivity|]. split; [reflexivity|].
  split; [|split; [|split; [|split]]].
  - intros data Hobj. destruct data; try (eexists; reflexivity).
    + unfold validatePayload; simpl. destruct b; eexists; reflexivity.
    + unfold validatePayload; simpl. destruct (truthy_num x); eexists; reflexivity.
    + unfold validatePayload; simpl.
      destruct (negb (String.eqb s EmptyString)); eexists; reflexivity.
    + now destruct (Hobj members).
  - intros data Hty. unfold validatePayload. rewrite Hty.
    now rewrite orb_true_r.
  - intros m Hnone. unfold validatePayload; simpl. rewrite Hnone. eexists; reflexivity.
  - intros m v Hsome Harr. unfold validatePayload; simpl. rewrite Hsome; simpl.
    now rewrite Harr.
  - intros m series Hsome. unfold validatePayload; simpl. rewrite Hsome; simpl.
    destruct (lookup "positions" m) eqn:Hpos; simpl; auto.
    now rewrite set_member_absent.
Qed.

(** *** The live price *)

Lemma last_close_skip (closes : list value) (n k : nat) :
  (forall i, n <= i < n + k -> nullish (nth i closes Undefined) = true) ->
  last_close closes (n + k) = last_close closes n.
Proof.
  induction k as [|k IH]; intros Hnull.
  - now rewrite Nat.add_0_r.
  - rewrite Nat.add_succ_r. simpl.
    rewrite (Hnull (n + k)) by lia. simpl.
    apply IH. intros i Hi. apply Hnull. lia.
Qed.

Lemma last_close_found (pre post : list value) (c : value) :
  nullish c = false ->
  Forall (fun v => nullish v = true) post ->
  last_close (pre ++ c :: post) (List.length (pre ++ c :: post)) = Some c.
Proof.
  intros Hc Hpost.
  replace (List.length (pre ++ c :: post)) with (S (List.length pre) + List.length post)
    by (rewrite length_app; simpl; lia).
  rewrite last_close_skip.
  - simpl. rewrite app_nth2, Nat.sub_diag by lia. simpl. now rewrite Hc.
  - intros i Hi.
    rewrite app_nth2 by lia.
    destruct (i - List.length pre) as [|j] eqn:Hj; [lia|]. simpl.
    destruct (nth_in_or_default j post Undefined) as [Hin|Hd].
    + rewrite Forall_forall in Hpost. now apply Hpost.
    + now rewrite Hd.
Qed.

Lemma last_close_none (closes : list value) (n : nat) :
  Forall (fun v => nullish v = true) closes -> last_close closes n = None.
Proof.
  intros Hall. induction n as [|n IH]; simpl; auto.
  destruct (nth_in_or_default n closes Undefined) as [Hin|Hd].
  - rewrite Forall_forall in Hall. now rewrite (Hall _ Hin).
  - now rewrite Hd.
Qed.

(** C8: [getLivePrice] fails with what the request failed with; on a
    response whose [chart.result[0].indicators.quote[0].close] is an array it
    returns the number of the last entry that is neither null nor undefined
    (every entry after it being one of the two), and throws when every entry
    is null, when the array is empty and when the member is absent. *)
Theorem getLivePrice_last_non_null (r : response) (ticker : value) :
  match fetchWithTimeout r with
  | Throw e => getLivePrice r ticker = Throw e
  | Ok data =>
      (forall pre c post,
          quote_close data = Arr (pre ++ c :: post) ->
          nullish c = false ->
          Forall (fun v => nullish v = true) post ->
          getLivePrice r ticker = Ok (Number c))
      /\ (forall pre x post,
          quote_close data = Arr (pre ++ Num x :: post) ->
          Forall (fun v => nullish v = true) post ->
          getLivePrice r ticker = Ok x)
      /\ (forall closes,
          quote_close data = Arr closes ->
          Forall (fun v => nullish v = true) closes ->
          getLivePrice r ticker = Throw (Error ("No price for " ++ to_string ticker)))
      /\ (quote_close data = Arr [] ->
          getLivePrice r ticker = Throw (Error ("No price for " ++ to_string ticker)))
      /\ (nullish (quote_close data) = true ->
          getLivePrice r ticker = Throw (Error ("No price for " ++ to_string ticker)))
  end.
Proof.
  unfold getLivePrice. destruct (fetchWithTimeout r) as [data|e]; simpl; auto.
  fold (quote_close data).
  assert (Hfound : forall pre c post,
             quote_close data = Arr (pre ++ c :: post) ->
             nullish c = false ->
             Forall (fun v => nullish v = true) post ->
             match last_close (elements (js_or (quote_close data) (Arr [])))
                     (List.length (elements (js_or (quote_close data) (Arr [])))) with
             | Some c0 => Ok (Number c0)
             | None => Throw (Error ("No price for " ++ to_string ticker))
             end = Ok (Number c)).
  { intros pre c post Hq Hc Hpost. rewrite Hq. unfold js_or; simpl.
    now rewrite last_close_found. }
  assert (Hnone : forall closes,
             quote_close data = Arr closes ->
             Forall (fun v => nullish v = true) closes ->
             match last_close (elements (js_or (quote_close data) (Arr [])))
                     (List.length (elements (js_or (quote_close data) (Arr [])))) with
             | Some c0 => Ok (Number c0)
             | None => Throw (Error ("No price for " ++ to_string ticker))
             end = Throw (Error ("No price for " ++ to_string ticker))).
  { intros closes Hq Hall. rewrite Hq. unfold js_or; simpl.
    now rewrite last_close_none. }
  repeat split.
  - exact Hfound.
  - intros pre x post Hq Hpost. now apply (Hfound pre (Num x) post).
  - exact Hnone.
  - intros Hq. now apply (Hnone []).
  - intros Hq. destruct (quote_close data); try discriminate; reflexivity.
Qed.

(** *** Enrichment *)

Lemma mapM_total {A B} (f : A -> result B) (g : A -> B) (xs : list A) :
  (forall x, In x xs -> f x = Ok (g x)) -> mapM f xs = Ok (map g xs).
Proof.
  induction xs as [|x rest IH]; intros Hf; simpl; auto.
  rewrite (Hf x) by now left.
  rewrite IH; auto. intros y Hy. apply Hf. now right.
Qed.

Lemma length_indexed_from {A} (xs : list A) (s : nat) :
  List.length (indexed_from s xs) = List.length xs.
Proof.
  revert s. induction xs as [|x rest IH]; intros s; simpl; auto.
Qed.

Lemma nth_error_indexed_from {A} (xs : list A) (s i : nat) :
  nth_error (indexed_from s xs) i = option_map (fun x => (s + i, x)) (nth_error xs i).
Proof.
  revert s i. induction xs as [|x rest IH]; intros s [|i]; simpl; auto.
  - now rewrite Nat.add_0_r.
  - rewrite IH. now rewrite Nat.add_succ_r.
Qed.

Lemma In_indexed_from {A} (xs : list A) (s : nat) (ix : nat * A) :
  In ix (indexed_from s xs) -> In (snd ix) xs.
Proof.
  revert s. induction xs as [|x rest IH]; intros s; simpl; auto.
  intros [<-|Hin]; [now left|right; eauto].
Qed.

Lemma enrich_as_map (net : nat -> response) (positions : list value) (s : nat) :
  combine (map (fun ip => enrich_one (net (fst ip)) (snd ip)) (indexed_from s positions)) positions
  = map (fun ip => (enrich_one (net (fst ip)) (snd ip), snd ip)) (indexed_from s positions).
Proof.
  revert s. induction positions as [|p rest IH]; intros s; simpl; auto.
  now rewrite IH.
Qed.

Lemma recover_enrich_one (r : response) (p : value) :
  nullish p = false -> recover p (enrich_one r p) = Ok (settled r p).
Proof.
  intros Hp. unfold enrich_one, settled, get_member. rewrite Hp. simpl.
  destruct (getLivePrice r (member p "ticker")) as [price|e]; simpl; auto.
  unfold get_member. now rewrite Hp.
Qed.

Lemma mapM_map {A B C} (h : A -> B) (f : B -> result C) (xs : list A) :
  mapM f (map h xs) = mapM (fun x => f (h x)) xs.
Proof.
  induction xs as [|x rest IH]; simpl; auto. now rewrite IH.
Qed.

Lemma enrich_settles (net : nat -> response) (positions : list value) :
  Forall (fun p => nullish p = false) positions ->
  enrichPositionsWithLivePrices net positions =
    Ok (map (fun ip => settled (net (fst ip)) (snd ip)) (indexed positions)).
Proof.
  intros Hall. unfold enrichPositionsWithLivePrices, indexed.
  rewrite enrich_as_map, mapM_map. simpl.
  apply mapM_total. intros ip Hin.
  apply recover_enrich_one.
  rewrite Forall_forall in Hall. apply Hall.
  now apply In_indexed_from with (s := 0).
Qed.

Lemma derived_fields_resolve (p : value) (cp mv upl : float) :
  resolves_to p
    (set_member "unrealized_pl" (Num upl)
      (set_member "market_value" (Num mv)
        (set_member "current_price" (Num cp) (spread p))))
    cp mv upl.
Proof.
  unfold resolves_to. repeat split.
  - rewrite !lookup_set_member_other by discriminate. apply lookup_set_member_same.
  - rewrite lookup_set_member_other by discriminate. apply lookup_set_member_same.
  - apply lookup_set_member_same.
  - intros k Hk. unfold derived_key in Hk.
    apply orb_false_iff in Hk as [Hk Hupl]. apply orb_false_iff in Hk as [Hcp Hmv].
    apply String.eqb_neq in Hcp, Hmv, Hupl.
    now rewrite !lookup_set_member_other.
Qed.

Lemma settled_resolves (r : response) (p : value) :
  match getLivePrice r (member p "ticker") with
  | Ok price =>
      resolves_to p (settled r p) price (qty_of p * price)%float
                  ((price - avg_of p) * qty_of p)%float
  | Throw _ => resolves_to p (settled r p) 0%float 0%float 0%float
  end.
Proof.
  unfold settled.
  destruct (getLivePrice r (member p "ticker")); apply derived_fields_resolve.
Qed.

Lemma enrich_nth (net : nat -> response) (positions : list value) (i : nat) (p : value) :
  nth_error positions i = Some p ->
  nth_error (map (fun ip => settled (net (fst ip)) (snd ip)) (indexed positions)) i
  = Some (settled (net i) p).
Proof.
  intros Hp. unfold indexed.
  rewrite nth_error_map, nth_error_indexed_from, Hp. reflexivity.
Qed.

(** C1: on positions none of which is null or undefined,
    [enrichPositionsWithLivePrices] returns, whatever each request comes to,
    as many objects as there are positions, in their order.  The object at an
    index is the position at that index with the derived fields set and every
    other member unchanged: when the price fetch of the position returns
    [price], [current_price = price], [market_value = qty * price] and
    [unrealized_pl = (price - avg_price) * qty]; when it throws, the three
    are 0.  [qty] and [avg_price] are read as [Number(x || 0)], which is the
    member itself when it is a number other than NaN and -0. *)
Theorem enrichPositions_resolves_each (net : nat -> response) (positions : list value) :
  Forall (fun p => nullish p = false) positions ->
  exists out,
    enrichPositionsWithLivePrices net positions = Ok out
    /\ List.length out = List.length positions
    /\ forall i p, nth_error positions i = Some p ->
         exists o, nth_error out i = Some o
           /\ match getLivePrice (net i) (member p "ticker") with
              | Ok price =>
                  resolves_to p o price (qty_of p * price)%float
                              ((price - avg_of p) * qty_of p)%float
              | Throw _ => resolves_to p o 0%float 0%float 0%float
              end
           /\ (forall q, member p "qty" = Num q ->
                 PrimFloat.is_nan q = false -> is_neg_zero q = false -> qty_of p = q)
           /\ (forall a, member p "avg_price" = Num a ->
                 PrimFloat.is_nan a = false -> is_neg_zero a = false -> avg_of p = a).
Proof.
  intros Hall. eexists. split; [now apply enrich_settles|]. split.
  - unfold indexed. now rewrite length_map, length_indexed_from.
  - intros i p Hp. exists (settled (net i) p). split; [now apply enrich_nth|].
    split; [apply settled_resolves|]. split.
    + intros q Hq Hn Hz. unfold qty_of. rewrite Hq. now apply number_or_zero.
    + intros a Ha Hn Hz. unfold avg_of. rewrite Ha. now apply number_or_zero.
Qed.

(** C10: when the price fetch of a position returns [price], enrichment
    reads a missing, null or otherwise falsy [qty] or [avg_price] as 0.  With
    a falsy [qty] (so with none) the position still gets
    [current_price = price], while [market_value] is [0 * price] and
    [unrealized_pl] is [(price - avg_price) * 0]: zeros, whenever [price] and
    [price - avg_price] are finite.  With a falsy [avg_price] (so with none)
    [unrealized_pl] is [price * qty]. *)
Theorem enrichment_coerces_falsy_fields
  (net : nat -> response) (positions : list value) (i : nat) (p : value) (price : float) :
  Forall (fun p => nullish p = false) positions ->
  nth_error positions i = Some p ->
  getLivePrice (net i) (member p "ticker") = Ok price ->
  exists out o,
    enrichPositionsWithLivePrices net positions = Ok out
    /\ nth_error out i = Some o
    /\ lookup "current_price" o = Some (Num price)
    /\ (forall m, p = Obj m -> lookup "qty" m = None -> truthy (member p "qty") = false)
    /\ (forall m, p = Obj m -> lookup "avg_price" m = None -> truthy (member p "avg_price") = false)
    /\ (truthy (member p "qty") = false ->
          qty_of p = 0%float
          /\ lookup "market_value" o = Some (Num (0 * price)%float)
          /\ lookup "unrealized_pl" o = Some (Num ((price - avg_of p) * 0)%float)
          /\ (PrimFloat.is_finite price = true -> PrimFloat.is_zero (0 * price)%float = true)
          /\ (PrimFloat.is_finite (price - avg_of p)%float = true ->
                PrimFloat.is_zero ((price - avg_of p) * 0)%float = true))
    /\ (truthy (member p "avg_price") = false ->
          avg_of p = 0%float
          /\ lookup "unrealized_pl" o = Some (Num (price * qty_of p)%float)).
Proof.
  intros Hall Hp Hprice.
  exists (map (fun ip => settled (net (fst ip)) (snd ip)) (indexed positions)).
  exists (settled (net i) p).
  split; [now apply enrich_settles|]. split; [now apply enrich_nth|].
  pose proof (settled_resolves (net i) p) as Hres. rewrite Hprice in Hres.
  destruct Hres as (Hcp & Hmv & Hupl & _).
  split; [exact Hcp|].
  split; [intros m -> Hm; simpl; now rewrite Hm|].
  split; [intros m -> Hm; simpl; now rewrite Hm|].
  split.
  - intros Hq.
    assert (Hz : qty_of p = 0%float) by (unfold qty_of, js_or; now rewrite Hq).
    rewrite Hz in Hmv, Hupl.
    repeat split; auto using mul_zero_l, mul_zero_r.
  - intros Ha.
    assert (Hz : avg_of p = 0%float) by (unfold avg_of, js_or; now rewrite Ha).
    rewrite Hz, sub_zero_r in Hupl. now split.
Qed.

(** *** Percentages *)

(** C7: a relative percentage with a zero denominator is exactly 0, a
    finite number.  The P/L percentage of a position is 0 when [avg_price] is
    falsy, so when it is +0 or -0, and
    [(current_price - avg_price) / avg_price * 100] when [avg_price] is a
    number other than zero and NaN; the percentage of the portfolio against
    its cost basis is 0 when the cost basis is zero (or absent), and
    [(value - cost_basis) / cost_basis * 100] when it is a number other than
    zero and NaN.  These are the percentages [renderKpis] and
    [renderPositions] format. *)
Theorem percent_of_zero_denominator :
  (forall pos, truthy (member (Obj pos) "avg_price") = false ->
     plPct pos = 0%float /\ PrimFloat.is_finite (plPct pos) = true)
  /\ (forall pos a, lookup "avg_price" pos = Some (Num a) ->
        PrimFloat.is_zero a = true -> plPct pos = 0%float)
  /\ (forall pos a, lookup "avg_price" pos = Some (Num a) ->
        PrimFloat.is_zero a = false -> PrimFloat.is_nan a = false ->
        plPct pos = ((Number (member (Obj pos) "current_price") - a) / a * 100)%float)
  /\ (forall payload ps, truthy (member payload "invested_cost_basis") = false ->
        vsBasisPct payload ps = 0%float /\ PrimFloat.is_finite (vsBasisPct payload ps) = true)
  /\ (forall payload ps c, member payload "invested_cost_basis" = Num c ->
        PrimFloat.is_zero c = true -> vsBasisPct payload ps = 0%float)
  /\ (forall payload ps c, member payload "invested_cost_basis" = Num c ->
        PrimFloat.is_zero c = false -> PrimFloat.is_nan c = false ->
        vsBasisPct payload ps = ((portfolioValue ps - c) / c * 100)%float)
  /\ (forall payload ps,
        portfolioPct_text (renderKpis payload ps) = pctFmt (Num (vsBasisPct payload ps)))
  /\ (forall pos,
        nth_error (position_row pos) 6 =
          Some (up_down (0 <=? plPct pos)%float, pctFmt (Num (plPct pos)))).
Proof.
  split; [|split; [|split; [|split; [|split; [|split; [|split]]]]]].
  - intros pos Hf. unfold plPct. rewrite Hf. now split.
  - intros pos a Ha Hz. unfold plPct; simpl. rewrite Ha; simpl.
    unfold truthy_num. now rewrite Hz.
  - intros pos a Ha Hz Hn. unfold plPct; simpl. rewrite Ha; simpl.
    unfold truthy_num. now rewrite Hz, Hn.
  - intros payload ps Hf. unfold vsBasisPct, cost, js_or. rewrite Hf. now split.
  - intros payload ps c Hc Hz. unfold vsBasisPct, cost, js_or. rewrite Hc; simpl.
    assert (Ht : truthy_num c = false) by (unfold truthy_num; now rewrite Hz).
    rewrite Ht. reflexivity.
  - intros payload ps c Hc Hz Hn. unfold vsBasisPct, cost, js_or. rewrite Hc; simpl.
    assert (Ht : truthy_num c = true) by (unfold truthy_num; now rewrite Hz, Hn).
    rewrite Ht; simpl. now rewrite Ht.
  - reflexivity.
  - reflexivity.
Qed.

(** *** The portfolio total *)

Lemma fold_sum_from (ps : list object) (acc : float) :
  fold_left (fun s p => (s + market_value_of p)%float) ps acc
  = sum_from acc (map market_value_of ps).
Proof.
  revert acc. induction ps as [|p rest IH]; intros acc; simpl; auto.
Qed.

Lemma sum_from_app (xs ys : list float) (acc : float) :
  sum_from acc (xs ++ ys) = sum_from (sum_from acc xs) ys.
Proof.
  revert acc. induction xs as [|x rest IH]; intros acc; simpl; auto.
Qed.

(** Adding two doubles to 0 gives the same double in either order. *)
Lemma add_two_from_zero (a b : float) : (0 + a + b)%float = (0 + b + a)%float.
Proof.
  apply Prim2SF_inj. rewrite !FloatAxioms.add_spec.
  change (Prim2SF 0) with (S754_zero false).
  destruct (Prim2SF a) as [[]|[]| |[] ma ea], (Prim2SF b) as [[]|[]| |[] mb eb];
    try reflexivity;
    unfold SF64add, SFadd; rewrite (Z.min_comm ea eb); f_equal; apply Z.add_comm.
Qed.

(** C2, amended: the total [renderKpis] shows is the sum of the market
    values of the positions taken from 0 in the order of the sequence, each
    market value read as [Number(market_value || 0)] (the member itself when
    it is a number other than NaN and -0): the total of a sequence extended
    by one position is the total of the sequence plus the market value of
    that position.  Exchanging the two positions of a sequence of two leaves
    the total unchanged. *)
Theorem renderKpis_total_in_order (payload : value) (ps : list object) :
  portfolioValue_text (renderKpis payload ps) = ("$" ++ fmtNumber (Num (portfolioValue ps)) 2)%string
  /\ portfolioValue ps = float_sum (map market_value_of ps)
  /\ portfolioValue [] = 0%float
  /\ (forall p, portfolioValue (ps ++ [p]) = (portfolioValue ps + market_value_of p)%float)
  /\ (forall p q, portfolioValue [p; q] = portfolioValue [q; p])
  /\ (forall p x, lookup "market_value" p = Some (Num x) ->
        PrimFloat.is_nan x = false -> is_neg_zero x = false -> market_value_of p = x).
Proof.
  assert (Hsum : forall qs, portfolioValue qs = float_sum (map market_value_of qs)).
  { intros qs. unfold portfolioValue, float_sum. apply (fold_sum_from qs). }
  split; [reflexivity|]. split; [apply Hsum|]. split; [reflexivity|].
  split; [|split].
  - intros p. rewrite !Hsum. unfold float_sum.
    now rewrite map_app, sum_from_app.
  - intros p q. rewrite !Hsum. unfold float_sum; simpl. apply add_two_from_zero.
  - intros p x Hx Hn Hz. unfold market_value_of; simpl. rewrite Hx.
    now apply number_or_zero.
Qed.

(** *** The chart *)

Lemma drawChart_on_hides (key : string) (series : value) (pg : page) :
  (forall n, point_count series = Some n -> n < 2) ->
  drawChart_on key series pg = (hidden pg, Ok tt).
Proof.
  intros Hfew. unfold drawChart_on.
  destruct series; try reflexivity.
  assert (Hlt : List.length elems < 2) by (apply Hfew; reflexivity).
  apply Nat.ltb_lt in Hlt. now rewrite Hlt.
Qed.

(** C4: on a series with fewer than two points, and on what is not an array,
    [drawChart] (of both scripts) returns with the chart area hidden and the
    chart left without any child: no path, gridline, marker or label. *)
Theorem drawChart_hides_short_series (series : value) (pg : page) :
  (forall n, point_count series = Some n -> n < 2) ->
  drawChart series pg = (hidden pg, Ok tt)
  /\ drawChart_app series pg = (hidden pg, Ok tt)
  /\ chart_children (fst (drawChart series pg)) = []
  /\ chartWrap_display (fst (drawChart series pg)) = "none"%string.
Proof.
  intros Hfew. unfold drawChart, drawChart_app.
  rewrite !drawChart_on_hides by assumption. repeat split.
Qed.

Lemma drawChart_on_twice (key : string) (series : value) (pg : page) :
  drawChart_on key series (fst (drawChart_on key series pg)) = drawChart_on key series pg.
Proof.
  unfold drawChart_on.
  destruct series; try reflexivity.
  destruct (List.length elems <? 2) eqn:Hlen; simpl; rewrite ?Hlen; try reflexivity.
  destruct (mapM (plotted key) elems) as [values|e]; simpl; rewrite ?Hlen.
  - destruct (path_data key _ _ _ elems) as [d|e]; simpl;
      unfold set_chart_attribute; simpl; now rewrite set_attr_twice.
  - unfold set_chart_attribute; simpl. now rewrite set_attr_twice.
Qed.

Lemma drawChart_on_children (key : string) (series : value) (pg pg' : page) :
  chart_children (fst (drawChart_on key series pg)) =
  chart_children (fst (drawChart_on key series pg')).
Proof.
  unfold drawChart_on.
  destruct series; try reflexivity.
  destruct (List.length elems <? 2); try reflexivity.
  destruct (mapM (plotted key) elems) as [values|e]; try reflexivity.
  destruct (path_data key _ _ _ elems) as [d|e]; reflexivity.
Qed.

(** C9: [drawChart] is idempotent.  On every input and every page, a second
    call with the same input leaves the page the first call left (and ends
    the same way), and the children of the chart after a call do not depend
    on what the chart held before: nothing accumulates. *)
Theorem drawChart_idempotent (series : value) (pg pg' : page) :
  drawChart series (fst (drawChart series pg)) = drawChart series pg
  /\ drawChart_app series (fst (drawChart_app series pg)) = drawChart_app series pg
  /\ chart_children (fst (drawChart series pg)) = chart_children (fst (drawChart series pg'))
  /\ chart_children (fst (drawChart_app series pg)) = chart_children (fst (drawChart_app series pg')).
Proof.
  unfold drawChart, drawChart_app. repeat split;
    auto using drawChart_on_twice, drawChart_on_children.
Qed.

(** *** The chart of a series of two points or more *)

Lemma plotted_values_not_nan (key : string) (points : list value) :
  Forall (fun y => PrimFloat.is_nan y = false) (plotted_values key points).
Proof.
  apply Forall_forall. intros y Hy. unfold plotted_values in Hy.
  apply filter_In in Hy as [_ Hy]. now apply negb_true_iff in Hy.
Qed.

Lemma extrema_not_nan (key : string) (points : list value) :
  PrimFloat.is_nan (Math_min (plotted_values key points)) = false
  /\ PrimFloat.is_nan (Math_max (plotted_values key points)) = false.
Proof.
  split.
  - apply fold_not_nan; auto using min2_not_nan, plotted_values_not_nan.
  - apply fold_not_nan; auto using max2_not_nan, plotted_values_not_nan.
Qed.

Lemma plotted_total (key : string) (points : list value) :
  Forall (fun p => nullish p = false) points ->
  mapM (plotted key) points = Ok (map (plotted_value key) points).
Proof.
  intros Hall. apply mapM_total. intros p Hp.
  rewrite Forall_forall in Hall.
  unfold plotted, get_member. now rewrite (Hall p Hp).
Qed.

Lemma path_data_total (key : string) (points : list value) :
  Forall (fun p => nullish p = false) points ->
  path_data key (List.length points - 1)
            (Math_min (plotted_values key points)) (Math_max (plotted_values key points)) points
  = Ok (drawn_path key points).
Proof.
  intros Hall. unfold path_data, drawn_path. apply mapM_total. intros ip Hip.
  rewrite Forall_forall in Hall.
  unfold plotted, get_member.
  now rewrite (Hall (snd ip) (In_indexed_from _ _ _ Hip)).
Qed.

(** What [drawChart] leaves on the page for a series of two points or more:
    the gridline, the path, the marker and the two labels, in this order. *)
Lemma drawChart_on_draws (key : string) (points : list value) (pg : page) :
  2 <= List.length points ->
  Forall (fun p => nullish p = false) points ->
  let ys := plotted_values key points in
  let xMax := List.length points - 1 in
  let yMin := Math_min ys in
  let yMax := Math_max ys in
  drawChart_on key (Arr points) pg =
    ({| chart_children :=
          [ grid_line (yScale yMin yMax (last_value ys));
            path_element (drawn_path key points);
            dot_element (xScale xMax xMax) (yScale yMin yMax (last_value ys));
            label_element (PAD, (H - 4)%float, fmtNumber (Num yMin) 2);
            label_element ((W - PAD)%float, (H - 4)%float, fmtNumber (Num yMax) 2) ];
        chart_attributes :=
          set_attr "viewBox" (AStr ("0 0 " ++ NumberToString W ++ " " ++ NumberToString H))
                   (chart_attributes pg);
        chartWrap_display := EmptyString |}, Ok tt).
Proof.
  intros Hlen Hall ys xMax yMin yMax. unfold drawChart_on.
  assert (Hlt : (List.length points <? 2) = false) by (apply Nat.ltb_ge; lia).
  rewrite Hlt, plotted_total by assumption.
  fold (plotted_values key points). fold ys. fold yMin. fold yMax.
  unfold yMin, yMax, ys. rewrite path_data_total by assumption.
  reflexivity.
Qed.

Lemma polylines_drawn (key : string) (points : list value) (pg : page) :
  2 <= List.length points ->
  Forall (fun p => nullish p = false) points ->
  polylines (fst (drawChart_on key (Arr points) pg)) = [map vertex (drawn_path key points)]
  /\ markers (fst (drawChart_on key (Arr points) pg)) =
       [ (xScale (List.length points - 1) (List.length points - 1),
          yScale (Math_min (plotted_values key points)) (Math_max (plotted_values key points))
                 (last_value (plotted_values key points))) ].
Proof.
  intros Hlen Hall. rewrite drawChart_on_draws by assumption.
  split.
  - unfold polylines; simpl. unfold label_element; simpl.
    destruct (PAD <? W / 2)%float, (W - PAD <? W / 2)%float; reflexivity.
  - unfold markers; simpl. unfold label_element; simpl.
    destruct (PAD <? W / 2)%float, (W - PAD <? W / 2)%float; reflexivity.
Qed.

Lemma nth_error_drawn_path (key : string) (points : list value) (i : nat) (p : value) :
  nth_error points i = Some p ->
  nth_error (map vertex (drawn_path key points)) i =
    Some (xScale (List.length points - 1) i,
          yScale (Math_min (plotted_values key points)) (Math_max (plotted_values key points))
                 (Num (plotted_value key p))).
Proof.
  intros Hp. unfold drawn_path, indexed.
  rewrite !nth_error_map, nth_error_indexed_from, Hp. simpl.
  now destruct (Nat.eqb i 0).
Qed.

Lemma last_value_of_last (key : string) (points : list value) (p : value) :
  nth_error points (List.length points - 1) = Some p ->
  PrimFloat.is_nan (plotted_value key p) = false ->
  last_value (plotted_values key points) = Num (plotted_value key p).
Proof.
  intros Hp Hnan.
  destruct (@exists_last _ points) as (init & q & ->).
  { intros ->. discriminate. }
  rewrite length_app, nth_error_app2 in Hp by (simpl; lia).
  replace (List.length init + List.length [q] - 1 - List.length init) with 0 in Hp
    by (simpl; lia).
  injection Hp as ->.
  unfold plotted_values, last_value.
  rewrite map_app, filter_app. simpl. rewrite Hnan. simpl.
  rewrite length_app, nth_error_app2 by (simpl; lia).
  replace (_ - _) with 0 by (simpl; lia). reflexivity.
Qed.

(** C5: for every series of [N >= 2] points, none of them null or undefined
    and each with a plotted value that is a number (not NaN), as the data
    model has them, [drawChart] draws one path of exactly [N] vertices and
    one marker, and the marker is at the last vertex of the path: both its
    coordinates are those of vertex [N - 1]. *)
Theorem drawChart_polyline_and_marker (points : list value) (pg : page) :
  2 <= List.length points ->
  Forall (fun p => nullish p = false) points ->
  Forall (fun p => PrimFloat.is_nan (plotted_value "equity" p) = false) points ->
  exists vs m,
    polylines (fst (drawChart (Arr points) pg)) = [vs]
    /\ List.length vs = List.length points
    /\ markers (fst (drawChart (Arr points) pg)) = [m]
    /\ nth_error vs (List.length points - 1) = Some m.
Proof.
  intros Hlen Hall Hnum. unfold drawChart.
  destruct (polylines_drawn "equity" pg Hlen Hall) as [Hpoly Hmark].
  destruct (nth_error points (List.length points - 1)) as [p|] eqn:Hp.
  2:{ apply nth_error_None in Hp. lia. }
  assert (Hnan : PrimFloat.is_nan (plotted_value "equity" p) = false).
  { apply (proj1 (Forall_forall _ points) Hnum p). eapply nth_error_In. exact Hp. }
  eexists. eexists.
  split; [exact Hpoly|]. split.
  { unfold drawn_path, indexed. now rewrite !length_map, length_indexed_from. }
  split; [exact Hmark|].
  rewrite (@nth_error_drawn_path "equity" points _ p Hp).
  now rewrite (@last_value_of_last "equity" points p Hp Hnan).
Qed.

(** C6: for every series of [N >= 2] points, none of them null or undefined,
    with [yMin] and [yMax] the least and the greatest of the plotted values
    that are numbers, vertex [i] of the path [drawChart] draws (in both
    scripts) is, for the plotted value [v] of point [i],
    [x = PAD + i * (W - 2*PAD) / max(N-1, 1)] and
    [y = H - PAD - (v - yMin) * (H - 2*PAD) / (yMax - yMin)], the divisor of
    [y] being 1 when [yMax = yMin]; [W = 800], [H = 220], [PAD = 18], and the
    divisor of [y] is neither a zero nor NaN. *)
Theorem drawChart_scales (points : list value) (pg : page) (i : nat) (p : value) :
  2 <= List.length points ->
  Forall (fun p => nullish p = false) points ->
  nth_error points i = Some p ->
  (exists vs,
      polylines (fst (drawChart (Arr points) pg)) = [vs]
      /\ vertex_as_specified "equity" points i p vs)
  /\ (exists vs,
      polylines (fst (drawChart_app (Arr points) pg)) = [vs]
      /\ vertex_as_specified "close" points i p vs)
  /\ (W, H, PAD) = (800, 220, 18)%float.
Proof.
  intros Hlen Hall Hp.
  assert (Hkey : forall key,
             exists vs,
               polylines (fst (drawChart_on key (Arr points) pg)) = [vs]
               /\ vertex_as_specified key points i p vs).
  { intros key.
    destruct (polylines_drawn key pg Hlen Hall) as [Hpoly _].
    destruct (extrema_not_nan key points) as [Hmin Hmax].
    destruct (@or_num_range _ _ Hmin Hmax) as [Hdiv Hnz].
    destruct (extrema_bound (plotted_values_not_nan key points)) as [Hbound Hamong].
    eexists. split; [exact Hpoly|].
    unfold vertex_as_specified. split; [|split; [exact Hnz|split; assumption]].
    rewrite (@nth_error_drawn_path key points i p Hp).
    unfold spec_vertex, xScale, yScale. rewrite Hdiv. simpl Number.
    replace (Nat.max (List.length points - 1) 1) with (List.length points - 1) by lia.
    destruct (Nat.eqb (List.length points - 1) 0) eqn:E; [|reflexivity].
    apply Nat.eqb_eq in E. lia. }
  split; [apply Hkey|]. split; [apply Hkey|]. reflexivity.
Qed.

(* ================================================================== *)
(** ** More properties of the scripts *)

(** *** The tables *)

Lemma append_rows_total (key : string) (points : list value) (body : list row) :
  Forall (fun p => nullish p = false) points ->
  append_rows key points body = ((body ++ map (table_row key) points)%list, Ok tt).
Proof.
  intros Hall. revert body.
  induction Hall as [|p rest Hp Hrest IH]; intros body; simpl.
  - now rewrite app_nil_r.
  - unfold get_member. rewrite Hp. rewrite IH.
    now rewrite <- app_assoc.
Qed.

Lemma append_rows_throws (key : string) (good rest : list value) (bad : value)
      (body : list row) :
  Forall (fun p => nullish p = false) good ->
  nullish bad = true ->
  append_rows key (good ++ bad :: rest) body
  = ((body ++ map (table_row key) good)%list, Throw TypeError).
Proof.
  intros Hgood Hbad. revert body.
  induction Hgood as [|p good' Hp Hgood' IH]; intros body; simpl.
  - unfold get_member. rewrite Hbad. now rewrite app_nil_r.
  - unfold get_member at 1 2. rewrite Hp. rewrite IH.
    now rewrite <- app_assoc.
Qed.

Lemma length_last30 (points : list value) :
  List.length (last30 points) = Nat.min (List.length points) 30.
Proof.
  unfold last30. rewrite length_skipn. lia.
Qed.

Lemma nth_error_last30 (points : list value) (j : nat) :
  nth_error (last30 points) j = nth_error points (List.length points - 30 + j).
Proof.
  unfold last30. apply nth_error_skipn.
Qed.

Lemma renderTable_on_rows (key : string) (points : list value) :
  points <> [] ->
  Forall (fun p => nullish p = false) (last30 points) ->
  renderTable_on key (Arr points) = (map (table_row key) (last30 points), Ok tt).
Proof.
  intros Hne Hall. unfold renderTable_on.
  destruct points as [|p rest]; [now destruct Hne|].
  simpl Nat.eqb. cbv iota.
  now rewrite append_rows_total.
Qed.

(** X1: a table shows [min(N, 30)] rows of data for a series of [N >= 1]
    points whose last 30 are not null or undefined (older points are never
    read), and exactly one placeholder row for an empty series and for what
    is not an array; in both scripts. *)
Theorem table_row_count (series : value) :
  (forall points,
      series = Arr points -> points <> [] ->
      Forall (fun p => nullish p = false) (last30 points) ->
      snd (renderEquityTable series) = Ok tt
      /\ snd (renderTable series) = Ok tt
      /\ List.length (fst (renderEquityTable series)) = Nat.min (List.length points) 30
      /\ List.length (fst (renderTable series)) = Nat.min (List.length points) 30
      /\ forallb is_data_row (fst (renderEquityTable series)) = true
      /\ forallb is_data_row (fst (renderTable series)) = true)
  /\ ((forall n, point_count series = Some n -> n = 0) ->
      renderEquityTable series = ([placeholder_row 2 "No data points."], Ok tt)
      /\ renderTable series = ([placeholder_row 2 "No data points."], Ok tt)).
Proof.
  split.
  - intros points -> Hne Hall. unfold renderEquityTable, renderTable.
    rewrite !renderTable_on_rows by assumption. simpl.
    rewrite !length_map, length_last30.
    repeat split; auto; apply forallb_forall; intros r Hr;
      apply in_map_iff in Hr as (p & <- & _); reflexivity.
  - intros Hn. unfold renderEquityTable, renderTable, renderTable_on.
    destruct series; auto.
    assert (Hz : List.length elems = 0) by (apply Hn; reflexivity).
    rewrite Hz. auto.
Qed.

(** X2: the rows of a table are the most recent 30 points, oldest first: row
    [j] shows point [N - min(N, 30) + j], its date through [fmtDate] and its
    value with two decimals. *)
Theorem table_shows_latest_points (points : list value) (j : nat) (p : value) :
  Forall (fun p => nullish p = false) (last30 points) ->
  j < Nat.min (List.length points) 30 ->
  nth_error points (List.length points - Nat.min (List.length points) 30 + j) = Some p ->
  nth_error (fst (renderEquityTable (Arr points))) j
    = Some (data_row [fmtDate (member p "date"); fmtNumber (member p "equity") 2])
  /\ nth_error (fst (renderTable (Arr points))) j
    = Some (data_row [fmtDate (member p "date"); fmtNumber (member p "close") 2]).
Proof.
  intros Hall Hj Hp.
  assert (Hne : points <> []) by (intros ->; simpl in Hj; lia).
  assert (Hnth : nth_error (last30 points) j = Some p).
  { rewrite nth_error_last30. rewrite <- Hp. f_equal. lia. }
  unfold renderEquityTable, renderTable.
  rewrite !renderTable_on_rows by assumption. simpl.
  rewrite !nth_error_map, Hnth. split; reflexivity.
Qed.

(** X3: when one of the last 30 points is null or undefined, the table
    throws a TypeError at it and is left with the rows of the points before
    it. *)
Theorem table_stops_at_null_point (points good rest : list value) (bad : value) :
  last30 points = (good ++ bad :: rest)%list ->
  Forall (fun p => nullish p = false) good ->
  nullish bad = true ->
  renderEquityTable (Arr points) = (map (table_row "equity") good, Throw TypeError)
  /\ renderTable (Arr points) = (map (table_row "close") good, Throw TypeError).
Proof.
  intros Hlast Hgood Hbad.
  assert (Hne : Nat.eqb (List.length points) 0 = false).
  { destruct points; [|reflexivity]. now destruct good. }
  unfold renderEquityTable, renderTable, renderTable_on.
  rewrite Hne, Hlast, !append_rows_throws by assumption. split; reflexivity.
Qed.

(** *** Validation, again *)

Lemma lookup_set_member_present (k : string) (v : value) (m : object) :
  lookup k (set_member k v m) <> None.
Proof.
  rewrite lookup_set_member_same. discriminate.
Qed.

(** X4: what [validatePayload] of docs/script.js accepts is an object whose
    [equity_series] is an array and that has a [positions] member; it is the
    input itself when the input had [positions], and otherwise the input with
    [positions: []] added and every other member unchanged.  Validating what
    was accepted returns it unchanged. *)
Theorem validatePayload_accepts (data data' : value) :
  validatePayload data = Ok data' ->
  (exists m m' series,
      data = Obj m /\ data' = Obj m'
      /\ lookup "equity_series" m' = Some (Arr series)
      /\ lookup "positions" m' <> None
      /\ (lookup "positions" m <> None -> m' = m)
      /\ (lookup "positions" m = None -> lookup "positions" m' = Some (Arr []))
      /\ (forall k, k <> "positions"%string -> lookup k m' = lookup k m))
  /\ validatePayload data' = Ok data'.
Proof.
  unfold validatePayload. intros Hok.
  destruct data as [| |b|x|s|l|m]; simpl in Hok; try discriminate.
  - destruct b; discriminate.
  - destruct (truthy_num x); discriminate.
  - destruct (negb (String.eqb s EmptyString)); discriminate.
  - destruct (lookup "equity_series" m) as [es|] eqn:Hes; simpl in Hok; [|discriminate].
    destruct es as [| | | | |series|]; simpl in Hok; try discriminate.
    destruct (lookup "positions" m) as [ps|] eqn:Hps; simpl in Hok;
      injection Hok as <-.
    + split.
      * exists m, m, series. rewrite Hps.
        split; [reflexivity|]. split; [reflexivity|]. split; [exact Hes|].
        split; [discriminate|]. split; [reflexivity|]. split; [discriminate|].
        reflexivity.
      * simpl. rewrite Hes. simpl. now rewrite Hps.
    + split.
      * exists m, (set_member "positions" (Arr []) m), series.
        split; [reflexivity|]. split; [reflexivity|].
        split; [now rewrite lookup_set_member_other by discriminate|].
        split; [apply lookup_set_member_present|].
        split; [intros E; now destruct E|].
        split; [intros _; apply lookup_set_member_same|].
        intros k Hk. now apply lookup_set_member_other.
      * simpl. rewrite lookup_set_member_other by discriminate. rewrite Hes. simpl.
        now rewrite lookup_set_member_same.
Qed.

(** X5: [validatePayload] of docs/app.js accepts exactly the objects that
    have a [ticker] member and whose [series] is an array, and returns them
    unchanged; when both [ticker] and [series] are missing the error names
    [ticker]. *)
Theorem validatePayload_app_accepts (data : value) :
  (forall data', validatePayload_app data = Ok data' <->
     data' = data
     /\ exists m series,
          data = Obj m /\ lookup "ticker" m <> None /\ lookup "series" m = Some (Arr series))
  /\ (forall m, data = Obj m -> lookup "ticker" m = None ->
        validatePayload_app data =
          Throw (Error ("Missing " ++ dquote ++ "ticker" ++ dquote ++ " field.")))
  /\ (forall m t, data = Obj m -> lookup "ticker" m = Some t -> lookup "series" m = None ->
        validatePayload_app data =
          Throw (Error ("Missing " ++ dquote ++ "series" ++ dquote ++ " field."))).
Proof.
  split; [|split].
  - intros data'. unfold validatePayload_app. split.
    + intros Hok.
      destruct data as [| |b|x|s|l|m]; simpl in Hok; try discriminate.
      * destruct b; discriminate.
      * destruct (truthy_num x); discriminate.
      * destruct (negb (String.eqb s EmptyString)); discriminate.
      * destruct (lookup "ticker" m) as [t|] eqn:Ht; simpl in Hok; [|discriminate].
        destruct (lookup "series" m) as [es|] eqn:Hes; simpl in Hok; [|discriminate].
        destruct es as [| | | | |series|]; simpl in Hok; try discriminate.
        injection Hok as <-. split; [reflexivity|].
        exists m, series. rewrite Ht.
        split; [reflexivity|]. split; [discriminate|]. exact Hes.
    + intros (-> & m & series & -> & Ht & Hes). simpl.
      destruct (lookup "ticker" m); [|now destruct Ht].
      simpl. rewrite Hes. reflexivity.
  - intros m -> Ht. unfold validatePayload_app. simpl. now rewrite Ht.
  - intros m t -> Ht Hes. unfold validatePayload_app. simpl. now rewrite Ht, Hes.
Qed.

(** *** Enrichment, again *)

Lemma recover_enrich_one_null (r : response) (p : value) :
  nullish p = true -> recover p (enrich_one r p) = Throw TypeError.
Proof.
  intros Hp. unfold enrich_one, get_member. rewrite Hp. simpl.
  unfold get_member. now rewrite Hp.
Qed.

Lemma mapM_throws {A B} (f : A -> result B) (e : exn) (xs : list A) :
  (forall x, In x xs -> (exists y, f x = Ok y) \/ f x = Throw e) ->
  (exists x, In x xs /\ f x = Throw e) ->
  mapM f xs = Throw e.
Proof.
  induction xs as [|x rest IH]; intros Hall (bad & Hin & Hbad); simpl.
  - destruct Hin.
  - destruct (Hall x (or_introl eq_refl)) as [(y & Hy)|Hx].
    + rewrite Hy. rewrite IH; auto.
      * intros z Hz. apply Hall. now right.
      * destruct Hin as [->|Hin]; [rewrite Hy in Hbad; discriminate|].
        exists bad. auto.
    + now rewrite Hx.
Qed.

Lemma In_indexed_from_nth {A} (xs : list A) (s : nat) (ix : nat * A) :
  In ix (indexed_from s xs) ->
  exists n, nth_error xs n = Some (snd ix) /\ fst ix = s + n.
Proof.
  intros Hin. apply In_nth_error in Hin as (n & Hn).
  rewrite nth_error_indexed_from in Hn.
  destruct (nth_error xs n) as [x|] eqn:Hx; simpl in Hn; [|discriminate].
  injection Hn as <-. exists n. auto.
Qed.

Lemma In_indexed_of {A} (xs : list A) (s : nat) (x : A) :
  In x xs -> exists i, In (i, x) (indexed_from s xs).
Proof.
  revert s. induction xs as [|y rest IH]; intros s Hin; simpl in *.
  - destruct Hin.
  - destruct Hin as [->|Hin].
    + exists s. now left.
    + destruct (IH (S s) Hin) as (i & Hi). exists i. now right.
Qed.

Lemma enrichPositions_total (net : nat -> response) (positions : list value) :
  Forall (fun p => nullish p = false) positions ->
  exists out,
    enrichPositionsWithLivePrices net positions = Ok out
    /\ List.length out = List.length positions.
Proof.
  intros Hall. eexists. split; [now apply enrich_settles|].
  unfold indexed. now rewrite length_map, length_indexed_from.
Qed.

(** X6: when one of the positions is null or undefined,
    [enrichPositionsWithLivePrices] throws a TypeError whatever the requests
    come to: a null position aborts the batch. *)
Theorem enrichment_aborts_on_null_position
  (net : nat -> response) (positions : list value) (p : value) :
  In p positions ->
  nullish p = true ->
  enrichPositionsWithLivePrices net positions = Throw TypeError.
Proof.
  intros Hin Hp. unfold enrichPositionsWithLivePrices, indexed.
  rewrite enrich_as_map, mapM_map. simpl.
  apply mapM_throws.
  - intros ip _. destruct (nullish (snd ip)) eqn:Hn.
    + right. now apply recover_enrich_one_null.
    + left. eexists. now apply recover_enrich_one.
  - destruct (In_indexed_of positions 0 p Hin) as (i & Hi).
    exists (i, p). split; [exact Hi|]. now apply recover_enrich_one_null.
Qed.

(** X7: each position is resolved on its own: the enriched position at an
    index depends on the position at that index and on what its request
    comes to, and on no other position or request. *)
Theorem enrichment_is_per_position
  (net net' : nat -> response) (positions positions' : list value) (i : nat) (p : value) :
  Forall (fun p => nullish p = false) positions ->
  Forall (fun p => nullish p = false) positions' ->
  nth_error positions i = Some p ->
  nth_error positions' i = Some p ->
  net i = net' i ->
  exists out out' o,
    enrichPositionsWithLivePrices net positions = Ok out
    /\ enrichPositionsWithLivePrices net' positions' = Ok out'
    /\ nth_error out i = Some o
    /\ nth_error out' i = Some o.
Proof.
  intros Hall Hall' Hp Hp' Hnet.
  exists (map (fun ip => settled (net (fst ip)) (snd ip)) (indexed positions)).
  exists (map (fun ip => settled (net' (fst ip)) (snd ip)) (indexed positions')).
  exists (settled (net i) p).
  split; [now apply enrich_settles|]. split; [now apply enrich_settles|].
  split; [now apply enrich_nth|].
  rewrite Hnet. now apply enrich_nth.
Qed.

Lemma keys_set_member (k : string) (v : value) (m : object) :
  keys (set_member k v m) = (keys m ++ absent_from m [k])%list.
Proof.
  unfold keys, absent_from. induction m as [|[k' v'] rest IH]; simpl; auto.
  destruct (String.eqb k k') eqn:E; simpl.
  - now rewrite app_nil_r.
  - rewrite IH. simpl. reflexivity.
Qed.

Lemma set_member_unchanged (k : string) (v : value) (m : object) :
  lookup k m = Some v -> set_member k v m = m.
Proof.
  induction m as [|[k' v'] rest IH]; simpl; [discriminate|].
  destruct (String.eqb k k') eqn:E.
  - intros H. injection H as ->. reflexivity.
  - intros H. now rewrite IH.
Qed.

Lemma keys_derived (cp mv upl : value) (m : object) :
  keys (set_member "unrealized_pl" upl
         (set_member "market_value" mv (set_member "current_price" cp m)))
  = (keys m ++ absent_from m derived_keys)%list.
Proof.
  rewrite !keys_set_member. unfold absent_from, derived_keys. simpl.
  rewrite !lookup_set_member_other by discriminate.
  destruct (lookup "current_price" m), (lookup "market_value" m),
    (lookup "unrealized_pl" m); simpl; rewrite <- ?app_assoc; simpl;
    rewrite ?app_nil_r; reflexivity.
Qed.

(** X8: an enriched position has the members of the position in their
    order, each of [current_price], [market_value] and [unrealized_pl]
    staying where the position had it and otherwise coming after them, in
    this order. *)
Theorem enrichment_keeps_member_order
  (net : nat -> response) (positions : list value) (i : nat) (p : value) :
  Forall (fun p => nullish p = false) positions ->
  nth_error positions i = Some p ->
  exists out o,
    enrichPositionsWithLivePrices net positions = Ok out
    /\ nth_error out i = Some o
    /\ keys o = (keys (spread p) ++ absent_from (spread p) derived_keys)%list.
Proof.
  intros Hall Hp.
  exists (map (fun ip => settled (net (fst ip)) (snd ip)) (indexed positions)).
  exists (settled (net i) p).
  split; [now apply enrich_settles|]. split; [now apply enrich_nth|].
  unfold settled.
  destruct (getLivePrice (net i) (member p "ticker")); apply keys_derived.
Qed.

Lemma settled_again (r : response) (m : object) :
  settled r (Obj (settled r (Obj m))) = settled r (Obj m).
Proof.
  pose proof (settled_resolves r (Obj m)) as Hres.
  assert (Hbase : forall k, derived_key k = false ->
                    member (Obj (settled r (Obj m))) k = member (Obj m) k).
  { intros k Hk. simpl.
    destruct (getLivePrice r (member (Obj m) "ticker"));
      destruct Hres as (_ & _ & _ & Hother); now rewrite (Hother k Hk). }
  unfold settled at 1. unfold qty_of, avg_of.
  rewrite !Hbase by reflexivity.
  fold (qty_of (Obj m)). fold (avg_of (Obj m)).
  destruct (getLivePrice r (member (Obj m) "ticker")) as [price|e];
    destruct Hres as (Hcp & Hmv & Hupl & _); simpl spread;
    rewrite (set_member_unchanged _ _ Hcp), (set_member_unchanged _ _ Hmv);
    apply (set_member_unchanged _ _ Hupl).
Qed.

Lemma settled_again_all (net : nat -> response) (positions : list value) (s : nat) :
  Forall (fun p => is_object p = true) positions ->
  map (fun ip => settled (net (fst ip)) (snd ip))
      (indexed_from s
         (map Obj (map (fun ip => settled (net (fst ip)) (snd ip)) (indexed_from s positions))))
  = map (fun ip => settled (net (fst ip)) (snd ip)) (indexed_from s positions).
Proof.
  intros Hobj. revert s.
  induction Hobj as [|p rest Hp Hrest IH]; intros s; simpl; auto.
  rewrite IH. f_equal.
  destruct p as [| | | | | |m]; try discriminate. apply settled_again.
Qed.

(** X9: enriching again what enrichment returned, with the same quotes,
    returns it unchanged, for positions that are objects. *)
Theorem enrichment_is_idempotent
  (net : nat -> response) (positions : list value) (out : list object) :
  Forall (fun p => is_object p = true) positions ->
  enrichPositionsWithLivePrices net positions = Ok out ->
  enrichPositionsWithLivePrices net (map Obj out) = Ok out.
Proof.
  intros Hobj Hout.
  assert (Hall : Forall (fun p => nullish p = false) positions).
  { eapply Forall_impl; [|exact Hobj]. intros p Hp. now destruct p. }
  rewrite (enrich_settles net Hall) in Hout. injection Hout as <-.
  rewrite enrich_settles.
  - f_equal. unfold indexed. now apply settled_again_all.
  - apply Forall_forall. intros v Hv. apply in_map_iff in Hv as (o & <- & _). reflexivity.
Qed.

Lemma sum_from_zeros (xs : list float) :
  Forall (fun x => x = 0%float) xs -> sum_from 0%float xs = 0%float.
Proof.
  induction 1 as [|x rest Hx Hrest IH]; simpl; auto.
  rewrite Hx. change (0 + 0)%float with 0%float. exact IH.
Qed.

Lemma settled_failed (r : response) (p : value) (e : exn) :
  getLivePrice r (member p "ticker") = Throw e ->
  resolves_to p (settled r p) 0%float 0%float 0%float.
Proof.
  intros He. pose proof (settled_resolves r p) as Hres. now rewrite He in Hres.
Qed.

(** X10: when no price fetch succeeds, every enriched position has its three
    derived fields at 0, and the portfolio total [renderKpis] shows is
    exactly 0. *)
Theorem enrichment_without_prices
  (net : nat -> response) (positions : list value) (payload : value) :
  Forall (fun p => nullish p = false) positions ->
  (forall i p, nth_error positions i = Some p ->
     exists e, getLivePrice (net i) (member p "ticker") = Throw e) ->
  exists out,
    enrichPositionsWithLivePrices net positions = Ok out
    /\ Forall (fun o => lookup "current_price" o = Some (Num 0)
                        /\ lookup "market_value" o = Some (Num 0)
                        /\ lookup "unrealized_pl" o = Some (Num 0)) out
    /\ portfolioValue out = 0%float
    /\ portfolioValue_text (renderKpis payload out) = ("$" ++ fmtNumber (Num 0) 2)%string.
Proof.
  intros Hall Hfail.
  exists (map (fun ip => settled (net (fst ip)) (snd ip)) (indexed positions)).
  assert (Hzero : Forall (fun o => lookup "current_price" o = Some (Num 0)
                                   /\ lookup "market_value" o = Some (Num 0)
                                   /\ lookup "unrealized_pl" o = Some (Num 0))
                    (map (fun ip => settled (net (fst ip)) (snd ip)) (indexed positions))).
  { apply Forall_forall. intros o Ho. apply in_map_iff in Ho as (ip & <- & Hip).
    destruct (In_indexed_from_nth _ _ _ Hip) as (n & Hn & Hi). simpl in Hi.
    rewrite Hi. destruct (Hfail n (snd ip) Hn) as (e & He).
    destruct (settled_failed _ _ He) as (Hcp & Hmv & Hupl & _). auto. }
  assert (Htotal : portfolioValue
                     (map (fun ip => settled (net (fst ip)) (snd ip)) (indexed positions))
                   = 0%float).
  { unfold portfolioValue.
    rewrite (fold_sum_from _ 0%float). apply sum_from_zeros.
    apply Forall_forall. intros x Hx. apply in_map_iff in Hx as (o & <- & Ho).
    rewrite Forall_forall in Hzero. destruct (Hzero o Ho) as (_ & Hmv & _).
    unfold market_value_of. simpl. now rewrite Hmv. }
  split; [now apply enrich_settles|]. split; [exact Hzero|]. split; [exact Htotal|].
  unfold renderKpis. simpl. now rewrite Htotal.
Qed.

(** X11: a position falls back to zeroed derived fields whenever its request
    is rejected (transport failure or timeout), answers with a status that is
    not a success, also when the body carries prices, or carries a body that
    is no JSON. *)
Theorem failed_request_falls_back
  (net : nat -> response) (positions : list value) (i : nat) (p : value) :
  Forall (fun p => nullish p = false) positions ->
  nth_error positions i = Some p ->
  (exists e, net i = Rejected e)
  \/ (exists status json, net i = Resolved false status json)
  \/ (exists status e, net i = Resolved true status (Throw e)) ->
  exists out o,
    enrichPositionsWithLivePrices net positions = Ok out
    /\ nth_error out i = Some o
    /\ resolves_to p o 0%float 0%float 0%float.
Proof.
  intros Hall Hp Hnet.
  exists (map (fun ip => settled (net (fst ip)) (snd ip)) (indexed positions)).
  exists (settled (net i) p).
  split; [now apply enrich_settles|]. split; [now apply enrich_nth|].
  destruct Hnet as [(e & Hr)|[(status & json & Hr)|(status & e & Hr)]];
    eapply settled_failed; rewrite Hr; reflexivity.
Qed.

(** *** The chart, again *)

Lemma sub_self (x : float) : PrimFloat.is_finite x = true -> (x - x)%float = 0%float.
Proof.
  unfold PrimFloat.is_finite. rewrite is_nan_spec, is_infinity_spec. intros Hfin.
  apply Prim2SF_inj. rewrite FloatAxioms.sub_spec.
  change (Prim2SF 0) with (S754_zero false).
  destruct (Prim2SF x) as [[]|[]| |s m e]; try discriminate; try reflexivity.
  unfold SF64sub, SFsub. now rewrite Z.sub_diag.
Qed.

Lemma zero_div (d : float) :
  truthy_num d = true -> PrimFloat.is_zero (0 / d)%float = true.
Proof.
  rewrite truthy_num_spec, is_zero_spec, FloatAxioms.div_spec.
  change (Prim2SF 0) with (S754_zero false).
  destruct (Prim2SF d) as [[]|[]| |[] m e]; simpl; intros H; try discriminate; reflexivity.
Qed.

Lemma sub_zero_any (x z : float) :
  truthy_num x = true -> PrimFloat.is_zero z = true -> (x - z)%float = x.
Proof.
  rewrite truthy_num_spec, is_zero_spec. intros Hx Hz.
  apply Prim2SF_inj. rewrite FloatAxioms.sub_spec.
  destruct (Prim2SF x) as [[]|[]| |[] m e], (Prim2SF z) as [[]|[]| |[] mz ez];
    try discriminate; reflexivity.
Qed.

Lemma add_zero_any (x z : float) :
  truthy_num x = true -> PrimFloat.is_zero z = true -> (x + z)%float = x.
Proof.
  rewrite truthy_num_spec, is_zero_spec. intros Hx Hz.
  apply Prim2SF_inj. rewrite FloatAxioms.add_spec.
  destruct (Prim2SF x) as [[]|[]| |[] m e], (Prim2SF z) as [[]|[]| |[] mz ez];
    try discriminate; reflexivity.
Qed.

Lemma truthy_num_of_nat (n : nat) :
  n <> 0 -> (Z.of_nat n < 2 ^ 63)%Z -> truthy_num (num_of_nat n) = true.
Proof.
  intros Hn Hlt. pose proof (or_num_of_nat n Hlt) as Hor.
  destruct n as [|n]; [now destruct Hn|]. simpl in Hor. unfold or_num in Hor.
  destruct (truthy_num (num_of_nat (S n))) eqn:Ht; auto.
  rewrite <- Hor in Ht. discriminate.
Qed.

Lemma plotted_throws (key : string) (points : list value) (p : value) :
  In p points -> nullish p = true -> mapM (plotted key) points = Throw TypeError.
Proof.
  intros Hin Hp. apply mapM_throws.
  - intros q _. unfold plotted, get_member.
    destruct (nullish q); [now right|left; eexists; reflexivity].
  - exists p. split; auto. unfold plotted, get_member. now rewrite Hp.
Qed.

(** X12: for a series of two points or more, none of them null or
    undefined, [drawChart] (of both scripts) returns with the chart area
    shown and exactly five children in the chart, in this order: the
    gridline, the path, the marker, and the two labels. *)
Theorem drawChart_draw_order (points : list value) (pg : page) :
  2 <= List.length points ->
  Forall (fun p => nullish p = false) points ->
  map tagName (chart_children (fst (drawChart (Arr points) pg)))
    = ["line"; "path"; "circle"; "text"; "text"]%string
  /\ map tagName (chart_children (fst (drawChart_app (Arr points) pg)))
    = ["line"; "path"; "circle"; "text"; "text"]%string
  /\ chartWrap_display (fst (drawChart (Arr points) pg)) = EmptyString
  /\ snd (drawChart (Arr points) pg) = Ok tt
  /\ snd (drawChart_app (Arr points) pg) = Ok tt.
Proof.
  intros Hlen Hall. unfold drawChart, drawChart_app.
  rewrite !drawChart_on_draws by assumption. simpl.
  unfold label_element; simpl. repeat split.
Qed.

(** X13: the gridline [drawChart] draws is horizontal, at the height of the
    marker, from [x = PAD = 18] to [x = W - PAD = 782], and dashed. *)
Theorem drawChart_reference_line (points : list value) (pg : page) :
  2 <= List.length points ->
  Forall (fun p => nullish p = false) points ->
  exists grid rest cx cy,
    chart_children (fst (drawChart (Arr points) pg)) = grid :: rest
    /\ markers (fst (drawChart (Arr points) pg)) = [(cx, cy)]
    /\ tagName grid = "line"%string
    /\ get_attr "x1" (attributes grid) = Some (ANum 18)
    /\ get_attr "x2" (attributes grid) = Some (ANum 782)
    /\ get_attr "y1" (attributes grid) = Some (ANum cy)
    /\ get_attr "y2" (attributes grid) = Some (ANum cy)
    /\ get_attr "stroke-dasharray" (attributes grid) = Some (AStr "4 4").
Proof.
  intros Hlen Hall. unfold drawChart.
  destruct (polylines_drawn "equity" pg Hlen Hall) as [_ Hmark].
  rewrite Hmark. rewrite drawChart_on_draws by assumption. simpl.
  do 4 eexists. repeat split.
Qed.

(** X14: the two labels [drawChart] draws sit at [y = H - 4 = 216]; the
    first is at [x = 18], anchored at its start, and shows [yMin] with two
    decimals; the second is at [x = 782], anchored at its end, and shows
    [yMax]. *)
Theorem drawChart_labels (points : list value) (pg : page) :
  2 <= List.length points ->
  Forall (fun p => nullish p = false) points ->
  exists a b c lo hi,
    chart_children (fst (drawChart (Arr points) pg)) = [a; b; c; lo; hi]
    /\ attributes lo = [("x", ANum 18); ("y", ANum 216); ("fill", AStr "#9aa3b2");
                        ("font-size", AStr "11"); ("text-anchor", AStr "start")]%string
    /\ textContent lo = fmtNumber (Num (Math_min (plotted_values "equity" points))) 2
    /\ attributes hi = [("x", ANum 782); ("y", ANum 216); ("fill", AStr "#9aa3b2");
                        ("font-size", AStr "11"); ("text-anchor", AStr "end")]%string
    /\ textContent hi = fmtNumber (Num (Math_max (plotted_values "equity" points))) 2.
Proof.
  intros Hlen Hall. unfold drawChart.
  rewrite drawChart_on_draws by assumption. simpl.
  do 5 eexists. split; [reflexivity|]. repeat split.
Qed.

(** X15: on a series of two elements or more one of which is null or
    undefined, [drawChart] throws a TypeError before it draws anything: the
    chart is left empty, and shown. *)
Theorem drawChart_throws_on_null_point (points : list value) (p : value) (pg : page) :
  2 <= List.length points ->
  In p points ->
  nullish p = true ->
  snd (drawChart (Arr points) pg) = Throw TypeError
  /\ snd (drawChart_app (Arr points) pg) = Throw TypeError
  /\ chart_children (fst (drawChart (Arr points) pg)) = []
  /\ chart_children (fst (drawChart_app (Arr points) pg)) = []
  /\ chartWrap_display (fst (drawChart (Arr points) pg)) = EmptyString.
Proof.
  intros Hlen Hin Hp. unfold drawChart, drawChart_app, drawChart_on.
  assert (Hlt : (List.length points <? 2) = false) by (apply Nat.ltb_ge; lia).
  rewrite Hlt, !(plotted_throws _ _ _ Hin Hp). repeat split.
Qed.

(** X16: a point whose plotted value is the least of the series, when that
    is finite, is drawn on the bottom line [y = H - PAD = 202]; in
    particular every point of a series of equal values. *)
Theorem drawChart_lowest_on_bottom_line (points : list value) (pg : page) (i : nat) (p : value) :
  2 <= List.length points ->
  Forall (fun p => nullish p = false) points ->
  nth_error points i = Some p ->
  plotted_value "equity" p = Math_min (plotted_values "equity" points) ->
  PrimFloat.is_finite (plotted_value "equity" p) = true ->
  exists vs x,
    polylines (fst (drawChart (Arr points) pg)) = [vs]
    /\ nth_error vs i = Some (x, 202%float).
Proof.
  intros Hlen Hall Hp Hmin Hfin. unfold drawChart.
  destruct (polylines_drawn "equity" pg Hlen Hall) as [Hpoly _].
  destruct (extrema_not_nan "equity" points) as [Hnmin Hnmax].
  destruct (@or_num_range _ _ Hnmin Hnmax) as [Hdiv Hnz].
  eexists. eexists. split; [exact Hpoly|].
  rewrite (@nth_error_drawn_path "equity" points i p Hp). f_equal. f_equal.
  unfold yScale. simpl Number. rewrite Hdiv, <- Hmin, (sub_self _ Hfin).
  change (0 * (H - 2 * PAD))%float with 0%float.
  change (H - PAD)%float with 202%float.
  apply sub_zero_any; [reflexivity|]. apply zero_div. rewrite Hmin. exact Hnz.
Qed.

Lemma indexed_from_positive {A} (xs : list A) (s : nat) (ix : nat * A) :
  In ix (indexed_from (S s) xs) -> Nat.eqb (fst ix) 0 = false.
Proof.
  intros Hin. destruct (In_indexed_from_nth _ _ _ Hin) as (n & _ & Hi).
  rewrite Hi. reflexivity.
Qed.

(** X17: the path [drawChart] draws for a series of two points or more
    starts with a move to the left edge [x = PAD = 18] and goes on with lines
    only. *)
Theorem drawChart_path_shape (points : list value) (pg : page) :
  2 <= List.length points ->
  (Z.of_nat (List.length points) < 2 ^ 63)%Z ->
  Forall (fun p => nullish p = false) points ->
  exists a path rest y d,
    chart_children (fst (drawChart (Arr points) pg)) = a :: path :: rest
    /\ path_commands path = Some (MoveTo 18 y :: d)
    /\ forallb is_LineTo d = true
    /\ List.length d = List.length points - 1.
Proof.
  intros Hlen Hbound Hall. unfold drawChart.
  rewrite drawChart_on_draws by assumption. simpl.
  destruct points as [|p0 tl]; [simpl in Hlen; lia|].
  unfold drawn_path, indexed. simpl indexed_from. simpl map.
  do 5 eexists. split; [reflexivity|]. split; [|split].
  - unfold path_commands. simpl. f_equal. f_equal. f_equal.
    unfold xScale.
    change (num_of_nat 0 * (W - 2 * PAD))%float with 0%float.
    apply add_zero_any; [reflexivity|]. apply zero_div.
    apply truthy_num_of_nat.
    + match goal with |- context [Nat.eqb ?n 0] => destruct (Nat.eqb n 0) eqn:E end.
      * discriminate.
      * apply Nat.eqb_neq in E. exact E.
    + change (List.length (p0 :: tl)) with (S (List.length tl)) in Hbound.
      match goal with |- context [Nat.eqb ?n 0] => destruct (Nat.eqb n 0) end; lia.
  - apply forallb_forall. intros c Hc. apply in_map_iff in Hc as (ip & <- & Hip).
    rewrite (indexed_from_positive _ _ _ Hip). reflexivity.
  - rewrite length_map, length_indexed_from. simpl. lia.
Qed.

(** *** KPIs and signs *)

(** X18: after enrichment, [renderKpis] shows the one-ticker panel exactly
    when there is one position; the panel then carries the [ticker] of the
    enriched position and its [current_price] with two decimals. *)
Theorem one_ticker_panel (net : nat -> response) (positions : list value) (payload : value) :
  Forall (fun p => nullish p = false) positions ->
  exists out,
    enrichPositionsWithLivePrices net positions = Ok out
    /\ (oneTicker (renderKpis payload out) <> None <-> List.length positions = 1)
    /\ (forall o, out = [o] ->
          exists price_class pct pct_class,
            oneTicker (renderKpis payload out)
            = Some (member (Obj o) "ticker",
                    ("$" ++ fmtNumber (member (Obj o) "current_price") 2)%string,
                    price_class, pct, pct_class)).
Proof.
  intros Hall.
  destruct (enrichPositions_total net Hall) as (out & Hout & Hlen).
  exists out. split; [exact Hout|]. split.
  - rewrite <- Hlen. unfold renderKpis. simpl.
    destruct out as [|o [|o' rest]]; simpl; split; intros H;
      try discriminate; try reflexivity; try (now destruct H).
  - intros o ->. unfold renderKpis. simpl. do 3 eexists. reflexivity.
Qed.

Lemma abs_opp (x : float) : abs (- x) = abs x.
Proof.
  apply Prim2SF_inj. rewrite !FloatAxioms.abs_spec, FloatAxioms.opp_spec.
  now destruct (Prim2SF x).
Qed.

Lemma zero_leb_opp (x : float) :
  truthy_num x = true -> (0 <=? - x)%float = negb (0 <=? x)%float.
Proof.
  rewrite truthy_num_spec, !FloatAxioms.leb_spec, FloatAxioms.opp_spec.
  change (Prim2SF 0) with (S754_zero false).
  destruct (Prim2SF x) as [[]|[]| |[] m e]; simpl; intros H; try discriminate; reflexivity.
Qed.

(** X19: negating a number other than zero and NaN flips the sign that
    [signFmt] and [pctFmt] show and keeps the digits, which are those of the
    absolute value. *)
Theorem sign_flips_with_negation (x : float) (d : nat) :
  truthy_num x = true ->
  signFmt (Num x) d
    = ((if (0 <=? x)%float then "+" else minus_sign) ++ fmtNumber (Num (abs x)) d)%string
  /\ signFmt (Num (- x)) d
    = ((if (0 <=? x)%float then minus_sign else "+") ++ fmtNumber (Num (abs x)) d)%string
  /\ pctFmt (Num x)
    = ((if (0 <=? x)%float then "+" else minus_sign) ++ fmtNumber (Num (abs x)) 2 ++ "%")%string
  /\ pctFmt (Num (- x))
    = ((if (0 <=? x)%float then minus_sign else "+") ++ fmtNumber (Num (abs x)) 2 ++ "%")%string.
Proof.
  intros Hx. unfold signFmt, pctFmt. simpl Number.
  rewrite abs_opp, (zero_leb_opp _ Hx).
  destruct (0 <=? x)%float; repeat split.
Qed.

(** *** Rendering and loading *)

Section Binary64Lengths.
Local Open Scope Z_scope.

Lemma shr_fexp_exp (m e : Z) (l : location) :
  e <= snd (shr_fexp prec emax m e l).
Proof.
  unfold shr_fexp, shr.
  destruct (SpecFloat.fexp prec emax (Zdigits2 m + e) - e); simpl; lia.
Qed.

Lemma binary_round_aux_exp (s : bool) (m e : Z) (l : location) :
  match binary_round_aux prec emax s m e l with
  | S754_finite _ _ e' => e <= e'
  | _ => True
  end.
Proof.
  unfold binary_round_aux.
  pose proof (shr_fexp_exp m e l) as H1.
  destruct (shr_fexp prec emax m e l) as [mrs' e']. simpl in H1.
  pose proof (shr_fexp_exp (round_nearest_even (shr_m mrs') (loc_of_shr_record mrs'))
                           e' loc_Exact) as H2.
  destruct (shr_fexp prec emax _ e' loc_Exact) as [mrs'' e'']. simpl in H2.
  destruct (shr_m mrs''); auto.
  destruct (e'' <=? emax - prec); auto. lia.
Qed.

Lemma binary_round_exp (m : positive) :
  2 <= Zpos (digits2_pos m) ->
  match binary_round prec emax false m 0 with
  | S754_finite _ _ e' => -51 <= e'
  | _ => True
  end.
Proof.
  intros Hd. unfold binary_round, shl_align.
  destruct (SpecFloat.fexp prec emax (Z.pos (digits2_pos m) + 0) - 0) eqn:Hf.
  - pose proof (binary_round_aux_exp false (Zpos m) 0 loc_Exact) as H.
    destruct (binary_round_aux prec emax false (Zpos m) 0 loc_Exact); auto. lia.
  - pose proof (binary_round_aux_exp false (Zpos m) 0 loc_Exact) as H.
    destruct (binary_round_aux prec emax false (Zpos m) 0 loc_Exact); auto. lia.
  - match goal with
    | |- match binary_round_aux _ _ _ ?mz ?ez _ with _ => _ end =>
        pose proof (binary_round_aux_exp false mz ez loc_Exact) as H;
        destruct (binary_round_aux prec emax false mz ez loc_Exact); auto
    end.
    unfold SpecFloat.fexp, SpecFloat.emin in *.
    change prec with 53 in *. change emax with 1024 in *. lia.
Qed.

(** The double of a length of two or more is not 1. *)
Lemma num_of_nat_not_one (n : nat) :
  (2 <= n)%nat -> Z.of_nat n < 2 ^ 63 -> (num_of_nat n =? 1)%float = false.
Proof.
  intros Hn Hlt. unfold num_of_nat.
  rewrite FloatAxioms.eqb_spec, FloatAxioms.of_uint63_spec, Uint63.of_Z_spec.
  rewrite Z.mod_small by (change wB with (2 ^ 63); lia).
  change (Prim2SF 1) with (S754_finite false 4503599627370496 (-52)).
  destruct (Z.of_nat n) as [|m|m] eqn:Hm; try lia.
  assert (Hd : 2 <= Zpos (digits2_pos m)).
  { destruct m as [m|m|]; simpl; try lia. }
  pose proof (binary_round_exp m Hd) as Hexp. simpl binary_normalize.
  destruct (binary_round prec emax false m 0) as [[]|[]| |[] m' e']; try reflexivity;
    unfold SFeqb, SFcompare;
    destruct (Z.compare_spec e' (-52)); try reflexivity; lia.
Qed.

End Binary64Lengths.



Lemma renderAll_status (payload : value) (enriched : list object) (v : view) :
  snd (renderAll payload enriched v) = Ok tt ->
  status_text (fst (renderAll payload enriched v)) = loaded_text (series_length payload)
  /\ status_className (fst (renderAll payload enriched v))
     = ("status " ++ loaded_class (series_length payload))%string.
Proof.
  unfold renderAll, series_length.
  destruct (get_member payload "title"); [|discriminate].
  destruct (snd (renderEquityTable (member payload "equity_series"))); [|discriminate].
  destruct (snd (drawChart (member payload "equity_series") _)); [|discriminate].
  intros _. split; reflexivity.
Qed.



Lemma showError_shows (e : exn) (v : view) : shows_error (showError e v).
Proof.
  unfold shows_error, showError. repeat split.
Qed.


Lemma In_skipn_of {A} (n : nat) (l : list A) (x : A) : In x (skipn n l) -> In x l.
Proof.
  revert l. induction n as [|n IH]; intros l Hin; [exact Hin|].
  destruct l as [|y l]; [exact Hin|]. right. apply IH. exact Hin.
Qed.

Lemma Forall_last30 (P : value -> Prop) (points : list value) :
  Forall P points -> Forall P (last30 points).
Proof.
  intros Hall. apply Forall_forall. intros x Hx.
  apply (proj1 (Forall_forall P points) Hall). exact (In_skipn_of _ _ _ Hx).
Qed.

Lemma last30_short (points : list value) :
  List.length points <= 30 -> last30 points = points.
Proof.
  intros Hle. unfold last30.
  replace (List.length points - 30) with 0 by lia. reflexivity.
Qed.


Lemma drawChart_returns (points : list value) (pg : page) :
  Forall (fun p => nullish p = false) points ->
  snd (drawChart (Arr points) pg) = Ok tt.
Proof.
  intros Hall. unfold drawChart.
  destruct (List.length points <? 2) eqn:Hlt.
  - unfold drawChart_on. rewrite Hlt. reflexivity.
  - apply Nat.ltb_ge in Hlt. rewrite drawChart_on_draws by assumption. reflexivity.
Qed.

Lemma renderEquityTable_returns (points : list value) :
  Forall (fun p => nullish p = false) points ->
  snd (renderEquityTable (Arr points)) = Ok tt.
Proof.
  intros Hall. unfold renderEquityTable.
  destruct points as [|p rest]; [reflexivity|].
  rewrite renderTable_on_rows; [reflexivity|discriminate|].
  apply Forall_last30. exact Hall.
Qed.

(** What [renderAll] comes to when neither the table nor the chart throws. *)
Lemma renderAll_returns (payload : value) (points : list value) (enriched : list object)
      (v : view) :
  nullish payload = false ->
  member payload "equity_series" = Arr points ->
  Forall (fun p => nullish p = false) points ->
  snd (renderAll payload enriched v) = Ok tt
  /\ equityBody (fst (renderAll payload enriched v)) = fst (renderEquityTable (Arr points))
  /\ chart_page (fst (renderAll payload enriched v)) = fst (drawChart (Arr points) (chart_page v))
  /\ posBody (fst (renderAll payload enriched v)) = renderPositions enriched
  /\ kpi_card (fst (renderAll payload enriched v)) = Some (renderKpis payload enriched)
  /\ raw_text (fst (renderAll payload enriched v))
     = JSON_stringify (Obj (set_member "positions" (Arr (map Obj enriched)) (spread payload)))
  /\ title_text (fst (renderAll payload enriched v))
     = to_string (js_or (member payload "title") (Str "Stock Bot")).
Proof.
  intros Hnn Hser Hall. unfold renderAll, get_member. rewrite Hnn, Hser. cbv zeta.
  rewrite (renderEquityTable_returns Hall).
  rewrite (drawChart_returns _ Hall).
  repeat split.
Qed.

(** The length [renderAll] reads is read as the number of points. *)
Lemma loaded_text_length (payload : value) (points : list value) :
  member payload "equity_series" = Arr points ->
  loaded_text (series_length payload) = loaded_text (Num (num_of_nat (List.length points)))
  /\ loaded_class (series_length payload) = loaded_class (Num (num_of_nat (List.length points))).
Proof.
  intros Hser. unfold series_length, opt_member. rewrite Hser.
  change (nullish (Arr points)) with false. cbv iota.
  change (member (Arr points) "length") with (Num (num_of_nat (List.length points))).
  unfold js_or, loaded_text, loaded_class.
  destruct (truthy (Num (num_of_nat (List.length points)))) eqn:Ht.
  - rewrite Ht. split; reflexivity.
  - split; reflexivity.
Qed.



Lemma attempt_fails_before_render (r : response) (net : nat -> response) (e : exn) (v : view) :
  fails_before_render r net = Some e ->
  loadFromServer r net v = showError e (setStatus ("Loading" ++ ellipsis) EmptyString (hideError v)).
Proof.
  unfold fails_before_render, loadFromServer. cbv zeta.
  destruct r as [e'|ok status json].
  - intros H. injection H as ->. reflexivity.
  - destruct ok; cbv [negb].
    + unfold validate_enrich_render.
      destruct json as [raw|e']; [|intros H; injection H as ->; reflexivity].
      destruct (validatePayload raw) as [data|e']; [|intros H; injection H as ->; reflexivity].
      destruct (enrich_positions_of net data) as [enriched|e'];
        [discriminate|intros H; injection H as ->; reflexivity].
    + intros H. injection H as <-. reflexivity.
Qed.

(** X21: when the request of the data file, its decoding, the validation or
    the enrichment fails, [loadFromServer] leaves everything rendered before
    as it was (title, update time, table, chart, positions, KPIs and raw
    JSON), and shows the banner with the message of the error and the status
    [Error loading data]. *)
Theorem load_failure_keeps_rendering (r : response) (net : nat -> response) (e : exn)
        (v : view) :
  fails_before_render r net = Some e ->
  rendered (loadFromServer r net v) = rendered v
  /\ errorMsg_text (loadFromServer r net v) = shown_message e
  /\ shows_error (loadFromServer r net v).
Proof.
  intros Hfail. rewrite (attempt_fails_before_render _ _ v Hfail).
  split; [reflexivity|]. split; [reflexivity|]. apply showError_shows.
Qed.

(** X22: the messages the banner shows.  A response whose status is not a
    success shows [HTTP <status> while fetching ./data/stockinfo.json]; a
    body that decodes to null, to a number, a string or a boolean shows
    [Invalid JSON payload.]; an object without [equity_series] shows that it
    is missing, and one whose [equity_series] is not an array that it must be
    one; whatever the quote requests come to. *)
Theorem load_error_messages (net : nat -> response) (v : view) (status : nat) :
  (forall json,
      errorMsg_text (loadFromServer (Resolved false status json) net v)
      = ("HTTP " ++ nat_to_string status ++ " while fetching ./data/stockinfo.json")%string)
  /\ (forall raw,
        is_object raw = false -> isArray raw = false ->
        errorMsg_text (loadFromServer (Resolved true status (Ok raw)) net v)
        = "Invalid JSON payload."%string)
  /\ (forall m,
        lookup "equity_series" m = None ->
        errorMsg_text (loadFromServer (Resolved true status (Ok (Obj m))) net v)
        = ("Missing " ++ dquote ++ "equity_series" ++ dquote ++ " array.")%string)
  /\ (forall m x,
        lookup "equity_series" m = Some x -> isArray x = false ->
        errorMsg_text (loadFromServer (Resolved true status (Ok (Obj m))) net v)
        = (dquote ++ "equity_series" ++ dquote ++ " must be an array.")%string).
Proof.
  split; [|split; [|split]].
  - intros json. reflexivity.
  - intros raw Hobj Harr.
    assert (Hval : validatePayload raw = Throw (Error "Invalid JSON payload.")).
    { unfold validatePayload.
      destruct raw as [| |b|x|s|l|m]; try discriminate; try reflexivity.
      - now destruct b.
      - simpl. now destruct (truthy_num x).
      - simpl. now destruct (negb (String.eqb s EmptyString)). }
    rewrite (@attempt_fails_before_render _ net (Error "Invalid JSON payload.") v).
    + reflexivity.
    + unfold fails_before_render. cbv [negb]. now rewrite Hval.
  - intros m Hes.
    rewrite (@attempt_fails_before_render _ net
               (Error ("Missing " ++ dquote ++ "equity_series" ++ dquote ++ " array.")) v).
    + reflexivity.
    + unfold fails_before_render, validatePayload. simpl. now rewrite Hes.
  - intros m x Hes Harr.
    rewrite (@attempt_fails_before_render _ net
               (Error (dquote ++ "equity_series" ++ dquote ++ " must be an array.")) v).
    + reflexivity.
    + unfold fails_before_render, validatePayload. simpl. rewrite Hes. simpl.
      now rewrite Harr.
Qed.



(** X25: when one of the last 30 points is null or undefined, [renderAll]
    throws at the table: the title is already the new one and the table
    holds the rows of the points before the null one, while the chart, the
    positions, the KPIs and the raw JSON stay as they were. *)
Theorem renderAll_stops_at_table (payload : value) (points good rest : list value)
        (bad : value) (enriched : list object) (v : view) :
  nullish payload = false ->
  member payload "equity_series" = Arr points ->
  last30 points = (good ++ bad :: rest)%list ->
  Forall (fun p => nullish p = false) good ->
  nullish bad = true ->
  snd (renderAll payload enriched v) = Throw TypeError
  /\ title_text (fst (renderAll payload enriched v))
     = to_string (js_or (member payload "title") (Str "Stock Bot"))
  /\ equityBody (fst (renderAll payload enriched v)) = map (table_row "equity") good
  /\ chart_page (fst (renderAll payload enriched v)) = chart_page v
  /\ posBody (fst (renderAll payload enriched v)) = posBody v
  /\ kpi_card (fst (renderAll payload enriched v)) = kpi_card v
  /\ raw_text (fst (renderAll payload enriched v)) = raw_text v.
Proof.
  intros Hnn Hser Hlast Hgood Hbad.
  assert (Hne : Nat.eqb (List.length points) 0 = false).
  { destruct points; [|reflexivity]. now destruct good. }
  assert (Htable : renderEquityTable (Arr points)
                   = (map (table_row "equity") good, Throw TypeError)).
  { unfold renderEquityTable, renderTable_on.
    rewrite Hne, Hlast, append_rows_throws by assumption. reflexivity. }
  unfold renderAll, get_member. rewrite Hnn, Hser. cbv zeta. rewrite Htable.
  repeat split.
Qed.

(** X26: a null or undefined point older than the last 30 is not seen by the
    table and breaks the chart.  [renderAll] then throws after it wrote the
    30 rows and emptied the chart; the positions, the KPIs and the raw JSON
    stay as they were. *)
Theorem old_null_point_breaks_chart (payload : value) (points : list value) (p : value)
        (enriched : list object) (v : view) :
  nullish payload = false ->
  member payload "equity_series" = Arr points ->
  Forall (fun p => nullish p = false) (last30 points) ->
  In p points ->
  nullish p = true ->
  30 < List.length points
  /\ snd (renderAll payload enriched v) = Throw TypeError
  /\ equityBody (fst (renderAll payload enriched v))
     = map (table_row "equity") (last30 points)
  /\ List.length (equityBody (fst (renderAll payload enriched v))) = 30
  /\ chart_children (chart_page (fst (renderAll payload enriched v))) = []
  /\ posBody (fst (renderAll payload enriched v)) = posBody v
  /\ kpi_card (fst (renderAll payload enriched v)) = kpi_card v
  /\ raw_text (fst (renderAll payload enriched v)) = raw_text v.
Proof.
  intros Hnn Hser Hlast Hin Hp.
  assert (Hlen : 30 < List.length points).
  { destruct (Nat.le_gt_cases (List.length points) 30) as [Hle|Hgt]; [|exact Hgt].
    rewrite (last30_short _ Hle) in Hlast.
    pose proof (proj1 (Forall_forall _ points) Hlast p Hin) as Hq.
    cbv beta in Hq. rewrite Hp in Hq. discriminate. }
  assert (Hne : points <> []) by (intros E; rewrite E in Hlen; simpl in Hlen; lia).
  assert (Htable : renderEquityTable (Arr points)
                   = (map (table_row "equity") (last30 points), Ok tt)).
  { unfold renderEquityTable. now apply renderTable_on_rows. }
  assert (H2 : 2 <= List.length points) by lia.
  assert (Hlt : (List.length points <? 2) = false) by (apply Nat.ltb_ge; lia).
  split; [exact Hlen|].
  unfold renderAll, get_member. rewrite Hnn, Hser. cbv zeta. rewrite Htable.
  cbv [snd fst]. unfold drawChart, drawChart_on.
  rewrite Hlt, (plotted_throws _ _ _ Hin Hp).
  split; [reflexivity|]. split; [reflexivity|].
  split; [change (List.length (map (table_row "equity") (last30 points)) = 30);
          rewrite length_map, length_last30; lia|].
  repeat split.
Qed.

(** X27: the status after [renderAll] counts the points of the series:
    [Loaded (no equity points)] with the class [warn] for none,
    [Loaded 1 equity point] for one and [Loaded N equity points] for more,
    both with the class [ok]; the number is written as JavaScript writes
    it. *)
Theorem status_counts_points (payload : value) (points : list value)
        (enriched : list object) (v : view) :
  nullish payload = false ->
  member payload "equity_series" = Arr points ->
  Forall (fun p => nullish p = false) points ->
  (Z.of_nat (List.length points) < 2 ^ 63)%Z ->
  (List.length points = 0 ->
     status_text (fst (renderAll payload enriched v)) = "Loaded (no equity points)"%string
     /\ status_className (fst (renderAll payload enriched v)) = "status warn"%string)
  /\ (List.length points = 1 ->
        status_text (fst (renderAll payload enriched v))
        = ("Loaded " ++ NumberToString 1 ++ " equity point")%string
        /\ status_className (fst (renderAll payload enriched v)) = "status ok"%string)
  /\ (2 <= List.length points ->
        status_text (fst (renderAll payload enriched v))
        = ("Loaded " ++ NumberToString (num_of_nat (List.length points))
                     ++ " equity points")%string
        /\ status_className (fst (renderAll payload enriched v)) = "status ok"%string).
Proof.
  intros Hnn Hser Hall Hbound.
  destruct (@renderAll_returns payload points enriched v Hnn Hser Hall) as (Hok & _).
  destruct (renderAll_status _ _ _ Hok) as [Htext Hcls].
  destruct (loaded_text_length payload Hser) as [Hlt Hlc].
  rewrite Htext, Hcls, Hlt, Hlc.
  split; [|split].
  - intros Hz. rewrite Hz. split; reflexivity.
  - intros H1. rewrite H1. split; reflexivity.
  - intros H2. unfold loaded_text, loaded_class, truthy, is_one, to_string.
    rewrite truthy_num_of_nat; [|lia|exact Hbound].
    rewrite num_of_nat_not_one; [|exact H2|exact Hbound].
    split; reflexivity.
Qed.

End Scripts.

(* ================================================================== *)
(** ** The scripts on sample inputs *)

(** The example of the specification: the first request resolves with a
    last close of 150, the second is aborted. *)
Example enrich_sample :
  enrichPositionsWithLivePrices stub_StringToNumber stub_NumberToString sample_net sample_positions
  = Ok [ [("ticker", Str "A"); ("qty", Num 2); ("avg_price", Num 100);
          ("current_price", Num 150); ("market_value", Num 300); ("unrealized_pl", Num 100)];
         [("ticker", Str "B"); ("qty", Num 3); ("avg_price", Num 50);
          ("current_price", Num 0); ("market_value", Num 0); ("unrealized_pl", Num 0)] ]%string.
Proof. vm_compute. reflexivity. Qed.

Example quote_close_sample :
  quote_close (quote_response [Num 149; Num 150; Null]) = Arr [Num 149; Num 150; Null].
Proof. reflexivity. Qed.

Lemma sample_positions_not_null : Forall (fun p => nullish p = false) sample_positions.
Proof. repeat constructor. Qed.

(** C1 on the two sample positions. *)
Lemma enrichPositions_resolves_each_witness :
  Forall (fun p => nullish p = false) sample_positions
  /\ exists out,
       enrichPositionsWithLivePrices stub_StringToNumber stub_NumberToString
         sample_net sample_positions = Ok out
       /\ List.length out = 2.
Proof.
  assert (H : Forall (fun p => nullish p = false) sample_positions) by (repeat constructor).
  split; [exact H|].
  destruct (enrichPositions_resolves_each stub_StringToNumber stub_NumberToString sample_net H)
    as (out & Hout & Hlen & _).
  exists out. split; [exact Hout|exact Hlen].
Defined.

(** C10 on the position without [qty], its request resolving with 150. *)
Lemma enrichment_coerces_falsy_fields_witness :
  Forall (fun p => nullish p = false) [position_without_qty]
  /\ nth_error [position_without_qty] 0 = Some position_without_qty
  /\ getLivePrice stub_StringToNumber stub_NumberToString (sample_net 0)
       (member position_without_qty "ticker") = Ok 150%float
  /\ exists out o,
       enrichPositionsWithLivePrices stub_StringToNumber stub_NumberToString
         sample_net [position_without_qty] = Ok out
       /\ nth_error out 0 = Some o
       /\ lookup "current_price" o = Some (Num 150)
       /\ lookup "market_value" o = Some (Num (0 * 150)%float).
Proof.
  assert (H1 : Forall (fun p => nullish p = false) [position_without_qty])
    by (repeat constructor).
  assert (H2 : nth_error [position_without_qty] 0 = Some position_without_qty)
    by reflexivity.
  assert (H3 : getLivePrice stub_StringToNumber stub_NumberToString (sample_net 0)
                 (member position_without_qty "ticker") = Ok 150%float)
    by reflexivity.
  split; [exact H1|]. split; [exact H2|]. split; [exact H3|].
  destruct (enrichment_coerces_falsy_fields stub_StringToNumber stub_NumberToString
              sample_net 0 H1 H2 H3)
    as (out & o & Hout & Ho & Hcp & _ & _ & Hqty & _).
  exists out, o. split; [exact Hout|]. split; [exact Ho|]. split; [exact Hcp|].
  destruct (Hqty eq_refl) as (_ & Hmv & _). exact Hmv.
Defined.

(** C4 on a series of one point. *)
Lemma drawChart_hides_short_series_witness :
  (forall n, point_count (Arr [equity_point 1]) = Some n -> n < 2)
  /\ drawChart stub_StringToNumber stub_NumberToString stub_toLocaleString
       (Arr [equity_point 1]) blank_page = (hidden blank_page, Ok tt).
Proof.
  assert (H : forall n, point_count (Arr [equity_point 1]) = Some n -> n < 2).
  { intros n E. injection E as <-. auto. }
  split; [exact H|].
  exact (proj1 (drawChart_hides_short_series stub_StringToNumber stub_NumberToString
                  stub_toLocaleString _ blank_page H)).
Defined.

(** C5 on a series of two points. *)
Lemma drawChart_polyline_and_marker_witness :
  2 <= List.length [equity_point 1; equity_point 2]
  /\ Forall (fun p => nullish p = false) [equity_point 1; equity_point 2]
  /\ Forall (fun p => PrimFloat.is_nan
                        (plotted_value stub_StringToNumber stub_NumberToString "equity" p)
                      = false) [equity_point 1; equity_point 2]
  /\ exists vs m,
       polylines (fst (drawChart stub_StringToNumber stub_NumberToString stub_toLocaleString
                         (Arr [equity_point 1; equity_point 2]) blank_page)) = [vs]
       /\ List.length vs = 2
       /\ markers (fst (drawChart stub_StringToNumber stub_NumberToString stub_toLocaleString
                          (Arr [equity_point 1; equity_point 2]) blank_page)) = [m]
       /\ nth_error vs 1 = Some m.
Proof.
  assert (H1 : 2 <= List.length [equity_point 1; equity_point 2]) by (simpl; auto).
  assert (H2 : Forall (fun p => nullish p = false) [equity_point 1; equity_point 2])
    by (repeat constructor).
  assert (H3 : Forall (fun p => PrimFloat.is_nan
                                  (plotted_value stub_StringToNumber stub_NumberToString
                                     "equity" p) = false)
                 [equity_point 1; equity_point 2])
    by (repeat constructor).
  split; [exact H1|]. split; [exact H2|]. split; [exact H3|].
  exact (@drawChart_polyline_and_marker stub_StringToNumber stub_NumberToString
           stub_toLocaleString [equity_point 1; equity_point 2] blank_page H1 H2 H3).
Defined.

(** C6 on a series of two points: the second vertex is (782, 18). *)
Lemma drawChart_scales_witness :
  2 <= List.length [equity_point 1; equity_point 2]
  /\ Forall (fun p => nullish p = false) [equity_point 1; equity_point 2]
  /\ nth_error [equity_point 1; equity_point 2] 1 = Some (equity_point 2)
  /\ exists vs,
       polylines (fst (drawChart stub_StringToNumber stub_NumberToString stub_toLocaleString
                         (Arr [equity_point 1; equity_point 2]) blank_page)) = [vs]
       /\ nth_error vs 1 = Some (782, 18)%float.
Proof.
  assert (H1 : 2 <= List.length [equity_point 1; equity_point 2]) by (simpl; auto).
  assert (H2 : Forall (fun p => nullish p = false) [equity_point 1; equity_point 2])
    by (repeat constructor).
  assert (H3 : nth_error [equity_point 1; equity_point 2] 1 = Some (equity_point 2))
    by reflexivity.
  split; [exact H1|]. split; [exact H2|]. split; [exact H3|].
  destruct (drawChart_scales stub_StringToNumber stub_NumberToString stub_toLocaleString
              blank_page 1 H1 H2 H3)
    as ((vs & Hpoly & Hnth & _) & _).
  exists vs. split; [exact Hpoly|]. rewrite Hnth. vm_compute. reflexivity.
Defined.

(** *** Where the specification and the scripts part *)

(** C2 as stated fails: the total of the market values 2^53, 1 and -2^53 is
    0 in this order and 1 when the last two are exchanged. *)
Lemma portfolio_total_depends_on_order :
  Permutation holdings holdings_reordered
  /\ forall s2n n2s,
       portfolioValue s2n n2s holdings = 0%float
       /\ portfolioValue s2n n2s holdings_reordered = 1%float
       /\ portfolioValue s2n n2s holdings <> portfolioValue s2n n2s holdings_reordered.
Proof.
  split.
  - unfold holdings, holdings_reordered. apply perm_skip. apply perm_swap.
  - intros s2n n2s.
    assert (H0 : portfolioValue s2n n2s holdings = 0%float) by (vm_compute; reflexivity).
    assert (H1 : portfolioValue s2n n2s holdings_reordered = 1%float)
      by (vm_compute; reflexivity).
    split; [exact H0|]. split; [exact H1|].
    rewrite H0, H1. intros E.
    apply (f_equal PrimFloat.is_zero) in E. vm_compute in E. discriminate.
Qed.

(* ================================================================== *)
(** ** More properties, on sample inputs *)

(** X2 on a series of two points: the second row shows the second point. *)
Lemma table_shows_latest_points_witness :
  Forall (fun p => nullish p = false) (last30 [equity_point 1; equity_point 2])
  /\ 1 < Nat.min (List.length [equity_point 1; equity_point 2]) 30
  /\ nth_error (fst (renderEquityTable stub_StringToNumber stub_NumberToString
                       stub_toLocaleString stub_newDate stub_toLocaleDateString
                       (Arr [equity_point 1; equity_point 2]))) 1
     = Some (data_row ["undefined"; EmptyString]%string).
Proof.
  assert (H1 : Forall (fun p => nullish p = false) (last30 [equity_point 1; equity_point 2]))
    by (repeat constructor).
  assert (H2 : 1 < Nat.min (List.length [equity_point 1; equity_point 2]) 30)
    by (simpl; lia).
  assert (H3 : nth_error [equity_point 1; equity_point 2]
                 (List.length [equity_point 1; equity_point 2]
                  - Nat.min (List.length [equity_point 1; equity_point 2]) 30 + 1)
               = Some (equity_point 2)) by reflexivity.
  split; [exact H1|]. split; [exact H2|].
  exact (proj1 (@table_shows_latest_points stub_StringToNumber stub_NumberToString
                  stub_toLocaleString stub_newDate stub_toLocaleDateString
                  [equity_point 1; equity_point 2] 1 (equity_point 2) H1 H2 H3)).
Defined.

(** X3 on a series whose second element is null. *)
Lemma table_stops_at_null_point_witness :
  last30 [equity_point 1; Null; equity_point 2]
  = ([equity_point 1] ++ Null :: [equity_point 2])%list
  /\ Forall (fun p => nullish p = false) [equity_point 1]
  /\ nullish Null = true
  /\ renderEquityTable stub_StringToNumber stub_NumberToString stub_toLocaleString
       stub_newDate stub_toLocaleDateString (Arr [equity_point 1; Null; equity_point 2])
     = ([data_row ["undefined"; EmptyString]%string], Throw TypeError).
Proof.
  assert (H1 : last30 [equity_point 1; Null; equity_point 2]
               = ([equity_point 1] ++ Null :: [equity_point 2])%list) by reflexivity.
  assert (H2 : Forall (fun p => nullish p = false) [equity_point 1]) by (repeat constructor).
  assert (H3 : nullish Null = true) by reflexivity.
  split; [exact H1|]. split; [exact H2|]. split; [exact H3|].
  exact (proj1 (@table_stops_at_null_point stub_StringToNumber stub_NumberToString
                  stub_toLocaleString stub_newDate stub_toLocaleDateString
                  [equity_point 1; Null; equity_point 2] [equity_point 1] [equity_point 2]
                  Null H1 H2 H3)).
Defined.

(** X4 on the payload that has an empty series and no positions. *)
Lemma validatePayload_accepts_witness :
  validatePayload (series_payload [])
  = Ok (Obj [("equity_series", Arr []); ("positions", Arr [])]%string)
  /\ validatePayload (Obj [("equity_series", Arr []); ("positions", Arr [])]%string)
     = Ok (Obj [("equity_series", Arr []); ("positions", Arr [])]%string).
Proof.
  assert (H : validatePayload (series_payload [])
              = Ok (Obj [("equity_series", Arr []); ("positions", Arr [])]%string))
    by reflexivity.
  split; [exact H|]. exact (proj2 (@validatePayload_accepts _ _ H)).
Defined.

(** X6 on a batch whose second position is null. *)
Lemma enrichment_aborts_on_null_position_witness :
  In Null [position "A" 2 100; Null]
  /\ nullish Null = true
  /\ enrichPositionsWithLivePrices stub_StringToNumber stub_NumberToString sample_net
       [position "A" 2 100; Null] = Throw TypeError.
Proof.
  assert (H1 : In Null [position "A" 2 100; Null]) by (right; left; reflexivity).
  assert (H2 : nullish Null = true) by reflexivity.
  split; [exact H1|]. split; [exact H2|].
  exact (@enrichment_aborts_on_null_position stub_StringToNumber stub_NumberToString
           sample_net [position "A" 2 100; Null] Null H1 H2).
Defined.

(** X7 on the first sample position, alone and followed by the second. *)
Lemma enrichment_is_per_position_witness :
  Forall (fun p => nullish p = false) sample_positions
  /\ Forall (fun p => nullish p = false) [position "A" 2 100]
  /\ nth_error sample_positions 0 = Some (position "A" 2 100)
  /\ nth_error [position "A" 2 100] 0 = Some (position "A" 2 100)
  /\ sample_net 0 = sample_net 0
  /\ exists out out' o,
       enrichPositionsWithLivePrices stub_StringToNumber stub_NumberToString
         sample_net sample_positions = Ok out
       /\ enrichPositionsWithLivePrices stub_StringToNumber stub_NumberToString
            (fun _ => sample_net 0) [position "A" 2 100] = Ok out'
       /\ nth_error out 0 = Some o
       /\ nth_error out' 0 = Some o.
Proof.
  assert (H1 : Forall (fun p => nullish p = false) sample_positions) by (repeat constructor).
  assert (H2 : Forall (fun p => nullish p = false) [position "A" 2 100])
    by (repeat constructor).
  assert (H3 : nth_error sample_positions 0 = Some (position "A" 2 100)) by reflexivity.
  assert (H4 : nth_error [position "A" 2 100] 0 = Some (position "A" 2 100)) by reflexivity.
  assert (H5 : sample_net 0 = sample_net 0) by reflexivity.
  split; [exact H1|]. split; [exact H2|]. split; [exact H3|]. split; [exact H4|].
  split; [exact H5|].
  exact (@enrichment_is_per_position stub_StringToNumber stub_NumberToString
           sample_net (fun _ => sample_net 0) sample_positions [position "A" 2 100]
           0 (position "A" 2 100) H1 H2 H3 H4 H5).
Defined.

(** X8 on the first sample position. *)
Lemma enrichment_keeps_member_order_witness :
  Forall (fun p => nullish p = false) sample_positions
  /\ nth_error sample_positions 0 = Some (position "A" 2 100)
  /\ exists out o,
       enrichPositionsWithLivePrices stub_StringToNumber stub_NumberToString
         sample_net sample_positions = Ok out
       /\ nth_error out 0 = Some o
       /\ keys o = ["ticker"; "qty"; "avg_price"; "current_price"; "market_value";
                    "unrealized_pl"]%string.
Proof.
  assert (H1 : Forall (fun p => nullish p = false) sample_positions) by (repeat constructor).
  assert (H2 : nth_error sample_positions 0 = Some (position "A" 2 100)) by reflexivity.
  split; [exact H1|]. split; [exact H2|].
  exact (@enrichment_keeps_member_order stub_StringToNumber stub_NumberToString
           sample_net sample_positions 0 (position "A" 2 100) H1 H2).
Defined.

(** X9 on the two sample positions. *)
Lemma enrichment_is_idempotent_witness :
  Forall (fun p => is_object p = true) sample_positions
  /\ enrichPositionsWithLivePrices stub_StringToNumber stub_NumberToString
       sample_net sample_positions = Ok sample_enriched
  /\ enrichPositionsWithLivePrices stub_StringToNumber stub_NumberToString
       sample_net (map Obj sample_enriched) = Ok sample_enriched.
Proof.
  assert (H1 : Forall (fun p => is_object p = true) sample_positions) by (repeat constructor).
  assert (H2 : enrichPositionsWithLivePrices stub_StringToNumber stub_NumberToString
                 sample_net sample_positions = Ok sample_enriched)
    by (vm_compute; reflexivity).
  split; [exact H1|]. split; [exact H2|].
  exact (@enrichment_is_idempotent stub_StringToNumber stub_NumberToString
           sample_net sample_positions sample_enriched H1 H2).
Defined.

(** X10 on the two sample positions, no request getting through. *)
Lemma enrichment_without_prices_witness :
  Forall (fun p => nullish p = false) sample_positions
  /\ (forall i p, nth_error sample_positions i = Some p ->
        exists e, getLivePrice stub_StringToNumber stub_NumberToString (offline_net i)
                    (member p "ticker") = Throw e)
  /\ exists out,
       enrichPositionsWithLivePrices stub_StringToNumber stub_NumberToString
         offline_net sample_positions = Ok out
       /\ portfolioValue stub_StringToNumber stub_NumberToString out = 0%float.
Proof.
  assert (H1 : Forall (fun p => nullish p = false) sample_positions) by (repeat constructor).
  assert (H2 : forall i p, nth_error sample_positions i = Some p ->
                 exists e, getLivePrice stub_StringToNumber stub_NumberToString
                             (offline_net i) (member p "ticker") = Throw e)
    by (intros i p _; exists AbortError; reflexivity).
  split; [exact H1|]. split; [exact H2|].
  destruct (@enrichment_without_prices stub_StringToNumber stub_NumberToString
              stub_toLocaleString offline_net sample_positions (Obj []) H1 H2)
    as (out & Hout & _ & Htotal & _).
  exists out. split; [exact Hout|exact Htotal].
Defined.

(** X11 on the second sample position, whose request is aborted. *)
Lemma failed_request_falls_back_witness :
  Forall (fun p => nullish p = false) sample_positions
  /\ nth_error sample_positions 1 = Some (position "B" 3 50)
  /\ ((exists e, sample_net 1 = Rejected e)
      \/ (exists status json, sample_net 1 = Resolved false status json)
      \/ (exists status e, sample_net 1 = Resolved true status (Throw e)))
  /\ exists out o,
       enrichPositionsWithLivePrices stub_StringToNumber stub_NumberToString
         sample_net sample_positions = Ok out
       /\ nth_error out 1 = Some o
       /\ lookup "current_price" o = Some (Num 0).
Proof.
  assert (H1 : Forall (fun p => nullish p = false) sample_positions) by (repeat constructor).
  assert (H2 : nth_error sample_positions 1 = Some (position "B" 3 50)) by reflexivity.
  assert (H3 : (exists e, sample_net 1 = Rejected e)
               \/ (exists status json, sample_net 1 = Resolved false status json)
               \/ (exists status e, sample_net 1 = Resolved true status (Throw e)))
    by (left; exists AbortError; reflexivity).
  split; [exact H1|]. split; [exact H2|]. split; [exact H3|].
  destruct (@failed_request_falls_back stub_StringToNumber stub_NumberToString
              sample_net sample_positions 1 (position "B" 3 50) H1 H2 H3)
    as (out & o & Hout & Ho & Hcp & _).
  exists out, o. split; [exact Hout|]. split; [exact Ho|exact Hcp].
Defined.

(** X12 on a series of two points. *)
Lemma drawChart_draw_order_witness :
  2 <= List.length [equity_point 1; equity_point 2]
  /\ Forall (fun p => nullish p = false) [equity_point 1; equity_point 2]
  /\ map tagName (chart_children
                    (fst (drawChart stub_StringToNumber stub_NumberToString
                            stub_toLocaleString (Arr [equity_point 1; equity_point 2])
                            blank_page)))
     = ["line"; "path"; "circle"; "text"; "text"]%string.
Proof.
  assert (H1 : 2 <= List.length [equity_point 1; equity_point 2]) by (simpl; auto).
  assert (H2 : Forall (fun p => nullish p = false) [equity_point 1; equity_point 2])
    by (repeat constructor).
  split; [exact H1|]. split; [exact H2|].
  exact (proj1 (@drawChart_draw_order stub_StringToNumber stub_NumberToString
                  stub_toLocaleString [equity_point 1; equity_point 2] blank_page H1 H2)).
Defined.

(** X13 on a series of two points. *)
Lemma drawChart_reference_line_witness :
  2 <= List.length [equity_point 1; equity_point 2]
  /\ Forall (fun p => nullish p = false) [equity_point 1; equity_point 2]
  /\ exists grid rest cx cy,
       chart_children (fst (drawChart stub_StringToNumber stub_NumberToString
                              stub_toLocaleString (Arr [equity_point 1; equity_point 2])
                              blank_page)) = grid :: rest
       /\ markers (fst (drawChart stub_StringToNumber stub_NumberToString
                          stub_toLocaleString (Arr [equity_point 1; equity_point 2])
                          blank_page)) = [(cx, cy)]
       /\ get_attr "y1" (attributes grid) = Some (ANum cy).
Proof.
  assert (H1 : 2 <= List.length [equity_point 1; equity_point 2]) by (simpl; auto).
  assert (H2 : Forall (fun p => nullish p = false) [equity_point 1; equity_point 2])
    by (repeat constructor).
  split; [exact H1|]. split; [exact H2|].
  destruct (@drawChart_reference_line stub_StringToNumber stub_NumberToString
              stub_toLocaleString [equity_point 1; equity_point 2] blank_page H1 H2)
    as (grid & rest & cx & cy & Hch & Hmark & _ & _ & _ & Hy1 & _).
  exists grid, rest, cx, cy. split; [exact Hch|]. split; [exact Hmark|exact Hy1].
Defined.

(** X14 on a series of two points. *)
Lemma drawChart_labels_witness :
  2 <= List.length [equity_point 1; equity_point 2]
  /\ Forall (fun p => nullish p = false) [equity_point 1; equity_point 2]
  /\ exists a b c lo hi,
       chart_children (fst (drawChart stub_StringToNumber stub_NumberToString
                              stub_toLocaleString (Arr [equity_point 1; equity_point 2])
                              blank_page)) = [a; b; c; lo; hi]
       /\ get_attr "text-anchor" (attributes lo) = Some (AStr "start")
       /\ get_attr "text-anchor" (attributes hi) = Some (AStr "end").
Proof.
  assert (H1 : 2 <= List.length [equity_point 1; equity_point 2]) by (simpl; auto).
  assert (H2 : Forall (fun p => nullish p = false) [equity_point 1; equity_point 2])
    by (repeat constructor).
  split; [exact H1|]. split; [exact H2|].
  destruct (@drawChart_labels stub_StringToNumber stub_NumberToString
              stub_toLocaleString [equity_point 1; equity_point 2] blank_page H1 H2)
    as (a & b & c & lo & hi & Hch & Hlo & _ & Hhi & _).
  exists a, b, c, lo, hi. split; [exact Hch|].
  rewrite Hlo, Hhi. split; reflexivity.
Defined.

(** X15 on a series whose second element is null. *)
Lemma drawChart_throws_on_null_point_witness :
  2 <= List.length [equity_point 1; Null]
  /\ In Null [equity_point 1; Null]
  /\ nullish Null = true
  /\ snd (drawChart stub_StringToNumber stub_NumberToString stub_toLocaleString
            (Arr [equity_point 1; Null]) blank_page) = Throw TypeError.
Proof.
  assert (H1 : 2 <= List.length [equity_point 1; Null]) by (simpl; auto).
  assert (H2 : In Null [equity_point 1; Null]) by (right; left; reflexivity).
  assert (H3 : nullish Null = true) by reflexivity.
  split; [exact H1|]. split; [exact H2|]. split; [exact H3|].
  exact (proj1 (@drawChart_throws_on_null_point stub_StringToNumber stub_NumberToString
                  stub_toLocaleString [equity_point 1; Null] Null blank_page H1 H2 H3)).
Defined.

(** X16 on a series of two points: the first is the lowest. *)
Lemma drawChart_lowest_on_bottom_line_witness :
  2 <= List.length [equity_point 1; equity_point 2]
  /\ Forall (fun p => nullish p = false) [equity_point 1; equity_point 2]
  /\ nth_error [equity_point 1; equity_point 2] 0 = Some (equity_point 1)
  /\ plotted_value stub_StringToNumber stub_NumberToString "equity" (equity_point 1)
     = Math_min (plotted_values stub_StringToNumber stub_NumberToString "equity"
                   [equity_point 1; equity_point 2])
  /\ PrimFloat.is_finite
       (plotted_value stub_StringToNumber stub_NumberToString "equity" (equity_point 1))
     = true
  /\ exists vs x,
       polylines (fst (drawChart stub_StringToNumber stub_NumberToString
                         stub_toLocaleString (Arr [equity_point 1; equity_point 2])
                         blank_page)) = [vs]
       /\ nth_error vs 0 = Some (x, 202%float).
Proof.
  assert (H1 : 2 <= List.length [equity_point 1; equity_point 2]) by (simpl; auto).
  assert (H2 : Forall (fun p => nullish p = false) [equity_point 1; equity_point 2])
    by (repeat constructor).
  assert (H3 : nth_error [equity_point 1; equity_point 2] 0 = Some (equity_point 1))
    by reflexivity.
  assert (H4 : plotted_value stub_StringToNumber stub_NumberToString "equity" (equity_point 1)
               = Math_min (plotted_values stub_StringToNumber stub_NumberToString "equity"
                             [equity_point 1; equity_point 2]))
    by (vm_compute; reflexivity).
  assert (H5 : PrimFloat.is_finite
                 (plotted_value stub_StringToNumber stub_NumberToString "equity"
                    (equity_point 1)) = true)
    by (vm_compute; reflexivity).
  split; [exact H1|]. split; [exact H2|]. split; [exact H3|]. split; [exact H4|].
  split; [exact H5|].
  exact (@drawChart_lowest_on_bottom_line stub_StringToNumber stub_NumberToString
           stub_toLocaleString [equity_point 1; equity_point 2] blank_page 0
           (equity_point 1) H1 H2 H3 H4 H5).
Defined.

(** X17 on a series of two points. *)
Lemma drawChart_path_shape_witness :
  2 <= List.length [equity_point 1; equity_point 2]
  /\ (Z.of_nat (List.length [equity_point 1; equity_point 2]) < 2 ^ 63)%Z
  /\ Forall (fun p => nullish p = false) [equity_point 1; equity_point 2]
  /\ exists a path rest y d,
       chart_children (fst (drawChart stub_StringToNumber stub_NumberToString
                              stub_toLocaleString (Arr [equity_point 1; equity_point 2])
                              blank_page)) = a :: path :: rest
       /\ path_commands path = Some (MoveTo 18 y :: d)
       /\ forallb is_LineTo d = true.
Proof.
  assert (H1 : 2 <= List.length [equity_point 1; equity_point 2]) by (simpl; auto).
  assert (H2 : (Z.of_nat (List.length [equity_point 1; equity_point 2]) < 2 ^ 63)%Z)
    by reflexivity.
  assert (H3 : Forall (fun p => nullish p = false) [equity_point 1; equity_point 2])
    by (repeat constructor).
  split; [exact H1|]. split; [exact H2|]. split; [exact H3|].
  destruct (@drawChart_path_shape stub_StringToNumber stub_NumberToString
              stub_toLocaleString [equity_point 1; equity_point 2] blank_page H1 H2 H3)
    as (a & path & rest & y & d & Hch & Hpath & Hlines & _).
  exists a, path, rest, y, d. split; [exact Hch|]. split; [exact Hpath|exact Hlines].
Defined.

(** X18 on the first sample position alone. *)
Lemma one_ticker_panel_witness :
  Forall (fun p => nullish p = false) [position "A" 2 100]
  /\ exists out,
       enrichPositionsWithLivePrices stub_StringToNumber stub_NumberToString
         sample_net [position "A" 2 100] = Ok out
       /\ (oneTicker (renderKpis stub_StringToNumber stub_NumberToString
                        stub_toLocaleString (Obj []) out) <> None
           <-> List.length [position "A" 2 100] = 1).
Proof.
  assert (H1 : Forall (fun p => nullish p = false) [position "A" 2 100])
    by (repeat constructor).
  split; [exact H1|].
  destruct (@one_ticker_panel stub_StringToNumber stub_NumberToString stub_toLocaleString
              sample_net [position "A" 2 100] (Obj []) H1)
    as (out & Hout & Hiff & _).
  exists out. split; [exact Hout|exact Hiff].
Defined.

(** X19 on 2 and -2. *)
Lemma sign_flips_with_negation_witness :
  truthy_num 2 = true
  /\ signFmt stub_StringToNumber stub_NumberToString stub_toLocaleString (Num (- 2)) 2
     = (minus_sign ++ fmtNumber stub_StringToNumber stub_NumberToString stub_toLocaleString
                        (Num (abs 2)) 2)%string.
Proof.
  assert (H1 : truthy_num 2 = true) by reflexivity.
  split; [exact H1|].
  exact (proj1 (proj2 (@sign_flips_with_negation stub_StringToNumber stub_NumberToString
                         stub_toLocaleString 2%float 2 H1))).
Defined.

(** X21 on a response with the status 404, over the blank page. *)
Lemma load_failure_keeps_rendering_witness :
  fails_before_render stub_StringToNumber stub_NumberToString
    (Resolved false 404 (Throw SyntaxError)) sample_net
  = Some (Error "HTTP 404 while fetching ./data/stockinfo.json")
  /\ rendered (loadFromServer stub_StringToNumber stub_NumberToString stub_toLocaleString
                 stub_newDate stub_toLocaleDateString stub_Date_toLocaleString
                 stub_JSON_stringify stub_engine_message stub_engine_string
                 (Resolved false 404 (Throw SyntaxError)) sample_net blank_view)
     = rendered blank_view
  /\ errorMsg_text (loadFromServer stub_StringToNumber stub_NumberToString
                      stub_toLocaleString stub_newDate stub_toLocaleDateString
                      stub_Date_toLocaleString stub_JSON_stringify stub_engine_message
                      stub_engine_string (Resolved false 404 (Throw SyntaxError))
                      sample_net blank_view)
     = "HTTP 404 while fetching ./data/stockinfo.json"%string.
Proof.
  assert (H1 : fails_before_render stub_StringToNumber stub_NumberToString
                 (Resolved false 404 (Throw SyntaxError)) sample_net
               = Some (Error "HTTP 404 while fetching ./data/stockinfo.json"))
    by reflexivity.
  split; [exact H1|].
  destruct (@load_failure_keeps_rendering stub_StringToNumber stub_NumberToString
              stub_toLocaleString stub_newDate stub_toLocaleDateString
              stub_Date_toLocaleString stub_JSON_stringify stub_engine_message
              stub_engine_string _ sample_net _ blank_view H1)
    as (Hrend & Hmsg & _).
  split; [exact Hrend|exact Hmsg].
Defined.


(** X25 on a series whose second element is null. *)
Lemma renderAll_stops_at_table_witness :
  nullish (series_payload [equity_point 1; Null]) = false
  /\ member (series_payload [equity_point 1; Null]) "equity_series"
     = Arr [equity_point 1; Null]
  /\ last30 [equity_point 1; Null] = ([equity_point 1] ++ Null :: [])%list
  /\ Forall (fun p => nullish p = false) [equity_point 1]
  /\ nullish Null = true
  /\ snd (renderAll stub_StringToNumber stub_NumberToString stub_toLocaleString
            stub_newDate stub_toLocaleDateString stub_Date_toLocaleString
            stub_JSON_stringify (series_payload [equity_point 1; Null]) [] blank_view)
     = Throw TypeError
  /\ chart_page (fst (renderAll stub_StringToNumber stub_NumberToString stub_toLocaleString
                        stub_newDate stub_toLocaleDateString stub_Date_toLocaleString
                        stub_JSON_stringify (series_payload [equity_point 1; Null]) []
                        blank_view))
     = chart_page blank_view.
Proof.
  assert (H1 : nullish (series_payload [equity_point 1; Null]) = false) by reflexivity.
  assert (H2 : member (series_payload [equity_point 1; Null]) "equity_series"
               = Arr [equity_point 1; Null]) by reflexivity.
  assert (H3 : last30 [equity_point 1; Null] = ([equity_point 1] ++ Null :: [])%list)
    by reflexivity.
  assert (H4 : Forall (fun p => nullish p = false) [equity_point 1]) by (repeat constructor).
  assert (H5 : nullish Null = true) by reflexivity.
  split; [exact H1|]. split; [exact H2|]. split; [exact H3|]. split; [exact H4|].
  split; [exact H5|].
  destruct (@renderAll_stops_at_table stub_StringToNumber stub_NumberToString
              stub_toLocaleString stub_newDate stub_toLocaleDateString
              stub_Date_toLocaleString stub_JSON_stringify
              (series_payload [equity_point 1; Null]) [equity_point 1; Null]
              [equity_point 1] [] Null [] blank_view H1 H2 H3 H4 H5)
    as (Hthrow & _ & _ & Hchart & _).
  split; [exact Hthrow|exact Hchart].
Defined.

(** X26 on a series of 31 elements, the oldest of which is null. *)
Lemma old_null_point_breaks_chart_witness :
  nullish (series_payload old_gap_points) = false
  /\ member (series_payload old_gap_points) "equity_series" = Arr old_gap_points
  /\ Forall (fun p => nullish p = false) (last30 old_gap_points)
  /\ In Null old_gap_points
  /\ nullish Null = true
  /\ snd (renderAll stub_StringToNumber stub_NumberToString stub_toLocaleString
            stub_newDate stub_toLocaleDateString stub_Date_toLocaleString
            stub_JSON_stringify (series_payload old_gap_points) [] blank_view)
     = Throw TypeError
  /\ List.length
       (equityBody
          (fst (renderAll stub_StringToNumber stub_NumberToString stub_toLocaleString
                  stub_newDate stub_toLocaleDateString stub_Date_toLocaleString
                  stub_JSON_stringify (series_payload old_gap_points) [] blank_view)))
     = 30.
Proof.
  assert (H1 : nullish (series_payload old_gap_points) = false) by reflexivity.
  assert (H2 : member (series_payload old_gap_points) "equity_series" = Arr old_gap_points)
    by reflexivity.
  assert (H3 : Forall (fun p => nullish p = false) (last30 old_gap_points))
    by (repeat constructor).
  assert (H4 : In Null old_gap_points) by (left; reflexivity).
  assert (H5 : nullish Null = true) by reflexivity.
  split; [exact H1|]. split; [exact H2|]. split; [exact H3|]. split; [exact H4|].
  split; [exact H5|].
  destruct (@old_null_point_breaks_chart stub_StringToNumber stub_NumberToString
              stub_toLocaleString stub_newDate stub_toLocaleDateString
              stub_Date_toLocaleString stub_JSON_stringify
              (series_payload old_gap_points) old_gap_points Null [] blank_view
              H1 H2 H3 H4 H5)
    as (_ & Hthrow & _ & Hrows & _).
  split; [exact Hthrow|exact Hrows].
Defined.

(** X27 on a series of two points. *)
Lemma status_counts_points_witness :
  nullish (series_payload [equity_point 1; equity_point 2]) = false
  /\ member (series_payload [equity_point 1; equity_point 2]) "equity_series"
     = Arr [equity_point 1; equity_point 2]
  /\ Forall (fun p => nullish p = false) [equity_point 1; equity_point 2]
  /\ (Z.of_nat (List.length [equity_point 1; equity_point 2]) < 2 ^ 63)%Z
  /\ status_className
       (fst (renderAll stub_StringToNumber stub_NumberToString stub_toLocaleString
               stub_newDate stub_toLocaleDateString stub_Date_toLocaleString
               stub_JSON_stringify (series_payload [equity_point 1; equity_point 2]) []
               blank_view))
     = "status ok"%string.
Proof.
  assert (H1 : nullish (series_payload [equity_point 1; equity_point 2]) = false)
    by reflexivity.
  assert (H2 : member (series_payload [equity_point 1; equity_point 2]) "equity_series"
               = Arr [equity_point 1; equity_point 2]) by reflexivity.
  assert (H3 : Forall (fun p => nullish p = false) [equity_point 1; equity_point 2])
    by (repeat constructor).
  assert (H4 : (Z.of_nat (List.length [equity_point 1; equity_point 2]) < 2 ^ 63)%Z)
    by reflexivity.
  assert (H5 : 2 <= List.length [equity_point 1; equity_point 2]) by (simpl; auto).
  split; [exact H1|]. split; [exact H2|]. split; [exact H3|]. split; [exact H4|].
  destruct (@status_counts_points stub_StringToNumber stub_NumberToString
              stub_toLocaleString stub_newDate stub_toLocaleDateString
              stub_Date_toLocaleString stub_JSON_stringify
              (series_payload [equity_point 1; equity_point 2])
              [equity_point 1; equity_point 2] [] blank_view H1 H2 H3 H4)
    as (_ & _ & Hmany).
  exact (proj2 (Hmany H5)).
Defined.
